(** * Oral-cancer image labelling tools: review loop and label store

    A shallow embedding of the two Tkinter labelling tools of the repository,

      - [Clinical]  : support/XC_labeller.py            (Suspicious / Non-Suspicious / NA)
      - [Histopath] : support/histopath_label_tool.py   (diagnosis with multi-tier grading)

    together with the properties their specification states about the label
    store, the navigation cursor, the catalog builder and the CSV export.

    Conventions of the embedding.
      - A Python [str] is a Rocq [string], one [ascii] per character (text
        whose code points are below 256); [==] and [<] on [str] are
        [String.eqb] and [String.ltb].
      - A Python [dict] is an insertion-ordered association list ([Py.dict]):
        the tools sort [labels.values()] with a stable sort, so the order of
        insertion is observable in the exported rows.  The grading selection,
        whose order is never observed, is a [gmap]; Python sets are [gset]s.
      - Every callback of the GUI is a function [state -> state].  What the
        callback shows to the user (message boxes) and an exception escaping
        it (Tk reports it and goes on) are appended to the [log] field, so
        "nothing changed but a message" is an equation between states.
      - What a callback reads from outside (the clock, the result of writing
        the files) comes in an [env] record. *)

From Stdlib Require Import String Ascii ZArith List Lia Permutation Sorted.
From stdpp Require Import gmap strings list fin_maps pretty.

Open Scope string_scope.
Open Scope list_scope.

(** ** The platform underneath the tools *)

(** Floats are only subtracted, tested for truth and printed; path
    resolution depends on the file system.  Both are kept abstract. *)
Class Platform := {
  float : Type;
  (** [a - b] on floats *)
  fsub : float -> float -> float;
  (** [bool(x)], that is [x != 0.0] *)
  ftruth : float -> bool;
  (** the format [f"{x:.2f}"] *)
  format_2f : float -> string;
  (** [str(p.resolve())] on the parts of a path, [None] when it raises *)
  resolve : list string -> option string
}.

(** ** Python builtins the tools use *)

Module Py.

(** [str.isspace] on code points below 256. *)
Definition isspace (c : ascii) : bool :=
  let n := nat_of_ascii c in
  ((9 <=? n)%nat && (n <=? 13)%nat) || ((28 <=? n)%nat && (n <=? 32)%nat)
  || (n =? 133)%nat || (n =? 160)%nat.

Fixpoint lstrip (s : string) : string :=
  match s with
  | EmptyString => EmptyString
  | String c s' => if isspace c then lstrip s' else s
  end.

Fixpoint rstrip (s : string) : string :=
  match s with
  | EmptyString => EmptyString
  | String c s' =>
      match rstrip s' with
      | EmptyString => if isspace c then EmptyString else String c EmptyString
      | r => String c r
      end
  end.

(** [s.strip()] *)
Definition strip (s : string) : string := rstrip (lstrip s).

(** A string of whitespace only, the empty one included. *)
Definition blank (s : string) : Prop :=
  forall c, In c (list_ascii_of_string s) -> isspace c = true.

(** [s.replace(old, new)] for one-character [old] and [new]. *)
Fixpoint replace (old new : ascii) (s : string) : string :=
  match s with
  | EmptyString => EmptyString
  | String c s' => String (if Ascii.eqb c old then new else c) (replace old new s')
  end.

Definition LF : ascii := ascii_of_nat 10.
Definition CR : ascii := ascii_of_nat 13.
Definition SP : ascii := ascii_of_nat 32.

(** [c.lower()] on code points below 256: A-Z and the Latin-1 capitals. *)
Definition lower_char (c : ascii) : ascii :=
  let n := nat_of_ascii c in
  if ((65 <=? n)%nat && (n <=? 90)%nat)
     || ((192 <=? n)%nat && (n <=? 222)%nat && negb (n =? 215)%nat)
  then ascii_of_nat (n + 32) else c.

Fixpoint lower (s : string) : string :=
  match s with
  | EmptyString => EmptyString
  | String c s' => String (lower_char c) (lower s')
  end.

(** [sub in s] *)
Fixpoint contains (sub s : string) : bool :=
  String.prefix sub s ||
  match s with
  | EmptyString => false
  | String _ s' => contains sub s'
  end.

(** [bool(s)] for a string *)
Definition nonempty (s : string) : bool :=
  match s with EmptyString => false | _ => true end.

(** Comparison of tuples and of path parts: the first differing component
    decides. *)
Definition lex (c1 c2 : comparison) : comparison :=
  match c1 with Eq => c2 | _ => c1 end.

Fixpoint parts_compare (p q : list string) : comparison :=
  match p, q with
  | [], [] => Eq
  | [], _ :: _ => Lt
  | _ :: _, [] => Gt
  | a :: p', b :: q' => lex (String.compare a b) (parts_compare p' q')
  end.

Definition is_lt (c : comparison) : bool :=
  match c with Lt => true | _ => false end.

(** A three-way comparison that is the one of a total preorder: what the
    comparisons of [str], [int] and of tuples of them are. *)
Definition ordering {A : Type} (cmp : A -> A -> comparison) : Prop :=
  (forall a b, cmp a b = CompOpp (cmp b a)) /\
  (forall a b c, cmp a b = Lt -> cmp b c = Lt -> cmp a c = Lt) /\
  (forall a b c, cmp a b = Eq -> cmp a c = cmp b c).

(** [sorted(l, key=...)]: Python's sort is stable and only asks [<]; the
    stable sorted arrangement of a list is unique, so insertion from the
    right computes what Timsort does. *)
Section Sorted.
Context {A : Type} (lt : A -> A -> bool).

Fixpoint insert_sorted (x : A) (l : list A) : list A :=
  match l with
  | [] => [x]
  | y :: l' => if lt y x then y :: insert_sorted x l' else x :: y :: l'
  end.

Fixpoint sorted (l : list A) : list A :=
  match l with
  | [] => []
  | x :: l' => insert_sorted x (sorted l')
  end.

(** [a] may stand before [b] in a sorted list: [b < a] does not hold. *)
Definition ascending (a b : A) : Prop := lt b a = false.
End Sorted.

(** [l[i]] with Python's negative indices; [None] is IndexError. *)
Definition getitem {A : Type} (l : list A) (i : Z) : option A :=
  if (0 <=? i)%Z then nth_error l (Z.to_nat i)
  else if (- Z.of_nat (length l) <=? i)%Z then nth_error l (Z.to_nat (Z.of_nat (length l) + i))
  else None.

(** [enumerate(l)] *)
Fixpoint enumerate_from {A : Type} (i : nat) (l : list A) : list (nat * A) :=
  match l with
  | [] => []
  | x :: l' => (i, x) :: enumerate_from (S i) l'
  end.

Definition enumerate {A : Type} (l : list A) : list (nat * A) := enumerate_from 0 l.

(** Insertion-ordered dictionaries. *)
Section Dict.
Context {K V : Type} `{EqDecision K}.

Definition dict : Type := list (K * V).

(** [d.get(k)] *)
Fixpoint get (k : K) (d : dict) : option V :=
  match d with
  | [] => None
  | (k', v) :: d' => if decide (k' = k) then Some v else get k d'
  end.

(** [k in d] *)
Definition mem (k : K) (d : dict) : bool :=
  match get k d with Some _ => true | None => false end.

(** [d[k] = v]: an existing key keeps its place, a new one goes last. *)
Fixpoint set (k : K) (v : V) (d : dict) : dict :=
  match d with
  | [] => [(k, v)]
  | (k', v') :: d' =>
      if decide (k' = k) then (k', v) :: d' else (k', v') :: set k v d'
  end.

(** [del d[k]], called by the tools only under [k in d]. *)
Fixpoint del (k : K) (d : dict) : dict :=
  match d with
  | [] => []
  | (k', v') :: d' => if decide (k' = k) then d' else (k', v') :: del k d'
  end.

Definition keys (d : dict) : list K := map fst d.
Definition values (d : dict) : list V := map snd d.
End Dict.

Arguments dict : clear implicits.

End Py.

(** The file-system calls of [pathlib] are part of the platform too: a path
    is its list of parts, and the answers of the file system are fixed
    functions of it (the tools never write inside the image tree). *)
Class FileSystem := {
  (** [list(p.iterdir())] *)
  iterdir : list string -> list (list string);
  (** [p.is_dir()] *)
  is_dir : list string -> bool;
  (** [list(p.rglob("*"))], a finite list *)
  rglob : list string -> list (list string)
}.

Module Path.

Definition path : Type := list string.

(** [p.name] *)
Definition name (p : path) : string := List.last p "".

(** [str(p)] *)
Definition str (p : path) : string := String.concat "/" p.

(** The part of [s] from its last dot on, when it has one. *)
Fixpoint from_last_dot (s : string) : option string :=
  match s with
  | EmptyString => None
  | String c s' =>
      match from_last_dot s' with
      | Some r => Some r
      | None => if Ascii.eqb c "."%char then Some s else None
      end
  end.

(** [p.suffix]: [name[i:]] for [i = name.rfind('.')] when
    [0 < i < len(name) - 1], and [''] otherwise. *)
Definition suffix (p : path) : string :=
  match name p with
  | EmptyString => EmptyString
  | String _ rest =>
      match from_last_dot rest with
      | Some r => if (1 <? String.length r)%nat then r else EmptyString
      | None => EmptyString
      end
  end.

(** [p < q] on paths compares their parts. *)
Definition lt (p q : path) : bool := Py.is_lt (Py.parts_compare p q).

(** The part of [s] before its last dot, when it has one. *)
Fixpoint upto_last_dot (s : string) : option string :=
  match s with
  | EmptyString => None
  | String c s' =>
      match upto_last_dot s' with
      | Some r => Some (String c r)
      | None => if Ascii.eqb c "."%char then Some EmptyString else None
      end
  end.

(** [p.stem]: [name[:i]] for [i = name.rfind('.')] when
    [0 < i < len(name) - 1], and [name] otherwise. *)
Definition stem (p : path) : string :=
  match name p with
  | EmptyString => EmptyString
  | String c rest =>
      match from_last_dot rest, upto_last_dot rest with
      | Some r, Some b => if (1 <? String.length r)%nat then String c b else name p
      | _, _ => name p
      end
  end.

(** [p.with_name(n)] for a name [n] that is a valid last part: the last
    part of [p] is replaced; [None] is the ValueError of a path whose own
    name is empty. *)
Definition with_name (p : path) (n : string) : option path :=
  if Py.nonempty (name p) then Some (removelast p ++ [n]) else None.

End Path.

(** ** The label store against a catalog *)

Module Store.
Section Store.
Context {I R : Type} (key : I -> string).

(** A store over a catalog: one record per key, every key a catalog key. *)
Definition store_ok (imgs : list I) (d : Py.dict string R) : Prop :=
  List.NoDup (Py.keys d) /\ forall k, In k (Py.keys d) -> In k (map key imgs).

(** The records of the labelled images, in catalog order. *)
Definition labelled (imgs : list I) (d : Py.dict string R) : list R :=
  omap (fun img => Py.get (key img) d) imgs.

(** What the loop of a catalog builder keeps true: [seen] is the set of keys
    of [result], and no key occurs twice. *)
Definition tracked (acc : gset string * list I) : Prop :=
  (forall k, k ∈ fst acc <-> In k (map key (snd acc))) /\
  List.NoDup (map key (snd acc)).

(** What a sorted, deduplicated catalog keeps of the walk. *)
Definition catalog_of (walked catalog : list I) : Prop :=
  List.NoDup (map key catalog) /\
  (forall x, In x walked -> count_occ string_dec (map key catalog) (key x) = 1) /\
  incl catalog walked.
End Store.
End Store.

(** What a callback shows or reports. *)
Inductive effect : Type :=
| showinfo (title : string)
| showwarning (title : string)
| showerror (title : string)
| raised (exn : string).

(** A piece of log without a warning: nothing, an information, an error of
    the export, or a reported exception. *)
Definition quiet (l : list effect) : Prop :=
  l = [] \/ (exists t, l = [showinfo t]) \/ (exists t, l = [showerror t])
  \/ (exists x, l = [raised x]).

(** Nothing in [l] is a reported exception. *)
Definition no_exception (l : list effect) : Prop :=
  Forall (fun x => match x with raised _ => False | _ => True end) l.

(** ** The clinical tool: support/XC_labeller.py *)

Module Clinical.

Definition IMAGE_EXTS : list string := [".jpg"; ".jpeg"; ".png"; ".tif"; ".tiff"].

Definition in_exts (s : string) : bool := existsb (String.eqb s) IMAGE_EXTS.

(** An entry of the catalog: [{"case": .., "visit": .., "path": Path(..)}] *)
Record image : Type := {
  img_case : string;
  img_visit : string;
  img_path : Path.path
}.

(** A stored label: [{"case", "visit", "file", "label", "comment"}] *)
Record label_record : Type := {
  case : string;
  visit : string;
  file : string;
  label : string;
  comment : string
}.

(** A row of the CSV file, in the order of [fieldnames]. *)
Record csv_row : Type := {
  csv_case : string;
  csv_visit : string;
  csv_file : string;
  csv_label : string;
  csv_comment : string
}.

Section Tool.
Context `{Platform} `{FileSystem}.

(** The key of the sort that ends [find_clinical_images]:
    [(x["case"], x["visit"], str(x["path"]))] *)
Definition image_lt (x y : image) : bool :=
  Py.is_lt (Py.lex (String.compare (img_case x) (img_case y))
           (Py.lex (String.compare (img_visit x) (img_visit y))
                   (String.compare (Path.str (img_path x)) (Path.str (img_path y))))).

Definition is_group_folder (candidate : Path.path) : bool :=
  is_dir candidate &&
  (let name := Py.lower (Path.name candidate) in
   Py.contains "xc" name || Py.contains "clinical" name).

(** The images the nested loops of [find_clinical_images] reach, in the
    order in which the innermost body runs on them. *)
Definition walk (root : Path.path) : list image :=
  flat_map (fun case =>
    flat_map (fun visit =>
      flat_map (fun candidate =>
        if is_group_folder candidate then
          flat_map (fun img =>
            if in_exts (Py.lower (Path.suffix img))
            then [ {| img_case := Path.name case;
                      img_visit := Path.name visit;
                      img_path := img |} ]
            else [])
            (Py.sorted Path.lt (rglob candidate))
        else [])
        (rglob visit))
      (Py.sorted Path.lt (List.filter is_dir (iterdir case))))
    (Py.sorted Path.lt (List.filter is_dir (iterdir root))).

(** The innermost body: skip a resolved path already seen. *)
Definition visit_image (acc : gset string * list image) (x : image)
  : gset string * list image :=
  let '(seen, result) := acc in
  let resolved :=
    match resolve (img_path x) with
    | Some r => r
    | None => Path.str (img_path x)
    end in
  if decide (resolved ∈ seen) then (seen, result)
  else ({[ resolved ]} ∪ seen, result ++ [x]).

Definition find_clinical_images (root : Path.path) : list image :=
  let '(_, result) := fold_left visit_image (walk root) (∅, []) in
  Py.sorted image_lt result.

(** [get_key] *)
Definition get_key (p : Path.path) : string :=
  match resolve p with
  | Some r => r
  | None => Path.str p
  end.

(** The key of a catalog entry. *)
Definition key (x : image) : string := get_key (img_path x).

(** The tool object together with the module-level [SESSION]. *)
Record state : Type := {
  images : list image;
  index : nat;
  labels : Py.dict string label_record;
  history : list string;
  pointer : Z;
  image_start_time : option float;
  (** the window is gone ([master.destroy()]) *)
  destroyed : bool;
  (** [SESSION] *)
  annotator : string;
  start_time : option float;
  end_time : option float;
  times : list float;
  cases : gset string;
  total_images : nat;
  last_case : option string;
  (** message boxes and reported exceptions, oldest first *)
  log : list effect
}.

Definition set_index (v : nat) (s : state) : state :=
  {| images := images s; index := v; labels := labels s; history := history s;
     pointer := pointer s; image_start_time := image_start_time s;
     destroyed := destroyed s; annotator := annotator s; start_time := start_time s;
     end_time := end_time s; times := times s; cases := cases s;
     total_images := total_images s; last_case := last_case s; log := log s |}.

Definition set_labels (v : Py.dict string label_record) (s : state) : state :=
  {| images := images s; index := index s; labels := v; history := history s;
     pointer := pointer s; image_start_time := image_start_time s;
     destroyed := destroyed s; annotator := annotator s; start_time := start_time s;
     end_time := end_time s; times := times s; cases := cases s;
     total_images := total_images s; last_case := last_case s; log := log s |}.

Definition set_history (v : list string) (s : state) : state :=
  {| images := images s; index := index s; labels := labels s; history := v;
     pointer := pointer s; image_start_time := image_start_time s;
     destroyed := destroyed s; annotator := annotator s; start_time := start_time s;
     end_time := end_time s; times := times s; cases := cases s;
     total_images := total_images s; last_case := last_case s; log := log s |}.

Definition set_pointer (v : Z) (s : state) : state :=
  {| images := images s; index := index s; labels := labels s; history := history s;
     pointer := v; image_start_time := image_start_time s;
     destroyed := destroyed s; annotator := annotator s; start_time := start_time s;
     end_time := end_time s; times := times s; cases := cases s;
     total_images := total_images s; last_case := last_case s; log := log s |}.

Definition set_image_start_time (v : option float) (s : state) : state :=
  {| images := images s; index := index s; labels := labels s; history := history s;
     pointer := pointer s; image_start_time := v;
     destroyed := destroyed s; annotator := annotator s; start_time := start_time s;
     end_time := end_time s; times := times s; cases := cases s;
     total_images := total_images s; last_case := last_case s; log := log s |}.

Definition set_destroyed (v : bool) (s : state) : state :=
  {| images := images s; index := index s; labels := labels s; history := history s;
     pointer := pointer s; image_start_time := image_start_time s;
     destroyed := v; annotator := annotator s; start_time := start_time s;
     end_time := end_time s; times := times s; cases := cases s;
     total_images := total_images s; last_case := last_case s; log := log s |}.

Definition set_end_time (v : option float) (s : state) : state :=
  {| images := images s; index := index s; labels := labels s; history := history s;
     pointer := pointer s; image_start_time := image_start_time s;
     destroyed := destroyed s; annotator := annotator s; start_time := start_time s;
     end_time := v; times := times s; cases := cases s;
     total_images := total_images s; last_case := last_case s; log := log s |}.

Definition set_times (v : list float) (s : state) : state :=
  {| images := images s; index := index s; labels := labels s; history := history s;
     pointer := pointer s; image_start_time := image_start_time s;
     destroyed := destroyed s; annotator := annotator s; start_time := start_time s;
     end_time := end_time s; times := v; cases := cases s;
     total_images := total_images s; last_case := last_case s; log := log s |}.

Definition set_cases (v : gset string) (s : state) : state :=
  {| images := images s; index := index s; labels := labels s; history := history s;
     pointer := pointer s; image_start_time := image_start_time s;
     destroyed := destroyed s; annotator := annotator s; start_time := start_time s;
     end_time := end_time s; times := times s; cases := v;
     total_images := total_images s; last_case := last_case s; log := log s |}.

Definition set_last_case (v : option string) (s : state) : state :=
  {| images := images s; index := index s; labels := labels s; history := history s;
     pointer := pointer s; image_start_time := image_start_time s;
     destroyed := destroyed s; annotator := annotator s; start_time := start_time s;
     end_time := end_time s; times := times s; cases := cases s;
     total_images := total_images s; last_case := v; log := log s |}.

(** A message box, or an exception Tk reports: one more line of the log. *)
Definition tell (e : effect) (s : state) : state :=
  {| images := images s; index := index s; labels := labels s; history := history s;
     pointer := pointer s; image_start_time := image_start_time s;
     destroyed := destroyed s; annotator := annotator s; start_time := start_time s;
     end_time := end_time s; times := times s; cases := cases s;
     total_images := total_images s; last_case := last_case s; log := log s ++ [e] |}.

(** What a callback reads from outside while it runs. *)
Record env : Type := {
  (** [time.time()] where [save_label] measures the elapsed time *)
  t_elapsed : float;
  (** [time.time()] in [show_image], or in [finish] *)
  t_show : float;
  (** whether writing the CSV file and the summary goes through *)
  write_ok : bool
}.

(** [show_banner_if_new_case]: the banner is presentation, what stays is
    [SESSION["last_case"]]. *)
Definition show_banner_if_new_case (s : state) : state :=
  match images s !! index s with
  | None => s
  | Some img_info => set_last_case (Some (img_case img_info)) s
  end.

(** [finish]: the end time is taken and the window destroyed; the review
    window that opens next only reads [labels]. *)
Definition finish (e : env) (s : state) : state :=
  set_destroyed true (set_end_time (Some (t_show e)) s).

Definition push_history (current_key : string) (s : state) : state :=
  let h := history s ++ [current_key] in
  set_pointer (Z.of_nat (length h) - 1) (set_history h s).

(** [show_image] *)
Definition show_image (e : env) (s : state) : state :=
  match images s !! index s with
  | None => finish e s
  | Some img_info =>
      let current_key := get_key (img_path img_info) in
      let updated : option state :=
        if (pointer s =? -1)%Z then Some (push_history current_key s)
        else
          match history s with
          | [] => Some s
          | _ :: _ =>
              match Py.getitem (history s) (pointer s) with
              | None => None
              | Some k =>
                  if String.eqb k current_key then Some s
                  else Some (push_history current_key s)
              end
          end in
      match updated with
      | None => tell (raised "IndexError") s
      | Some s1 =>
          show_banner_if_new_case (set_image_start_time (Some (t_show e)) s1)
      end
  end.

(** The dictionary [save_label] stores for the image [img_info]. *)
Definition label_of (img_info : image) (label comment : string) : label_record :=
  {| case := img_case img_info;
     visit := img_visit img_info;
     file := Path.name (img_path img_info);
     label := label;
     comment := comment |}.

(** [save_label] *)
Definition save_label (e : env) (label comment : string) (s : state) : state :=
  match images s !! index s with
  | None => tell (raised "IndexError") s
  | Some img_info =>
      let key := get_key (img_path img_info) in
      let s1 := set_labels (Py.set key (label_of img_info label comment) (labels s)) s in
      let s2 :=
        match image_start_time s1 with
        | Some t0 =>
            if ftruth t0
            then set_image_start_time None
                   (set_times (times s1 ++ [fsub (t_elapsed e) t0]) s1)
            else s1
        | None => s1
        end in
      let s3 := set_cases ({[ img_case img_info ]} ∪ cases s2) s2 in
      show_image e (set_index (index s3 + 1) s3)
  end.

(** [save_na], the button of [comment_window]; [txt] is what
    [txt.get("1.0", tk.END)] returns. *)
Definition save_na (e : env) (txt : string) (s : state) : state :=
  let comment := Py.strip txt in
  save_label e "NA" comment s.

(** The first position of the catalog whose key is [k]. *)
Fixpoint find_key (k : string) (i : nat) (l : list image) : option nat :=
  match l with
  | [] => None
  | obj :: l' =>
      if String.eqb (get_key (img_path obj)) k then Some i
      else find_key k (S i) l'
  end.

(** [go_back] *)
Definition go_back (e : env) (s : state) : state :=
  if (0 <? pointer s)%Z then
    let s1 := set_pointer (pointer s - 1) s in
    match Py.getitem (history s1) (pointer s1) with
    | None => tell (raised "IndexError") s1
    | Some prev_key =>
        let s2 :=
          match find_key prev_key 0 (images s1) with
          | Some i => set_index i s1
          | None => s1
          end in
        let s3 :=
          match times s2 with
          | [] => s2
          | _ :: _ => set_times (removelast (times s2)) s2
          end in
        show_image e s3
    end
  else tell (showinfo "Info") s.

(** [relabel_current] *)
Definition relabel_current (s : state) : state :=
  match images s !! index s with
  | None => s
  | Some img_info =>
      let key := get_key (img_path img_info) in
      if Py.mem key (labels s)
      then tell (showinfo "Relabel") (set_labels (Py.del key (labels s)) s)
      else tell (showinfo "Info") s
  end.

(** The sort key of the export: [(r["case"], r["visit"], r["file"])] *)
Definition record_lt (r1 r2 : label_record) : bool :=
  Py.is_lt (Py.lex (String.compare (case r1) (case r2))
           (Py.lex (String.compare (visit r1) (visit r2))
                   (String.compare (file r1) (file r2)))).

Definition clean_comment (c : string) : string :=
  Py.replace Py.CR Py.SP (Py.replace Py.LF Py.SP c).

(** The local [rows] of [_write_csv]: the stored labels, sorted. *)
Definition rows (s : state) : list label_record :=
  Py.sorted record_lt (Py.values (labels s)).

(** The dictionary handed to [writer.writerow] for [row]. *)
Definition writerow (row : label_record) : csv_row :=
  {| csv_case := case row;
     csv_visit := visit row;
     csv_file := file row;
     csv_label := label row;
     csv_comment := clean_comment (comment row) |}.

(** [_write_csv]: the rows handed to the CSV writer, after the header. *)
Definition _write_csv (s : state) : list csv_row :=
  map writerow (rows s).

(** [save_progress] *)
Definition save_progress (e : env) (s : state) : state :=
  match labels s with
  | [] => tell (showwarning "Warning") s
  | _ :: _ =>
      if write_ok e then tell (showinfo "Progress Saved") s
      else tell (showerror "Error") s
  end.

(** [sum(1 for v in self.labels.values() if v["label"] == l)] *)
Definition count_label (l : string) (d : Py.dict string label_record) : nat :=
  list_sum (map (fun _ => 1) (List.filter (fun v => String.eqb (label v) l) (Py.values d))).

(** The numbers [update_info_display] and [_write_summary] report:
    total, Suspicious, Non-Suspicious, NA. *)
Definition label_statistics (s : state) : nat * nat * nat * nat :=
  (length (labels s),
   count_label "Suspicious" (labels s),
   count_label "Non-Suspicious" (labels s),
   count_label "NA" (labels s)).

(** The buttons of the window. *)
Inductive event : Type :=
| press_suspicious
| press_non_suspicious
| press_save_na (txt : string)
| press_back
| press_relabel
| press_save_progress.

(** One callback; a destroyed window receives none. *)
Definition step (s : state) (x : env * event) : state :=
  if destroyed s then s
  else
    let '(e, ev) := x in
    match ev with
    | press_suspicious => save_label e "Suspicious" "" s
    | press_non_suspicious => save_label e "Non-Suspicious" "" s
    | press_save_na txt => save_na e txt s
    | press_back => go_back e s
    | press_relabel => relabel_current s
    | press_save_progress => save_progress e s
    end.

Definition run (s : state) (trace : list (env * event)) : state :=
  fold_left step trace s.

(** The part of the state the invariants are about. *)
Definition core (s : state) : list image * nat * Py.dict string label_record
                    * list string * Z * bool :=
  (images s, index s, labels s, history s, pointer s, destroyed s).

(** The cursor of the history points at the key of the image on display. *)
Definition pointed_on (c : list image * nat * Py.dict string label_record
                            * list string * Z * bool) : Prop :=
  let '(imgs, i, d, h, p, dead) := c in
  exists img, imgs !! i = Some img /\ (0 <= p)%Z /\
              nth_error h (Z.to_nat p) = Some (key img).

Definition inv_on (c : list image * nat * Py.dict string label_record
                        * list string * Z * bool) : Prop :=
  let '(imgs, i, d, h, p, dead) := c in
  List.NoDup (map key imgs) /\
  Store.store_ok key imgs d /\
  (forall k, In k h -> In k (map key imgs)) /\
  (forall j img0, imgs !! 0 = Some img0 -> nth_error h j = Some (key img0) -> j = 0) /\
  (dead = false -> pointed_on c).

Definition inv (s : state) : Prop := inv_on (core s).

(** [__init__] on a fresh [SESSION]: [name] is the answer to the annotator
    prompt, [t_start] the clock at start. *)
Definition init (name : option string) (t_start : float) (e : env)
    (imgs : list image) : state :=
  show_image e
    {| images := imgs; index := 0; labels := []; history := []; pointer := (-1)%Z;
       image_start_time := None; destroyed := false;
       annotator := match name with
                    | Some n => if Py.nonempty n then n else "Anonymous"
                    | None => "Anonymous"
                    end;
       start_time := Some t_start; end_time := None; times := [];
       cases := ∅; total_images := length imgs; last_case := None; log := [] |}.

(** A session: the catalog found under [root], the window opened on it,
    then the callbacks of [trace] in order. *)
Definition session (root : Path.path) (name : option string) (t_start : float)
    (e : env) (trace : list (env * event)) : state :=
  run (init name t_start e (find_clinical_images root)) trace.

(** The categories of the labelled images, in catalog order. *)
Definition categories (s : state) : list string :=
  map label (Store.labelled key (images s) (labels s)).

(** What the buttons submit: a label and the comment that goes with it. *)
Definition button_label (l c : string) : Prop :=
  (l = "Suspicious" /\ c = "") \/ (l = "Non-Suspicious" /\ c = "") \/
  (l = "NA" /\ exists txt, c = Py.strip txt).

(** Every stored record is the one [save_label] builds for an image of the
    catalog, under the key of that image, from what a button submits. *)
Definition recorded (s : state) : Prop :=
  forall k r, In (k, r) (labels s) ->
    exists img l c,
      In img (images s) /\ key img = k /\ r = label_of img l c /\ button_label l c.

(** The position stays in the catalog; a closed window is one whose
    position went past the last image, and it is then that the end time is
    taken; no callback has raised. *)
Definition placed (s : state) : Prop :=
  index s <= length (images s) /\
  (destroyed s = true -> index s = length (images s)) /\
  (destroyed s = true <-> end_time s <> None) /\
  (forall exn, ~ In (raised exn) (log s)) /\
  total_images s = length (images s).

(** [SESSION["cases"]] holds the case of every stored label, and only cases
    of the catalog. *)
Definition cases_ok (s : state) : Prop :=
  (forall k r, In (k, r) (labels s) -> case r ∈ cases s) /\
  (forall c, c ∈ cases s -> In c (map img_case (images s))).

(** The path of the summary in [_write_summary], for the output file
    [output_file]: [None] is the ValueError of [with_name]. *)
Definition summary_path (output_file : Path.path) : option Path.path :=
  Path.with_name output_file (Path.stem output_file +:+ "_summary.txt").

(** The dictionary a case starts with in [case_stats]. *)
Definition fresh_stats : Py.dict string nat :=
  [("total", 0); ("Suspicious", 0); ("Non-Suspicious", 0); ("NA", 0)].

(** [d[k] += 1]; [None] is KeyError. *)
Definition incr (k : string) (d : Py.dict string nat) : option (Py.dict string nat) :=
  match Py.get k d with
  | Some n => Some (Py.set k (n + 1) d)
  | None => None
  end.

(** One turn of the loop that fills [case_stats]; [None] is KeyError. *)
Definition case_stats_step (acc : option (Py.dict string (Py.dict string nat)))
    (label_data : label_record) : option (Py.dict string (Py.dict string nat)) :=
  match acc with
  | None => None
  | Some stats =>
      let stats1 :=
        if Py.mem (case label_data) stats then stats
        else Py.set (case label_data) fresh_stats stats in
      match Py.get (case label_data) stats1 with
      | None => None
      | Some row =>
          match incr "total" row with
          | None => None
          | Some row1 =>
              match incr (label label_data) row1 with
              | None => None
              | Some row2 => Some (Py.set (case label_data) row2 stats1)
              end
          end
      end
  end.

(** The [case_stats] dictionary of [_write_summary]. *)
Definition case_stats (s : state) : option (Py.dict string (Py.dict string nat)) :=
  fold_left case_stats_step (Py.values (labels s)) (Some []).

(** The number of the records [rs] of case [c] that [keep] accepts. *)
Definition count_in_case (keep : label_record -> bool) (c : string)
    (rs : list label_record) : nat :=
  length (List.filter (fun r => String.eqb (case r) c && keep r) rs).

(** [stats] holds, for each case, the numbers of the records [rs] of that
    case: all of them under "total", those of each label under the label;
    a case without record has no entry. *)
Definition tallies (rs : list label_record)
    (stats : Py.dict string (Py.dict string nat)) : Prop :=
  forall c,
    match Py.get c stats with
    | None => forall r, In r rs -> case r <> c
    | Some row =>
        (exists r, In r rs /\ case r = c) /\
        Py.get "total" row = Some (count_in_case (fun _ => true) c rs) /\
        forall l, In l ["Suspicious"; "Non-Suspicious"; "NA"] ->
          Py.get l row = Some (count_in_case (fun r => String.eqb (label r) l) c rs)
    end.

End Tool.
End Clinical.

(** ** The histopathology tool: support/histopath_label_tool.py *)

Module Histopath.

Definition IMAGE_EXTS : list string := [".jpg"; ".jpeg"; ".png"; ".tif"; ".tiff"].

Definition in_exts (s : string) : bool := existsb (String.eqb s) IMAGE_EXTS.

(** The values that go through the grading dictionary and the [diagnosis]
    variable: strings, [True], and the [None] of a missing key. *)
Inductive pyval : Type :=
| PNone
| PTrue
| PStr (s : string).

#[global] Instance pyval_eq_dec : EqDecision pyval.
Proof. solve_decision. Defined.

(** [bool(v)] *)
Definition truthy (v : pyval) : bool :=
  match v with
  | PNone => false
  | PTrue => true
  | PStr s => Py.nonempty s
  end.

(** [f"{v}"] *)
Definition format (v : pyval) : string :=
  match v with
  | PNone => "None"
  | PTrue => "True"
  | PStr s => s
  end.

(** [v == s] for a string literal [s] *)
Definition is_str (v : pyval) (s : string) : bool :=
  match v with
  | PStr s' => String.eqb s' s
  | _ => false
  end.

(** [g.get(k)] *)
Definition gget (k : string) (g : gmap string pyval) : pyval :=
  default PNone (g !! k).

(** [k in g] *)
Definition gmem (k : string) (g : gmap string pyval) : bool :=
  match g !! k with Some _ => true | None => false end.

Definition is_digit (c : ascii) : bool :=
  let n := nat_of_ascii c in (48 <=? n)%nat && (n <=? 57)%nat.

(** The digits at the head of [s], and what follows them. *)
Fixpoint span_digits (s : string) : string * string :=
  match s with
  | EmptyString => (EmptyString, EmptyString)
  | String c s' =>
      if is_digit c
      then let '(ds, rest) := span_digits s' in (String c ds, rest)
      else (EmptyString, s)
  end.

(** [re.search(r'(\d+)x', s)]: group 1 of the leftmost match. *)
Fixpoint search_digits_x (s : string) : option string :=
  match s with
  | EmptyString => None
  | String c s' =>
      if is_digit c then
        match span_digits s with
        | (ds, String x _) =>
            if Ascii.eqb x "x"%char then Some ds else search_digits_x s'
        | _ => search_digits_x s'
        end
      else search_digits_x s'
  end.

(** [int(ds)] for a string of digits *)
Fixpoint int_of_digits (acc : Z) (ds : string) : Z :=
  match ds with
  | EmptyString => acc
  | String c ds' => int_of_digits (10 * acc + Z.of_nat (nat_of_ascii c - 48)) ds'
  end.

(** [extract_magnification] *)
Definition extract_magnification (folder_name : string) : Z :=
  match search_digits_x (Py.lower folder_name) with
  | Some ds => int_of_digits 0 ds
  | None => 0%Z
  end.

(** An entry of the catalog. *)
Record image : Type := {
  img_case_id : string;
  img_visit_id : string;
  img_body_site : string;
  img_magnification : string;
  img_mag_value : Z;
  img_filename : string;
  img_path : Path.path
}.

(** A stored label. *)
Record label_record : Type := {
  case_id : string;
  visit_id : string;
  body_site : string;
  magnification : string;
  mag_value : Z;
  filename : string;
  diagnosis : pyval;
  subtype : string;
  comment : string
}.

(** A row of the CSV file, in the order of [fields]. *)
Record csv_row : Type := {
  Case_ID : string;
  Visit_ID : string;
  Body_Site : string;
  Magnification : string;
  Image_File : string;
  Diagnosis : string;
  Subtype : string;
  Comment : string;
  Time_Spent_sec : string;
  Annotator : string;
  Timestamp : string
}.

Section Tool.
Context `{Platform} `{FileSystem}.

(** The key of the sort that ends [find_histopath_images]. *)
Definition image_lt (x y : image) : bool :=
  Py.is_lt (Py.lex (String.compare (img_case_id x) (img_case_id y))
           (Py.lex (String.compare (img_visit_id x) (img_visit_id y))
           (Py.lex (String.compare (img_body_site x) (img_body_site y))
           (Py.lex (Z.compare (img_mag_value x) (img_mag_value y))
                   (String.compare (img_filename x) (img_filename y)))))).

Definition is_histopath_folder (candidate : Path.path) : bool :=
  is_dir candidate && Py.contains "histopath" (Py.lower (Path.name candidate)).

(** The first folder of [visit_dir.rglob("*")] that qualifies. *)
Definition histopath_base (visit_dir : Path.path) : option Path.path :=
  List.find is_histopath_folder (rglob visit_dir).

(** The images the nested loops of [find_histopath_images] reach, in the
    order in which the innermost body runs on them. *)
Definition walk (root : Path.path) : list image :=
  flat_map (fun case_dir =>
    flat_map (fun visit_dir =>
      match histopath_base visit_dir with
      | None => []
      | Some base =>
          flat_map (fun body_site_dir =>
            flat_map (fun mag_dir =>
              flat_map (fun img_path =>
                if in_exts (Py.lower (Path.suffix img_path))
                then [ {| img_case_id := Path.name case_dir;
                          img_visit_id := Path.name visit_dir;
                          img_body_site := Path.name body_site_dir;
                          img_magnification := Path.name mag_dir;
                          img_mag_value := extract_magnification (Path.name mag_dir);
                          img_filename := Path.name img_path;
                          img_path := img_path |} ]
                else [])
                (Py.sorted Path.lt (iterdir mag_dir)))
              (Py.sorted Path.lt (List.filter is_dir (iterdir body_site_dir))))
            (Py.sorted Path.lt (List.filter is_dir (iterdir base)))
      end)
      (Py.sorted Path.lt (List.filter is_dir (iterdir case_dir))))
    (Py.sorted Path.lt (List.filter is_dir (iterdir root))).

(** The innermost body: skip a resolved path already seen. *)
Definition visit_image (acc : gset string * list image) (x : image)
  : gset string * list image :=
  let '(seen, result) := acc in
  let resolved :=
    match resolve (img_path x) with
    | Some r => r
    | None => Path.str (img_path x)
    end in
  if decide (resolved ∈ seen) then (seen, result)
  else ({[ resolved ]} ∪ seen, result ++ [x]).

Definition find_histopath_images (root : Path.path) : list image :=
  let '(_, result) := fold_left visit_image (walk root) (∅, []) in
  Py.sorted image_lt result.

(** [get_key] *)
Definition get_key (p : Path.path) : string :=
  match resolve p with
  | Some r => r
  | None => Path.str p
  end.

(** The key of a catalog entry. *)
Definition key (x : image) : string := get_key (img_path x).

(** The tool object together with the module-level [SESSION].  The two
    visibility flags of the banners are presentation and left out;
    [comment_text] is the content of the comment box. *)
Record state : Type := {
  images : list image;
  index : nat;
  labels : Py.dict string label_record;
  image_start_time : option float;
  current_primary : option string;
  current_grading : gmap string pyval;
  comment_text : string;
  (** the window is gone ([master.destroy()]) *)
  destroyed : bool;
  (** [SESSION] *)
  annotator : string;
  start_time : option float;
  end_time : option float;
  times : list float;
  cases : gset string;
  last_case : option string;
  (** message boxes and reported exceptions, oldest first *)
  log : list effect
}.

Definition set_index (v : nat) (s : state) : state :=
  {| images := images s; index := v; labels := labels s;
     image_start_time := image_start_time s; current_primary := current_primary s;
     current_grading := current_grading s; comment_text := comment_text s;
     destroyed := destroyed s; annotator := annotator s; start_time := start_time s;
     end_time := end_time s; times := times s; cases := cases s;
     last_case := last_case s; log := log s |}.

Definition set_labels (v : Py.dict string label_record) (s : state) : state :=
  {| images := images s; index := index s; labels := v;
     image_start_time := image_start_time s; current_primary := current_primary s;
     current_grading := current_grading s; comment_text := comment_text s;
     destroyed := destroyed s; annotator := annotator s; start_time := start_time s;
     end_time := end_time s; times := times s; cases := cases s;
     last_case := last_case s; log := log s |}.

Definition set_image_start_time (v : option float) (s : state) : state :=
  {| images := images s; index := index s; labels := labels s;
     image_start_time := v; current_primary := current_primary s;
     current_grading := current_grading s; comment_text := comment_text s;
     destroyed := destroyed s; annotator := annotator s; start_time := start_time s;
     end_time := end_time s; times := times s; cases := cases s;
     last_case := last_case s; log := log s |}.

Definition set_current_primary (v : option string) (s : state) : state :=
  {| images := images s; index := index s; labels := labels s;
     image_start_time := image_start_time s; current_primary := v;
     current_grading := current_grading s; comment_text := comment_text s;
     destroyed := destroyed s; annotator := annotator s; start_time := start_time s;
     end_time := end_time s; times := times s; cases := cases s;
     last_case := last_case s; log := log s |}.

Definition set_current_grading (v : gmap string pyval) (s : state) : state :=
  {| images := images s; index := index s; labels := labels s;
     image_start_time := image_start_time s; current_primary := current_primary s;
     current_grading := v; comment_text := comment_text s;
     destroyed := destroyed s; annotator := annotator s; start_time := start_time s;
     end_time := end_time s; times := times s; cases := cases s;
     last_case := last_case s; log := log s |}.

Definition set_comment_text (v : string) (s : state) : state :=
  {| images := images s; index := index s; labels := labels s;
     image_start_time := image_start_time s; current_primary := current_primary s;
     current_grading := current_grading s; comment_text := v;
     destroyed := destroyed s; annotator := annotator s; start_time := start_time s;
     end_time := end_time s; times := times s; cases := cases s;
     last_case := last_case s; log := log s |}.

Definition set_destroyed (v : bool) (s : state) : state :=
  {| images := images s; index := index s; labels := labels s;
     image_start_time := image_start_time s; current_primary := current_primary s;
     current_grading := current_grading s; comment_text := comment_text s;
     destroyed := v; annotator := annotator s; start_time := start_time s;
     end_time := end_time s; times := times s; cases := cases s;
     last_case := last_case s; log := log s |}.

Definition set_end_time (v : option float) (s : state) : state :=
  {| images := images s; index := index s; labels := labels s;
     image_start_time := image_start_time s; current_primary := current_primary s;
     current_grading := current_grading s; comment_text := comment_text s;
     destroyed := destroyed s; annotator := annotator s; start_time := start_time s;
     end_time := v; times := times s; cases := cases s;
     last_case := last_case s; log := log s |}.

Definition set_times (v : list float) (s : state) : state :=
  {| images := images s; index := index s; labels := labels s;
     image_start_time := image_start_time s; current_primary := current_primary s;
     current_grading := current_grading s; comment_text := comment_text s;
     destroyed := destroyed s; annotator := annotator s; start_time := start_time s;
     end_time := end_time s; times := v; cases := cases s;
     last_case := last_case s; log := log s |}.

Definition set_cases (v : gset string) (s : state) : state :=
  {| images := images s; index := index s; labels := labels s;
     image_start_time := image_start_time s; current_primary := current_primary s;
     current_grading := current_grading s; comment_text := comment_text s;
     destroyed := destroyed s; annotator := annotator s; start_time := start_time s;
     end_time := end_time s; times := times s; cases := v;
     last_case := last_case s; log := log s |}.

Definition set_last_case (v : option string) (s : state) : state :=
  {| images := images s; index := index s; labels := labels s;
     image_start_time := image_start_time s; current_primary := current_primary s;
     current_grading := current_grading s; comment_text := comment_text s;
     destroyed := destroyed s; annotator := annotator s; start_time := start_time s;
     end_time := end_time s; times := times s; cases := cases s;
     last_case := v; log := log s |}.

(** A message box, or an exception Tk reports: one more line of the log. *)
Definition tell (e : effect) (s : state) : state :=
  {| images := images s; index := index s; labels := labels s;
     image_start_time := image_start_time s; current_primary := current_primary s;
     current_grading := current_grading s; comment_text := comment_text s;
     destroyed := destroyed s; annotator := annotator s; start_time := start_time s;
     end_time := end_time s; times := times s; cases := cases s;
     last_case := last_case s; log := log s ++ [e] |}.

(** What a callback reads from outside while it runs. *)
Record env : Type := {
  (** [time.time()] where [save_label_to_storage] measures the elapsed time *)
  t_elapsed : float;
  (** [time.time()] in [show_image], or in [finish] *)
  t_show : float;
  (** whether writing the CSV file and the summary goes through *)
  write_ok : bool
}.

(** [select_primary]; the buttons it builds are presentation. *)
Definition select_primary (diagnosis : string) (s : state) : state :=
  set_current_grading {[ "diagnosis" := PStr diagnosis ]}
    (set_current_primary (Some diagnosis) s).

(** [select_grading] *)
Definition select_grading (tier value : string) (s : state) : state :=
  let g := current_grading s in
  let g1 := if gmem "ungradable" g then delete "ungradable" g else g in
  set_current_grading (<[ tier := PStr value ]> g1) s.

(** [select_ungradable] *)
Definition select_ungradable (s : state) : state :=
  let g := current_grading s in
  let keys_to_remove :=
    List.filter (fun k => negb (existsb (String.eqb k) ["diagnosis"]))
                (map fst (map_to_list g)) in
  let g1 := fold_left (fun g' key => delete key g') keys_to_remove g in
  set_current_grading (<[ "ungradable" := PTrue ]> g1) s.

(** [self.comment_text.get("1.0", tk.END)]: the content of the box and the
    newline Tk ends it with. *)
Definition get_comment_text (s : state) : string :=
  comment_text s +:+ String Py.LF EmptyString.

(** [show_banner_if_new_case]: the banner is presentation, what stays is
    [SESSION["last_case"]]. *)
Definition show_banner_if_new_case (s : state) : state :=
  match images s !! index s with
  | None => s
  | Some img_info => set_last_case (Some (img_case_id img_info)) s
  end.

(** The sort key of the export. *)
Definition record_lt (r1 r2 : label_record) : bool :=
  Py.is_lt (Py.lex (String.compare (case_id r1) (case_id r2))
           (Py.lex (String.compare (visit_id r1) (visit_id r2))
           (Py.lex (String.compare (body_site r1) (body_site r2))
           (Py.lex (Z.compare (mag_value r1) (mag_value r2))
                   (String.compare (filename r1) (filename r2)))))).

Definition clean_comment (c : string) : string :=
  Py.replace Py.CR Py.SP (Py.replace Py.LF Py.SP c).

(** What the CSV writer prints for a value: [None] as the empty field. *)
Definition csv_str (v : pyval) : string :=
  match v with
  | PNone => EmptyString
  | _ => format v
  end.

(** The local [rows] of [_write_csv]: the stored labels, sorted. *)
Definition rows (s : state) : list label_record :=
  Py.sorted record_lt (Py.values (labels s)).

(** The dictionary handed to [writer.writerow] for the [i]-th row;
    [stamp i] is [datetime.now()] formatted, as read for that row, and
    [times !! i] is [Some] exactly when [i < len(SESSION["times"])]. *)
Definition writerow (stamp : nat -> string) (s : state)
    (x : nat * label_record) : csv_row :=
  let '(i, row) := x in
  {| Case_ID := case_id row;
     Visit_ID := visit_id row;
     Body_Site := body_site row;
     Magnification := magnification row;
     Image_File := filename row;
     Diagnosis := csv_str (diagnosis row);
     Subtype := subtype row;
     Comment := clean_comment (comment row);
     Time_Spent_sec :=
       match times s !! i with
       | Some t => format_2f t
       | None => "0"
       end;
     Annotator := annotator s;
     Timestamp := stamp i |}.

(** [_write_csv]: the rows handed to the CSV writer, after the header. *)
Definition _write_csv (stamp : nat -> string) (s : state) : list csv_row :=
  map (writerow stamp s) (Py.enumerate (rows s)).

(** [finish] *)
Definition finish (e : env) (s : state) : state :=
  let s1 := set_end_time (Some (t_show e)) s in
  match labels s1 with
  | [] => set_destroyed true (tell (showinfo "Complete") s1)
  | _ :: _ =>
      if write_ok e then set_destroyed true (tell (showinfo "Complete!") s1)
      else tell (showerror "Error") s1
  end.

(** [show_image] *)
Definition show_image (e : env) (s : state) : state :=
  match images s !! index s with
  | None => finish e s
  | Some img_info =>
      let s1 := set_image_start_time (Some (t_show e)) s in
      let s2 := show_banner_if_new_case s1 in
      let key := get_key (img_path img_info) in
      let existing := Py.get key (labels s2) in
      let s3 := set_current_grading ∅ (set_current_primary None s2) in
      match existing with
      | Some r =>
          if Py.nonempty (comment r) then set_comment_text (comment r) s3
          else set_comment_text EmptyString s3
      | None => set_comment_text EmptyString s3
      end
  end.

(** The dictionary [save_label_to_storage] stores for the image [img_info]. *)
Definition label_of (img_info : image) (diagnosis : pyval)
    (subtype comment : string) : label_record :=
  {| case_id := img_case_id img_info;
     visit_id := img_visit_id img_info;
     body_site := img_body_site img_info;
     magnification := img_magnification img_info;
     mag_value := img_mag_value img_info;
     filename := img_filename img_info;
     diagnosis := diagnosis;
     subtype := subtype;
     comment := comment |}.

(** [save_label_to_storage] *)
Definition save_label_to_storage (e : env) (diagnosis : pyval)
    (subtype comment : string) (s : state) : state :=
  match images s !! index s with
  | None => tell (raised "IndexError") s
  | Some img_info =>
      let key := get_key (img_path img_info) in
      let s1 :=
        set_labels
          (Py.set key (label_of img_info diagnosis subtype comment) (labels s)) s in
      let s2 :=
        match image_start_time s1 with
        | Some t0 =>
            if ftruth t0 then set_times (times s1 ++ [fsub (t_elapsed e) t0]) s1
            else s1
        | None => s1
        end in
      let s3 := set_cases ({[ img_case_id img_info ]} ∪ cases s2) s2 in
      let s4 := set_index (index s3 + 1) s3 in
      show_image e (set_current_grading ∅ (set_current_primary None s4))
  end.

(** [save_label_simple] *)
Definition save_label_simple (e : env) (subtype : string) (s : state) : state :=
  let comment := Py.strip (get_comment_text s) in
  let diagnosis := gget "diagnosis" (current_grading s) in
  if is_str diagnosis "Indeterminate" && negb (Py.nonempty comment)
  then tell (showwarning "Comment Required") s
  else save_label_to_storage e diagnosis subtype comment s.

(** [save_multi_tier_label] *)
Definition save_multi_tier_label (e : env) (s : state) : state :=
  let g := current_grading s in
  let diagnosis := gget "diagnosis" g in
  let comment := Py.strip (get_comment_text s) in
  if truthy (gget "ungradable" g) then
    if negb (Py.nonempty comment) then tell (showwarning "Comment Required") s
    else save_label_to_storage e diagnosis "Ungradable" comment s
  else if is_str diagnosis "Dysplasia" then
    if negb (gmem "binary" g) || negb (gmem "three_tier" g)
    then tell (showwarning "Incomplete") s
    else
      let subtype :=
        "Binary:" +:+ format (gget "binary" g) +:+
        "|ThreeTier:" +:+ format (gget "three_tier" g) in
      save_label_to_storage e diagnosis subtype comment s
  else if is_str diagnosis "Cancer" then
    if negb (gmem "three_tier_diff" g)
    then tell (showwarning "Incomplete") s
    else
      let subtype := "ThreeTier:" +:+ format (gget "three_tier_diff" g) in
      save_label_to_storage e diagnosis subtype comment s
  else s.

Definition reset_selection (s : state) : state :=
  set_current_grading ∅ (set_current_primary None s).

(** [next_image] *)
Definition next_image (e : env) (s : state) : state :=
  if (Z.of_nat (index s) <? Z.of_nat (length (images s)) - 1)%Z
  then show_image e (reset_selection (set_index (index s + 1) s))
  else tell (showinfo "End") s.

(** [go_back] *)
Definition go_back (e : env) (s : state) : state :=
  if (0 <? index s)%nat then
    let s1 := reset_selection (set_index (index s - 1) s) in
    let s2 :=
      match times s1 with
      | [] => s1
      | _ :: _ => set_times (removelast (times s1)) s1
      end in
    show_image e s2
  else tell (showinfo "Start") s.

(** [on_progress_click]: [x] is [event.x], [w] the width of the canvas. *)
Definition on_progress_click (e : env) (x w : Z) (s : state) : state :=
  let n := Z.of_nat (length (images s)) in
  if (n =? 0)%Z then tell (raised "ZeroDivisionError") s
  else
    let idx := (x / Z.max 2 (w / n))%Z in
    if ((0 <=? idx) && (idx <? n))%Z
    then show_image e (reset_selection (set_index (Z.to_nat idx) s))
    else s.

(** [relabel_current] *)
Definition relabel_current (e : env) (s : state) : state :=
  match images s !! index s with
  | None => s
  | Some img_info =>
      let key := get_key (img_path img_info) in
      if Py.mem key (labels s)
      then show_image e (tell (showinfo "Relabel") (set_labels (Py.del key (labels s)) s))
      else tell (showinfo "Info") s
  end.

(** [save_progress] *)
Definition save_progress (e : env) (s : state) : state :=
  match labels s with
  | [] => tell (showwarning "Warning") s
  | _ :: _ =>
      if write_ok e then tell (showinfo "Saved") s
      else tell (showerror "Error") s
  end.

(** The [counts] dictionary of [_write_summary]. *)
Definition count_step (counts : Py.dict pyval nat) (lbl : label_record)
  : Py.dict pyval nat :=
  let d := diagnosis lbl in
  Py.set d (default 0 (Py.get d counts) + 1) counts.

Definition label_distribution (s : state) : Py.dict pyval nat :=
  fold_left count_step (Py.values (labels s)) [].

(** What the user does to the window: the buttons, a click on the progress
    bar, an edit of the comment box.  The arguments of the callbacks are
    those the buttons are built with. *)
Inductive event : Type :=
| press_primary (diagnosis : string)
| press_tissue (tissue : string)
| press_save_indeterminate
| press_grading (tier value : string)
| press_ungradable
| press_save
| press_previous
| press_next
| press_relabel
| press_save_progress
| click_progress (x w : Z)
| edit_comment (txt : string).

(** One callback; a destroyed window receives none. *)
Definition step (s : state) (x : env * event) : state :=
  if destroyed s then s
  else
    let '(e, ev) := x in
    match ev with
    | press_primary d => select_primary d s
    | press_tissue t => save_label_simple e t s
    | press_save_indeterminate => save_label_simple e "" s
    | press_grading tier value => select_grading tier value s
    | press_ungradable => select_ungradable s
    | press_save => save_multi_tier_label e s
    | press_previous => go_back e s
    | press_next => next_image e s
    | press_relabel => relabel_current e s
    | press_save_progress => save_progress e s
    | click_progress x w => on_progress_click e x w s
    | edit_comment txt => set_comment_text txt s
    end.

Definition run (s : state) (trace : list (env * event)) : state :=
  fold_left step trace s.

(** The comment a save callback works with. *)
Definition entered_comment (s : state) : string := Py.strip (get_comment_text s).

(** How a callback may move the store: not at all, by writing the record of
    a catalog image, or by deleting a key.  The catalog never moves. *)
Definition store_move (s s' : state) : Prop :=
  images s' = images s /\
  (labels s' = labels s \/
   (exists img r, In img (images s) /\ labels s' = Py.set (key img) r (labels s)) \/
   (exists k, labels s' = Py.del k (labels s))).

(** The invariant of the store. *)
Definition store_inv (s : state) : Prop :=
  List.NoDup (map key (images s)) /\ Store.store_ok key (images s) (labels s).

(** The buttons the window really has. *)
Definition primary_names : list string :=
  ["Normal"; "Dysplasia"; "Cancer"; "Indeterminate"].

Definition tissue_names : list string := ["Stroma"; "Epithelium"; "Both"].

Definition grading_buttons : list (string * string) :=
  [("binary", "Low_Risk"); ("binary", "High_Risk");
   ("three_tier", "Mild"); ("three_tier", "Moderate"); ("three_tier", "Severe");
   ("three_tier_diff", "Well_Differentiated");
   ("three_tier_diff", "Moderately_Differentiated");
   ("three_tier_diff", "Poorly_Differentiated")].

Definition gui_event (ev : event) : bool :=
  match ev with
  | press_primary d => existsb (String.eqb d) primary_names
  | press_tissue t => existsb (String.eqb t) tissue_names
  | press_grading tier value =>
      existsb (fun b => String.eqb (fst b) tier && String.eqb (snd b) value)
              grading_buttons
  | _ => true
  end.

(** [__init__] on a fresh [SESSION]: [name] is the answer to the annotator
    prompt, [t_start] the clock at start. *)
Definition init (name : option string) (t_start : float) (e : env)
    (imgs : list image) : state :=
  show_image e
    {| images := imgs; index := 0; labels := []; image_start_time := None;
       current_primary := None; current_grading := ∅; comment_text := EmptyString;
       destroyed := false;
       annotator := match name with
                    | Some n => if Py.nonempty n then n else "Anonymous"
                    | None => "Anonymous"
                    end;
       start_time := Some t_start; end_time := None; times := [];
       cases := ∅; last_case := None; log := [] |}.

(** A session: the catalog found under [root], the window opened on it,
    then the callbacks of [trace] in order. *)
Definition session (root : Path.path) (name : option string) (t_start : float)
    (e : env) (trace : list (env * event)) : state :=
  run (init name t_start e (find_histopath_images root)) trace.

(** The diagnoses of the labelled images, in catalog order. *)
Definition categories (s : state) : list pyval :=
  map diagnosis (Store.labelled key (images s) (labels s)).

(** The keys of the grading tiers. *)
Definition tier_keys : list string := ["binary"; "three_tier"; "three_tier_diff"].

(** The values the buttons of [tier] carry. *)
Definition tier_values (tier : string) : list string :=
  map snd (List.filter (fun b => String.eqb (fst b) tier) grading_buttons).

(** The selection does not mix the Ungradable marker with a tier. *)
Definition unmixed (g : gmap string pyval) : Prop :=
  g !! "ungradable" = None \/
  (g !! "ungradable" = Some PTrue /\
   forall tier, In tier tier_keys -> g !! tier = None).

(** A tier, when selected, holds the value of one of its buttons. *)
Definition tier_ok (g : gmap string pyval) (tier : string) : Prop :=
  match g !! tier with
  | None => True
  | Some v => exists value, v = PStr value /\ In value (tier_values tier)
  end.

Definition well_graded (g : gmap string pyval) : Prop :=
  unmixed g /\ forall tier, In tier tier_keys -> tier_ok g tier.

(** The subtypes of a graded diagnosis: Ungradable, or tiers only. *)
Definition graded_subtypes : list string :=
  "Ungradable"
  :: flat_map (fun b =>
       map (fun t => "Binary:" +:+ b +:+ "|ThreeTier:" +:+ t) (tier_values "three_tier"))
       (tier_values "binary")
  ++ map (fun d => "ThreeTier:" +:+ d) (tier_values "three_tier_diff").

(** Every stored record is the one [save_label_to_storage] builds for an
    image of the catalog, under the key of that image, with a stripped
    comment. *)
Definition recorded (s : state) : Prop :=
  forall k r, In (k, r) (labels s) ->
    exists img,
      In img (images s) /\ key img = k /\
      r = label_of img (diagnosis r) (subtype r) (comment r) /\
      exists txt, comment r = Py.strip txt.

(** The position stays in the catalog; a closed window is one whose
    position went past the last image, with the end time taken and the
    completion box as the last thing shown. *)
Definition placed (s : state) : Prop :=
  index s <= length (images s) /\
  (destroyed s = true ->
     index s = length (images s) /\ end_time s <> None /\
     exists l t, log s = l ++ [showinfo t] /\
       ((t = "Complete" /\ labels s = []) \/ (t = "Complete!" /\ labels s <> []))).

(** An open window shows an image of the catalog, and no callback has
    raised. *)
Definition safe (s : state) : Prop :=
  (destroyed s = false -> index s < length (images s)) /\
  (forall exn, ~ In (raised exn) (log s)).

(** [SESSION["cases"]] holds the case of every stored label, and only cases
    of the catalog. *)
Definition cases_ok (s : state) : Prop :=
  (forall k r, In (k, r) (labels s) -> case_id r ∈ cases s) /\
  (forall c, c ∈ cases s -> In c (map img_case_id (images s))).

(** [get_summary_path], for the output file [output_file]: [None] is the
    ValueError of [with_name]. *)
Definition get_summary_path (output_file : Path.path) : option Path.path :=
  Path.with_name output_file (Path.stem output_file +:+ "_summary.txt").

(** [draw_progress_bar]: the rectangles it draws, as [(x1, x2, fill)], in
    the order of the catalog; [width] is what [winfo_width()] returns. *)
Definition draw_progress_bar (width : Z) (s : state) : list (Z * Z * string) :=
  let w := if (width =? 0)%Z then 1300%Z else width in
  let total := Z.of_nat (length (images s)) in
  if (total =? 0)%Z then []
  else
    let box_w := Z.max 2 (w / total) in
    map (fun x : nat * image =>
           let '(i, img_info) := x in
           let key := get_key (img_path img_info) in
           ((Z.of_nat i * box_w)%Z,
            ((Z.of_nat i + 1) * box_w - 1)%Z,
            if (i =? index s)%nat then "#3498db"
            else if Py.mem key (labels s) then "#27ae60" else "#95a5a6"))
        (Py.enumerate (images s)).

(** [update_grading_display]: whether it ends on [show_save_button]; the
    text of the selection label is presentation. *)
Definition update_grading_display (s : state) : bool :=
  let g := current_grading s in
  let diagnosis := gget "diagnosis" g in
  if truthy (gget "ungradable" g) then true
  else if is_str diagnosis "Dysplasia" then gmem "binary" g && gmem "three_tier" g
  else if is_str diagnosis "Cancer" then gmem "three_tier_diff" g
  else false.

End Tool.
End Histopath.

(** ** The words of the specification *)

Module SpecWords.

(** "Embedded \n / \r replaced with a single space": character by
    character, a line feed or a carriage return becomes one space and every
    other character stays. *)
Fixpoint normalized (comment : string) : string :=
  match comment with
  | EmptyString => EmptyString
  | String c rest =>
      String (if Ascii.eqb c Py.LF || Ascii.eqb c Py.CR then Py.SP else c)
             (normalized rest)
  end.

(** A string without line break. *)
Definition one_line (s : string) : Prop :=
  ~ In Py.LF (list_ascii_of_string s) /\ ~ In Py.CR (list_ascii_of_string s).

End SpecWords.

(** ** A small machine to run the tools on *)

Module Demo.

(** Directories and the names they list, in listing order.  The file
    [clinical/img1.jpg] is a symbolic link to [XC_images/img1.jpg]. *)
Definition listing : list (Path.path * list string) :=
  [ (["data"], ["CaseA"; "CaseB"]);
    (["data"; "CaseA"], ["Visit1"]);
    (["data"; "CaseA"; "Visit1"], ["XC_images"; "clinical"; "histopath"]);
    (["data"; "CaseA"; "Visit1"; "XC_images"], ["b.jpg"; "img1.jpg"]);
    (["data"; "CaseA"; "Visit1"; "clinical"], ["a.jpg"; "img1.jpg"]);
    (["data"; "CaseA"; "Visit1"; "histopath"], ["Tongue"]);
    (["data"; "CaseA"; "Visit1"; "histopath"; "Tongue"], ["40x"; "10x"]);
    (["data"; "CaseA"; "Visit1"; "histopath"; "Tongue"; "10x"], ["s1.png"]);
    (["data"; "CaseA"; "Visit1"; "histopath"; "Tongue"; "40x"],
     ["s3.png"; "s2.png"; "notes.txt"]);
    (["data"; "CaseB"], ["Visit1"]);
    (["data"; "CaseB"; "Visit1"], ["XC"]);
    (["data"; "CaseB"; "Visit1"; "XC"], ["c.PNG"]) ].

Definition children (p : Path.path) : list string :=
  match List.find (fun x => bool_decide (fst x = p)) listing with
  | Some x => snd x
  | None => []
  end.

Definition demo_iterdir (p : Path.path) : list Path.path :=
  map (fun n => p ++ [n]) (children p).

Definition demo_is_dir (p : Path.path) : bool :=
  existsb (fun x => bool_decide (fst x = p)) listing.

Fixpoint demo_rglob_depth (depth : nat) (p : Path.path) : list Path.path :=
  match depth with
  | O => []
  | S depth' => flat_map (fun c => c :: demo_rglob_depth depth' c) (demo_iterdir p)
  end.

Definition fs : FileSystem :=
  {| iterdir := demo_iterdir; is_dir := demo_is_dir; rglob := demo_rglob_depth 8 |}.

Definition demo_resolve (p : Path.path) : option string :=
  if bool_decide (p = ["data"; "CaseA"; "Visit1"; "clinical"; "img1.jpg"])
  then Some "/mnt/data/CaseA/Visit1/XC_images/img1.jpg"
  else Some ("/mnt/" +:+ Path.str p).

(** Floats that are whole seconds. *)
Definition platform : Platform :=
  {| float := Z;
     fsub := Z.sub;
     ftruth := fun x => negb (x =? 0)%Z;
     format_2f := fun x => pretty x +:+ ".00";
     resolve := demo_resolve |}.

Definition clinical_catalog : list Clinical.image :=
  @Clinical.find_clinical_images platform fs ["data"].

Definition histopath_catalog : list Histopath.image :=
  @Histopath.find_histopath_images platform fs ["data"].

Definition clinical_env (t : Z) : @Clinical.env platform :=
  @Clinical.Build_env platform (t + 5)%Z (t + 6)%Z true.

Definition histopath_env (t : Z) : @Histopath.env platform :=
  @Histopath.Build_env platform (t + 5)%Z (t + 6)%Z true.

Definition clinical_start : @Clinical.state platform :=
  @Clinical.init platform (Some "Asha") 100%Z (clinical_env 100) clinical_catalog.

Definition histopath_start : @Histopath.state platform :=
  @Histopath.init platform (Some "Asha") 100%Z (histopath_env 100) histopath_catalog.

(** The first entry of each catalog. *)
Definition first_photo : Clinical.image :=
  {| Clinical.img_case := "CaseA";
     Clinical.img_visit := "Visit1";
     Clinical.img_path := ["data"; "CaseA"; "Visit1"; "XC_images"; "b.jpg"] |}.

Definition first_slide : Histopath.image :=
  {| Histopath.img_case_id := "CaseA";
     Histopath.img_visit_id := "Visit1";
     Histopath.img_body_site := "Tongue";
     Histopath.img_magnification := "10x";
     Histopath.img_mag_value := 10;
     Histopath.img_filename := "s1.png";
     Histopath.img_path :=
       ["data"; "CaseA"; "Visit1"; "histopath"; "Tongue"; "10x"; "s1.png"] |}.

(** The photo in folder [clinical], third in the catalog. *)
Definition third_photo : Clinical.image :=
  {| Clinical.img_case := "CaseA";
     Clinical.img_visit := "Visit1";
     Clinical.img_path := ["data"; "CaseA"; "Visit1"; "clinical"; "a.jpg"] |}.

(** The photo reached a second time, through the symbolic link. *)
Definition linked_photo : Clinical.image :=
  {| Clinical.img_case := "CaseA";
     Clinical.img_visit := "Visit1";
     Clinical.img_path := ["data"; "CaseA"; "Visit1"; "clinical"; "img1.jpg"] |}.

(** The grading window with a diagnosis chosen, without and with a comment. *)
Definition indeterminate : @Histopath.state platform :=
  @Histopath.select_primary platform "Indeterminate" histopath_start.

Definition ungradable : @Histopath.state platform :=
  @Histopath.select_ungradable platform
    (@Histopath.select_primary platform "Cancer" histopath_start).

Definition indeterminate_commented : @Histopath.state platform :=
  @Histopath.set_comment_text platform "out of focus" indeterminate.

Definition ungradable_commented : @Histopath.state platform :=
  @Histopath.set_comment_text platform "torn section" ungradable.

Definition dysplasia_low_mild : @Histopath.state platform :=
  @Histopath.select_grading platform "three_tier" "Mild"
    (@Histopath.select_grading platform "binary" "Low_Risk"
       (@Histopath.select_primary platform "Dysplasia" histopath_start)).

(** All four photos labelled, one after the other. *)
Definition all_photos_labelled : @Clinical.state platform :=
  @Clinical.run platform clinical_start
    [ (clinical_env 200, Clinical.press_suspicious);
      (clinical_env 300, Clinical.press_non_suspicious);
      (clinical_env 400, Clinical.press_save_na "glare ");
      (clinical_env 500, Clinical.press_suspicious) ].

(** The second slide labelled first, then the first one. *)
Definition slides_out_of_order : @Histopath.state platform :=
  @Histopath.run platform histopath_start
    [ (histopath_env 200, Histopath.press_next);
      (histopath_env 300, Histopath.press_primary "Normal");
      (histopath_env 400, Histopath.press_tissue "Stroma");
      (histopath_env 500, Histopath.click_progress 0 1300);
      (histopath_env 600, Histopath.press_primary "Cancer");
      (histopath_env 700, Histopath.press_grading "three_tier_diff" "Well_Differentiated");
      (histopath_env 900, Histopath.press_save) ].

(** The first photo labelled, then a step back to it. *)
Definition back_at_first_photo : @Clinical.state platform :=
  @Clinical.session platform fs ["data"] (Some "Asha") 100%Z (clinical_env 100)
    [ (clinical_env 200, Clinical.press_suspicious);
      (clinical_env 300, Clinical.press_back) ].

(** Two steps forward: the last slide is on display. *)
Definition at_last_slide : @Histopath.state platform :=
  @Histopath.run platform histopath_start
    [ (histopath_env 200, Histopath.press_next);
      (histopath_env 300, Histopath.press_next) ].

(** The button presses that select a complete Dysplasia grading. *)
Definition grading_presses : list (@Histopath.env platform * Histopath.event) :=
  [ (histopath_env 200, Histopath.press_primary "Dysplasia");
    (histopath_env 300, Histopath.press_ungradable);
    (histopath_env 400, Histopath.press_grading "binary" "Low_Risk");
    (histopath_env 500, Histopath.press_grading "three_tier" "Mild") ].

Definition graded : @Histopath.state platform :=
  @Histopath.session platform fs ["data"] (Some "Asha") 100%Z (histopath_env 100)
    grading_presses.

(** The other entries of the two catalogs. *)
Definition second_photo : Clinical.image :=
  {| Clinical.img_case := "CaseA";
     Clinical.img_visit := "Visit1";
     Clinical.img_path := ["data"; "CaseA"; "Visit1"; "XC_images"; "img1.jpg"] |}.

Definition second_slide : Histopath.image :=
  {| Histopath.img_case_id := "CaseA";
     Histopath.img_visit_id := "Visit1";
     Histopath.img_body_site := "Tongue";
     Histopath.img_magnification := "40x";
     Histopath.img_mag_value := 40;
     Histopath.img_filename := "s2.png";
     Histopath.img_path :=
       ["data"; "CaseA"; "Visit1"; "histopath"; "Tongue"; "40x"; "s2.png"] |}.

Definition third_slide : Histopath.image :=
  {| Histopath.img_case_id := "CaseA";
     Histopath.img_visit_id := "Visit1";
     Histopath.img_body_site := "Tongue";
     Histopath.img_magnification := "40x";
     Histopath.img_mag_value := 40;
     Histopath.img_filename := "s3.png";
     Histopath.img_path :=
       ["data"; "CaseA"; "Visit1"; "histopath"; "Tongue"; "40x"; "s3.png"] |}.

(** A moment at which writing the files fails. *)
Definition failing_env (t : Z) : @Histopath.env platform :=
  @Histopath.Build_env platform (t + 5)%Z (t + 6)%Z false.

(** Button presses of whole sessions. *)
Definition label_all_photos : list (@Clinical.env platform * Clinical.event) :=
  [ (clinical_env 200, Clinical.press_suspicious);
    (clinical_env 300, Clinical.press_non_suspicious);
    (clinical_env 400, Clinical.press_save_na "glare ");
    (clinical_env 500, Clinical.press_suspicious) ].

Definition label_two_photos : list (@Clinical.env platform * Clinical.event) :=
  [ (clinical_env 200, Clinical.press_suspicious);
    (clinical_env 300, Clinical.press_save_na " blurred") ].

Definition label_photo_then_back : list (@Clinical.env platform * Clinical.event) :=
  [ (clinical_env 200, Clinical.press_suspicious);
    (clinical_env 300, Clinical.press_back) ].

Definition label_all_slides : list (@Histopath.env platform * Histopath.event) :=
  [ (histopath_env 200, Histopath.press_primary "Normal");
    (histopath_env 300, Histopath.press_tissue "Stroma");
    (histopath_env 400, Histopath.press_primary "Normal");
    (histopath_env 500, Histopath.press_tissue "Both");
    (histopath_env 600, Histopath.press_primary "Normal");
    (histopath_env 700, Histopath.press_tissue "Epithelium") ].

Definition label_slide_then_back : list (@Histopath.env platform * Histopath.event) :=
  [ (histopath_env 200, Histopath.press_primary "Indeterminate");
    (histopath_env 300, Histopath.edit_comment " out of focus ");
    (histopath_env 400, Histopath.press_save_indeterminate);
    (histopath_env 500, Histopath.press_previous) ].

(** Sessions on the demo tree, opened by Asha at clock 100. *)
Definition start_clock : @float platform := 100%Z.

Definition photos (trace : list (@Clinical.env platform * Clinical.event))
  : @Clinical.state platform :=
  @Clinical.session platform fs ["data"] (Some "Asha") start_clock (clinical_env 100) trace.

Definition slides (trace : list (@Histopath.env platform * Histopath.event))
  : @Histopath.state platform :=
  @Histopath.session platform fs ["data"] (Some "Asha") start_clock (histopath_env 100)
    trace.

(** The grading window with a box of spaces, and with one tier only. *)
Definition indeterminate_blank : @Histopath.state platform :=
  @Histopath.set_comment_text platform "   " indeterminate.

Definition dysplasia_low_only : @Histopath.state platform :=
  @Histopath.select_grading platform "binary" "Low_Risk"
    (@Histopath.select_primary platform "Dysplasia" histopath_start).

(** One slide labelled, then a step back: one label, no duration left. *)
Definition labelled_then_back : @Histopath.state platform :=
  @Histopath.run platform histopath_start
    [ (histopath_env 200, Histopath.press_primary "Normal");
      (histopath_env 300, Histopath.press_tissue "Both");
      (histopath_env 400, Histopath.press_previous) ].

End Demo.

(** Case analysis on the innermost scrutinee of the goal. *)
Ltac break_match :=
  match goal with
  | |- context [match ?x with _ => _ end] =>
      lazymatch x with
      | context [match _ with _ => _ end] => fail
      | _ => destruct x eqn:?
      end
  end.

(** ** Facts about the Python builtins *)

Module PyFacts.

Section DictFacts.
Context {K V : Type} `{EqDecision K}.
Implicit Types (d : Py.dict K V) (k : K) (v : V).

Lemma get_set_eq k v d : Py.get k (Py.set k v d) = Some v.
Proof.
  induction d as [|[k' v'] d IH]; simpl.
  - destruct (decide (k = k)); congruence.
  - destruct (decide (k' = k)) as [->|Hne]; simpl.
    + destruct (decide (k = k)); congruence.
    + destruct (decide (k' = k)); [contradiction | exact IH].
Qed.

Lemma get_set_ne k k' v d : k <> k' -> Py.get k' (Py.set k v d) = Py.get k' d.
Proof.
  intros Hne. induction d as [|[k0 v0] d IH]; simpl.
  - destruct (decide (k = k')); [contradiction | reflexivity].
  - destruct (decide (k0 = k)) as [->|Hk0]; simpl.
    + destruct (decide (k = k')); [contradiction | reflexivity].
    + destruct (decide (k0 = k')); [reflexivity | exact IH].
Qed.

Lemma set_set k v v' d : Py.set k v' (Py.set k v d) = Py.set k v' d.
Proof.
  induction d as [|[k0 v0] d IH]; simpl.
  - destruct (decide (k = k)); congruence.
  - destruct (decide (k0 = k)) as [->|Hk0]; simpl.
    + destruct (decide (k = k)); congruence.
    + destruct (decide (k0 = k)); [contradiction | by rewrite IH].
Qed.

Lemma get_None_keys k d : Py.get k d = None <-> ~ In k (Py.keys d).
Proof.
  induction d as [|[k0 v0] d IH]; simpl.
  - tauto.
  - destruct (decide (k0 = k)) as [->|Hk0].
    + split; [discriminate | intros Hn; exfalso; apply Hn; by left].
    + rewrite IH. split; [intros Hn [?|?]; tauto | tauto].
Qed.

Lemma get_Some_keys k v d : Py.get k d = Some v -> In k (Py.keys d).
Proof.
  intros Hg. destruct (in_dec (fun a b => decide (a = b)) k (Py.keys d)) as [|Hn];
    [assumption|].
  apply get_None_keys in Hn. congruence.
Qed.

Lemma mem_true_keys k d : Py.mem k d = true <-> In k (Py.keys d).
Proof.
  unfold Py.mem. destruct (Py.get k d) eqn:Hg.
  - split; [intros _; eapply get_Some_keys; eauto | reflexivity].
  - split; [discriminate | intros Hin; apply get_None_keys in Hg; contradiction].
Qed.

Lemma keys_set k v d :
  Py.keys (Py.set k v d) = if Py.mem k d then Py.keys d else Py.keys d ++ [k].
Proof.
  unfold Py.mem. induction d as [|[k0 v0] d IH]; simpl; [reflexivity|].
  destruct (decide (k0 = k)) as [->|Hk0]; simpl; [reflexivity|].
  rewrite IH. by destruct (Py.get k d).
Qed.

Lemma NoDup_keys_set k v d :
  List.NoDup (Py.keys d) -> List.NoDup (Py.keys (Py.set k v d)).
Proof.
  intros Hnd. rewrite keys_set. destruct (Py.mem k d) eqn:Hm; [assumption|].
  apply NoDup_ListNoDup, NoDup_app. split; [by apply NoDup_ListNoDup|].
  split; [|apply NoDup_singleton].
  intros x Hx Hx'. apply list_elem_of_singleton in Hx'. subst x.
  apply list_elem_of_In, mem_true_keys in Hx. congruence.
Qed.

Lemma In_keys_set k k' v d :
  In k' (Py.keys (Py.set k v d)) <-> k' = k \/ In k' (Py.keys d).
Proof.
  rewrite keys_set. destruct (Py.mem k d) eqn:Hm.
  - apply mem_true_keys in Hm. split; [tauto | intros [->|?]; assumption].
  - rewrite in_app_iff. simpl. split; intros; intuition congruence.
Qed.

Lemma In_keys_del k k' d : In k' (Py.keys (Py.del k d)) -> In k' (Py.keys d).
Proof.
  induction d as [|[k0 v0] d IH]; simpl; [tauto|].
  destruct (decide (k0 = k)); simpl; tauto.
Qed.

Lemma NoDup_keys_del k d :
  List.NoDup (Py.keys d) -> List.NoDup (Py.keys (Py.del k d)).
Proof.
  induction d as [|[k0 v0] d IH]; simpl; [auto|].
  intros Hnd. inversion Hnd as [|? ? Hnotin Hnd']; subst.
  destruct (decide (k0 = k)); simpl; [assumption|].
  constructor; [|auto]. intros Hin. apply Hnotin. eapply In_keys_del; eauto.
Qed.

Lemma get_del_eq k d : List.NoDup (Py.keys d) -> Py.get k (Py.del k d) = None.
Proof.
  induction d as [|[k0 v0] d IH]; simpl; [auto|].
  intros Hnd. inversion Hnd as [|? ? Hnotin Hnd']; subst.
  destruct (decide (k0 = k)) as [->|Hk0]; simpl.
  - by apply get_None_keys.
  - destruct (decide (k0 = k)); [contradiction | auto].
Qed.

Lemma get_del_ne k k' d : k <> k' -> Py.get k' (Py.del k d) = Py.get k' d.
Proof.
  intros Hne. induction d as [|[k0 v0] d IH]; simpl; [auto|].
  destruct (decide (k0 = k)) as [->|Hk0]; simpl.
  - destruct (decide (k = k')); [contradiction | reflexivity].
  - destruct (decide (k0 = k')); [reflexivity | exact IH].
Qed.

Lemma values_del_perm k v d :
  Py.get k d = Some v -> Permutation (Py.values d) (v :: Py.values (Py.del k d)).
Proof.
  induction d as [|[k0 v0] d IH]; simpl; [discriminate|].
  destruct (decide (k0 = k)) as [->|Hk0]; simpl.
  - intros [= ->]. reflexivity.
  - intros Hg. rewrite (IH Hg). apply perm_swap.
Qed.

Lemma length_values d : length (Py.values d) = length d.
Proof. apply length_map. Qed.
End DictFacts.

Section SortedFacts.
Context {A : Type} (lt : A -> A -> bool).

Lemma insert_sorted_perm x l : Permutation (Py.insert_sorted lt x l) (x :: l).
Proof.
  induction l as [|y l IH]; simpl; [reflexivity|].
  destruct (lt y x); [|reflexivity].
  rewrite IH. apply perm_swap.
Qed.

Lemma sorted_perm l : Permutation (Py.sorted lt l) l.
Proof.
  induction l as [|x l IH]; simpl; [reflexivity|].
  rewrite insert_sorted_perm. by constructor.
Qed.

Lemma sorted_length l : length (Py.sorted lt l) = length l.
Proof. apply Permutation_length, sorted_perm. Qed.

Hypothesis lt_asym : forall a b, lt a b = true -> lt b a = false.

Lemma insert_sorted_Sorted x l :
  Sorted (Py.ascending lt) l -> Sorted (Py.ascending lt) (Py.insert_sorted lt x l).
Proof.
  induction l as [|y l IH]; simpl; intros Hs.
  - repeat constructor.
  - destruct (lt y x) eqn:Hyx.
    + inversion Hs as [|? ? Hs' Hhd]; subst. constructor; [auto|].
      destruct l as [|z l]; simpl.
      * constructor. by apply lt_asym.
      * destruct (lt z x) eqn:Hzx.
        -- inversion Hhd; subst. by constructor.
        -- constructor. by apply lt_asym.
    + constructor; [assumption|]. by constructor.
Qed.

Lemma sorted_Sorted l : Sorted (Py.ascending lt) (Py.sorted lt l).
Proof.
  induction l as [|x l IH]; simpl; [constructor|].
  by apply insert_sorted_Sorted.
Qed.
End SortedFacts.

Lemma lex_Lt_asym c1 c2 d1 d2 :
  d1 = CompOpp c1 -> d2 = CompOpp c2 ->
  Py.is_lt (Py.lex c1 c2) = true -> Py.is_lt (Py.lex d1 d2) = false.
Proof. intros -> ->. by destruct c1, c2. Qed.

Lemma lex_opp c1 c2 : CompOpp (Py.lex c1 c2) = Py.lex (CompOpp c1) (CompOpp c2).
Proof. by destruct c1, c2. Qed.

Lemma enumerate_from_lookup {A : Type} (l : list A) (n i : nat) :
  Py.enumerate_from n l !! i = (fun x => (n + i, x)) <$> l !! i.
Proof.
  revert n i. induction l as [|x l IH]; intros n [|i]; simpl; try reflexivity.
  - by rewrite Nat.add_0_r.
  - rewrite IH. destruct (l !! i); simpl; [|reflexivity].
    do 2 f_equal. lia.
Qed.

Lemma enumerate_from_seq {A : Type} (l : list A) (n : nat) :
  map fst (Py.enumerate_from n l) = seq n (length l).
Proof.
  revert n. induction l as [|x l IH]; intros n; simpl; [reflexivity|].
  by rewrite IH.
Qed.

Lemma enumerate_from_snd {A : Type} (l : list A) (n : nat) :
  map snd (Py.enumerate_from n l) = l.
Proof.
  revert n. induction l as [|x l IH]; intros n; simpl; [reflexivity|].
  by rewrite IH.
Qed.

(** [replace] leaves no [old] behind when [new] differs from it. *)
Lemma replace_spec old new s :
  list_ascii_of_string (Py.replace old new s)
  = map (fun c => if Ascii.eqb c old then new else c) (list_ascii_of_string s).
Proof. induction s as [|c s IH]; simpl; [reflexivity | by rewrite IH]. Qed.

Lemma length_replace old new s :
  String.length (Py.replace old new s) = String.length s.
Proof. induction s as [|c s IH]; simpl; [reflexivity | by rewrite IH]. Qed.

End PyFacts.

(** ** The catalog builders *)

Module CatalogFacts.

(** The loop that skips resolved paths already seen, for any record type:
    [seen] is the set of keys of [result] and no key occurs twice. *)
Section Dedup.
Context {A : Type} (key : A -> string).
Variable body : gset string * list A -> A -> gset string * list A.
Hypothesis body_eq : forall seen result x,
  body (seen, result) x =
    if decide (key x ∈ seen) then (seen, result)
    else ({[ key x ]} ∪ seen, result ++ [x]).

Lemma body_tracked acc x : Store.tracked key acc -> Store.tracked key (body acc x).
Proof.
  destruct acc as [seen result]. intros [Hseen Hnd]. rewrite body_eq.
  destruct (decide (key x ∈ seen)) as [Hin|Hnin]; [by split|].
  split; simpl in *.
  - intros k. rewrite map_app, in_app_iff, elem_of_union, elem_of_singleton, Hseen.
    simpl. intuition congruence.
  - rewrite map_app. simpl. apply NoDup_ListNoDup, NoDup_app.
    split; [by apply NoDup_ListNoDup|]. split; [|apply NoDup_singleton].
    intros k Hk Hk'. apply list_elem_of_singleton in Hk'. subst k.
    apply Hnin, Hseen. by apply list_elem_of_In.
Qed.

Lemma body_keys acc x k :
  Store.tracked key acc ->
  In k (map key (snd (body acc x))) <-> In k (map key (snd acc)) \/ k = key x.
Proof.
  destruct acc as [seen result]. intros [Hseen _]. rewrite body_eq.
  destruct (decide (key x ∈ seen)) as [Hin|Hnin]; simpl in *.
  - apply Hseen in Hin. intuition congruence.
  - rewrite map_app, in_app_iff. simpl. intuition congruence.
Qed.

Lemma body_incl acc x y :
  In y (snd (body acc x)) -> In y (snd acc) \/ y = x.
Proof.
  destruct acc as [seen result]. rewrite body_eq.
  destruct (decide (key x ∈ seen)); simpl; [tauto|].
  rewrite in_app_iff. simpl. intuition congruence.
Qed.

Lemma loop_tracked l acc :
  Store.tracked key acc ->
  Store.tracked key (fold_left body l acc) /\
  (forall k, In k (map key (snd (fold_left body l acc)))
             <-> In k (map key (snd acc)) \/ In k (map key l)) /\
  (forall y, In y (snd (fold_left body l acc)) -> In y (snd acc) \/ In y l).
Proof.
  revert acc. induction l as [|x l IH]; intros acc Hacc; simpl.
  - split; [assumption|]. split; [intros k|intros y]; simpl; tauto.
  - destruct (IH (body acc x) (body_tracked acc x Hacc)) as (Ht & Hk & Hy).
    split; [assumption|]. split.
    + intros k. rewrite Hk, body_keys by assumption. simpl. intuition congruence.
    + intros y Hin. apply Hy in Hin as [Hin|Hin]; [|simpl; tauto].
      apply body_incl in Hin. simpl. intuition congruence.
Qed.

Lemma loop_from_empty l :
  let result := snd (fold_left body l (∅, [])) in
  List.NoDup (map key result) /\
  (forall k, In k (map key result) <-> In k (map key l)) /\
  incl result l.
Proof.
  assert (Hstart : Store.tracked key (∅ : gset string, @nil A)).
  { split; simpl; [|constructor]. intros k. rewrite elem_of_empty. tauto. }
  destruct (loop_tracked l _ Hstart) as ([_ Hnd] & Hk & Hy). simpl in *.
  split; [assumption|]. split.
  - intros k. rewrite Hk. tauto.
  - intros y Hin. apply Hy in Hin. tauto.
Qed.
End Dedup.

Lemma sorted_catalog {A : Type} (key : A -> string) (lt : A -> A -> bool)
    (walked result : list A) :
  List.NoDup (map key result) ->
  (forall k, In k (map key result) <-> In k (map key walked)) ->
  incl result walked ->
  Store.catalog_of key walked (Py.sorted lt result).
Proof.
  intros Hnd Hk Hincl.
  pose proof (PyFacts.sorted_perm lt result) as Hperm.
  assert (Hnd' : List.NoDup (map key (Py.sorted lt result))).
  { eapply Permutation_NoDup; [|exact Hnd]. apply Permutation_map. by symmetry. }
  split; [assumption|]. split.
  - intros x Hx. apply NoDup_count_occ'; [assumption|].
    eapply Permutation_in; [apply Permutation_map; symmetry; exact Hperm|].
    apply Hk. by apply in_map.
  - intros y Hy. apply Hincl. eapply Permutation_in; eauto.
Qed.

Section Builders.
Context `{Platform} `{FileSystem}.

Lemma find_clinical_images_catalog root :
  Store.catalog_of Clinical.key (Clinical.walk root) (Clinical.find_clinical_images root).
Proof.
  unfold Clinical.find_clinical_images.
  pose proof (loop_from_empty Clinical.key Clinical.visit_image) as Hloop.
  specialize (Hloop ltac:(intros; reflexivity) (Clinical.walk root)).
  destruct (fold_left Clinical.visit_image (Clinical.walk root) (∅, [])) as [seen result].
  destruct Hloop as (Hnd & Hk & Hincl). by apply sorted_catalog.
Qed.

Lemma find_histopath_images_catalog root :
  Store.catalog_of Histopath.key (Histopath.walk root) (Histopath.find_histopath_images root).
Proof.
  unfold Histopath.find_histopath_images.
  pose proof (loop_from_empty Histopath.key Histopath.visit_image) as Hloop.
  specialize (Hloop ltac:(intros; reflexivity) (Histopath.walk root)).
  destruct (fold_left Histopath.visit_image (Histopath.walk root) (∅, [])) as [seen result].
  destruct Hloop as (Hnd & Hk & Hincl). by apply sorted_catalog.
Qed.

End Builders.
End CatalogFacts.

(** ** The histopathology tool: what the callbacks keep and change *)

Module HistopathFacts.
Import Histopath.

Section Facts.
Context `{Platform} `{FileSystem}.
Implicit Types (s : state) (e : env).

(** Splits the branches of [show_image] and of [finish]. *)
Ltac split_show :=
  unfold show_image, finish, show_banner_if_new_case;
  repeat match goal with
  | |- context [match ?x with _ => _ end] => destruct x eqn:?; simpl in *
  end.

Lemma show_image_labels e s : labels (show_image e s) = labels s.
Proof. split_show; congruence. Qed.

Lemma show_image_images e s : images (show_image e s) = images s.
Proof. split_show; congruence. Qed.

Lemma show_image_index e s : index (show_image e s) = index s.
Proof. split_show; congruence. Qed.

Lemma show_image_times e s : times (show_image e s) = times s.
Proof. split_show; congruence. Qed.

Lemma quiet_not_warning l t : quiet l -> l <> [showwarning t].
Proof. intros [->|[[? ->]|[[? ->]|[? ->]]]]; discriminate. Qed.

Lemma show_image_log e s : exists l, log (show_image e s) = log s ++ l /\ quiet l.
Proof.
  unfold quiet.
  split_show; eauto 10 using app_nil_r.
  all: exists []; rewrite app_nil_r; eauto.
Qed.

Lemma show_image_grading e s :
  current_grading (show_image e s) = ∅ \/
  (images s !! index s = None /\ current_grading (show_image e s) = current_grading s).
Proof. split_show; auto. Qed.

(** [save_label_to_storage] on an image of the catalog writes its record
    under the key of the image and moves on. *)
Lemma save_label_to_storage_labels e d sub c s img_info :
  images s !! index s = Some img_info ->
  labels (save_label_to_storage e d sub c s)
  = Py.set (key img_info) (label_of img_info d sub c) (labels s).
Proof.
  intros Himg. unfold save_label_to_storage. rewrite Himg.
  rewrite show_image_labels. simpl.
  destruct (image_start_time s) as [t0|]; simpl; [destruct (ftruth t0)|]; reflexivity.
Qed.

Lemma save_label_to_storage_index e d sub c s img_info :
  images s !! index s = Some img_info ->
  index (save_label_to_storage e d sub c s) = index s + 1.
Proof.
  intros Himg. unfold save_label_to_storage. rewrite Himg.
  rewrite show_image_index. simpl.
  destruct (image_start_time s) as [t0|]; simpl; [destruct (ftruth t0)|]; reflexivity.
Qed.

Lemma save_label_to_storage_images e d sub c s :
  images (save_label_to_storage e d sub c s) = images s.
Proof.
  unfold save_label_to_storage. destruct (images s !! index s); [|reflexivity].
  rewrite show_image_images. simpl.
  destruct (image_start_time s) as [t0|]; simpl; [destruct (ftruth t0)|]; reflexivity.
Qed.

Lemma save_label_to_storage_log e d sub c s :
  exists l, log (save_label_to_storage e d sub c s) = log s ++ l /\ quiet l.
Proof.
  unfold save_label_to_storage. destruct (images s !! index s).
  - match goal with |- context [show_image e ?s'] =>
      destruct (show_image_log e s') as (l & Hl & Hq) end.
    exists l. split; [|assumption]. rewrite Hl. simpl.
    destruct (image_start_time s) as [t0|]; simpl; [destruct (ftruth t0)|]; reflexivity.
  - exists [raised "IndexError"]. split; [reflexivity|]. unfold quiet. eauto 10.
Qed.

Lemma log_grows_not_warning s s' l t :
  log s' = log s ++ l -> quiet l -> log s' <> log s ++ [showwarning t].
Proof.
  intros Hl Hq Heq. rewrite Hl in Heq. apply app_inv_head in Heq.
  by eapply quiet_not_warning.
Qed.

Lemma log_same_not_warning s t : log s <> log s ++ [showwarning t].
Proof.
  intros Heq. apply (f_equal (@length effect)) in Heq.
  rewrite length_app in Heq. simpl in Heq. lia.
Qed.

(** A rejected [save_label_simple] is the state it started from, plus the
    warning. *)
Lemma save_label_simple_rejected e sub s t :
  log (save_label_simple e sub s) = log s ++ [showwarning t] ->
  save_label_simple e sub s = tell (showwarning t) s.
Proof.
  unfold save_label_simple.
  destruct (is_str _ _ && negb _).
  - simpl. intros Heq. apply app_inv_head in Heq. by injection Heq as ->.
  - intros Heq. exfalso.
    match type of Heq with log ?s' = _ =>
      destruct (save_label_to_storage_log e (gget "diagnosis" (current_grading s)) sub
                  (Py.strip (get_comment_text s)) s) as (l & Hl & Hq) end.
    by eapply log_grows_not_warning.
Qed.

Lemma save_multi_tier_label_rejected e s t :
  log (save_multi_tier_label e s) = log s ++ [showwarning t] ->
  save_multi_tier_label e s = tell (showwarning t) s.
Proof.
  unfold save_multi_tier_label.
  repeat match goal with
  | |- context [if ?b then _ else _] => destruct b
  end; simpl; intros Heq;
  try (apply app_inv_head in Heq; by injection Heq as ->);
  try (exfalso; by eapply log_same_not_warning);
  exfalso;
  match type of Heq with log (save_label_to_storage ?e ?d ?sub ?c ?s) = _ =>
    destruct (save_label_to_storage_log e d sub c s) as (l & Hl & Hq) end;
  by eapply log_grows_not_warning.
Qed.

End Facts.
End HistopathFacts.

(** ** The label store against the catalog *)

Module StoreFacts.

Section Store.
Context {I R : Type} (key : I -> string).
Implicit Types (imgs : list I) (d : Py.dict string R).

Lemma labelled_cons x imgs d :
  Store.labelled key (x :: imgs) d =
    match Py.get (key x) d with
    | Some v => v :: Store.labelled key imgs d
    | None => Store.labelled key imgs d
    end.
Proof. reflexivity. Qed.

Lemma labelled_ext imgs d d' :
  (forall img, In img imgs -> Py.get (key img) d = Py.get (key img) d') ->
  Store.labelled key imgs d = Store.labelled key imgs d'.
Proof.
  induction imgs as [|x imgs IH]; intros Hext; [reflexivity|].
  rewrite !labelled_cons. rewrite (Hext x) by (by left). rewrite IH; [reflexivity|].
  intros img Hin. apply Hext. by right.
Qed.

(** The values of the store are the records of the Store.labelled key images, each
    once. *)
Lemma values_perm_labelled imgs d :
  List.NoDup (map key imgs) -> Store.store_ok key imgs d ->
  Permutation (Py.values d) (Store.labelled key imgs d).
Proof.
  intros Hnd. revert d. induction imgs as [|x imgs IH]; intros d [Hd Hsub].
  - destruct d as [|[k v] d]; [reflexivity|]. exfalso. apply (Hsub k). by left.
  - simpl in Hnd. inversion Hnd as [|? ? Hx Hnd']; subst.
    rewrite labelled_cons.
    destruct (Py.get (key x) d) as [v|] eqn:Hg.
    + rewrite (PyFacts.values_del_perm _ _ _ Hg). constructor.
      rewrite (labelled_ext imgs d (Py.del (key x) d)).
      * apply IH; [assumption|]. split; [by apply PyFacts.NoDup_keys_del|].
        intros k Hk. pose proof (PyFacts.In_keys_del _ _ _ Hk) as Hk'.
        apply Hsub in Hk'. simpl in Hk'. destruct Hk' as [<-|Hk']; [|assumption].
        exfalso. apply (PyFacts.get_None_keys (key x) (Py.del (key x) d)); [|assumption].
        by apply PyFacts.get_del_eq.
      * intros img Hin. symmetry. apply PyFacts.get_del_ne.
        intros Heq. apply Hx. rewrite Heq. by apply in_map.
    + apply IH; [assumption|]. split; [assumption|].
      intros k Hk. pose proof (Hsub k Hk) as Hk'. simpl in Hk'.
      destruct Hk' as [<-|Hk']; [|assumption].
      exfalso. by apply (PyFacts.get_None_keys (key x) d).
Qed.

Lemma store_ok_set imgs d img r :
  In img imgs -> Store.store_ok key imgs d -> Store.store_ok key imgs (Py.set (key img) r d).
Proof.
  intros Hin [Hd Hsub]. split; [by apply PyFacts.NoDup_keys_set|].
  intros k Hk. apply PyFacts.In_keys_set in Hk as [->|Hk]; [by apply in_map | auto].
Qed.

Lemma store_ok_del imgs d k : Store.store_ok key imgs d -> Store.store_ok key imgs (Py.del k d).
Proof.
  intros [Hd Hsub]. split; [by apply PyFacts.NoDup_keys_del|].
  intros k' Hk. apply Hsub. eapply PyFacts.In_keys_del; eauto.
Qed.

Lemma store_ok_empty imgs : Store.store_ok key imgs ([] : Py.dict string R).
Proof. split; [constructor | intros k []]. Qed.
End Store.

End StoreFacts.

(** ** The clinical tool: what the callbacks keep and change *)

Module ClinicalFacts.
Import Clinical.

Section Facts.
Context `{Platform} `{FileSystem}.
Implicit Types (s : state) (e : env).

Lemma getitem_nonneg {A : Type} (l : list A) (p : Z) :
  (0 <= p)%Z -> Py.getitem l p = nth_error l (Z.to_nat p).
Proof. intros Hp. unfold Py.getitem. by rewrite (proj2 (Z.leb_le 0 p) Hp). Qed.

Lemma core_show_image e s :
  core (show_image e s) =
    match images s !! index s with
    | None => (images s, index s, labels s, history s, pointer s, true)
    | Some img =>
        let pushed :=
          (images s, index s, labels s, history s ++ [key img],
           (Z.of_nat (length (history s ++ [key img])) - 1)%Z, destroyed s) in
        if (pointer s =? -1)%Z then pushed
        else match history s with
             | [] => core s
             | _ :: _ =>
                 match Py.getitem (history s) (pointer s) with
                 | None => core s
                 | Some k => if String.eqb k (key img) then core s else pushed
                 end
             end
    end.
Proof.
  unfold show_image, finish, show_banner_if_new_case, push_history, key.
  destruct (images s !! index s) as [img|] eqn:Himg; [|reflexivity].
  destruct (pointer s =? -1)%Z; simpl; [by rewrite Himg|].
  destruct (history s) as [|k0 h] eqn:Hh; simpl; [by rewrite Himg|].
  destruct (Py.getitem (k0 :: h) (pointer s)) as [k|]; simpl; [|reflexivity].
  destruct (String.eqb k (get_key (img_path img))); simpl; rewrite Himg; simpl;
    by rewrite ?Hh.
Qed.

Lemma clinical_show_image_labels e s : labels (show_image e s) = labels s.
Proof.
  unfold show_image, finish, show_banner_if_new_case, push_history.
  repeat (break_match; simpl); congruence.
Qed.

Lemma clinical_show_image_images e s : images (show_image e s) = images s.
Proof.
  unfold show_image, finish, show_banner_if_new_case, push_history.
  repeat (break_match; simpl); congruence.
Qed.

Lemma clinical_show_image_index e s : index (show_image e s) = index s.
Proof.
  unfold show_image, finish, show_banner_if_new_case, push_history.
  repeat (break_match; simpl); congruence.
Qed.

Lemma clinical_show_image_times e s : times (show_image e s) = times s.
Proof.
  unfold show_image, finish, show_banner_if_new_case, push_history.
  repeat (break_match; simpl); congruence.
Qed.

(** [show_image] shows no message box; it can only report an exception. *)
Lemma clinical_show_image_log e s :
  log (show_image e s) = log s \/ exists x, log (show_image e s) = log s ++ [raised x].
Proof.
  unfold show_image, finish, show_banner_if_new_case, push_history.
  repeat (break_match; simpl); eauto.
Qed.

(** The state [save_label] hands to [show_image]. *)
Lemma save_label_labels e l c s img_info :
  images s !! index s = Some img_info ->
  labels (save_label e l c s)
  = Py.set (key img_info) (label_of img_info l c) (labels s).
Proof.
  intros Himg. unfold save_label. rewrite Himg. rewrite clinical_show_image_labels. simpl.
  destruct (image_start_time s) as [t0|]; simpl; [destruct (ftruth t0)|]; reflexivity.
Qed.

Lemma save_label_index e l c s img_info :
  images s !! index s = Some img_info ->
  index (save_label e l c s) = index s + 1.
Proof.
  intros Himg. unfold save_label. rewrite Himg. rewrite clinical_show_image_index. simpl.
  destruct (image_start_time s) as [t0|]; simpl; [destruct (ftruth t0)|]; reflexivity.
Qed.

Lemma save_label_log e l c s t :
  log (save_label e l c s) <> log s ++ [showwarning t].
Proof.
  unfold save_label. destruct (images s !! index s) as [img|].
  - match goal with |- context [show_image e ?s'] =>
      destruct (clinical_show_image_log e s') as [Hl|[x Hl]]; rewrite Hl;
      replace (log s') with (log s)
        by (simpl; destruct (image_start_time s) as [t0|]; simpl;
            [destruct (ftruth t0)|]; reflexivity)
    end.
    + intros Heq. apply (f_equal (@length effect)) in Heq.
      rewrite length_app in Heq. simpl in Heq. lia.
    + intros Heq. apply app_inv_head in Heq. discriminate.
  - simpl. intros Heq. apply app_inv_head in Heq. discriminate.
Qed.

(** *** The invariant of a session *)

Lemma lookup_In {A : Type} (l : list A) (i : nat) (x : A) : l !! i = Some x -> In x l.
Proof. intros Hl. apply list_elem_of_In. by eapply list_elem_of_lookup_2. Qed.

Lemma key_lookup_inj imgs i j a b :
  List.NoDup (map key imgs) ->
  imgs !! i = Some a -> imgs !! j = Some b -> key a = key b -> i = j.
Proof.
  intros Hnd. revert i j.
  induction imgs as [|x imgs IH]; intros i j Hi Hj Hk; [discriminate|].
  simpl in Hnd. inversion Hnd as [|? ? Hx Hnd']; subst.
  destruct i as [|i], j as [|j]; simpl in *.
  - reflexivity.
  - injection Hi as ->. exfalso. apply Hx. rewrite Hk. apply in_map. by eapply lookup_In.
  - injection Hj as ->. exfalso. apply Hx. rewrite <- Hk. apply in_map. by eapply lookup_In.
  - f_equal. by apply IH.
Qed.

Lemma find_key_found k n imgs :
  In k (map key imgs) ->
  exists i img, find_key k n imgs = Some (n + i) /\ imgs !! i = Some img /\ key img = k.
Proof.
  revert n. induction imgs as [|x imgs IH]; intros n Hin; [destruct Hin|].
  simpl. fold (key x). destruct (String.eqb (key x) k) eqn:Heq.
  - apply String.eqb_eq in Heq. exists 0, x. by rewrite Nat.add_0_r.
  - simpl in Hin. destruct Hin as [Hin|Hin].
    + apply String.eqb_neq in Heq. contradiction.
    + destruct (IH (S n) Hin) as (i & img & Hf & Hl & Hk).
      exists (S i), img. rewrite Hf. split; [f_equal; lia | by split].
Qed.

Lemma nth_error_singleton {A : Type} (x y : A) j :
  nth_error [x] j = Some y -> j = 0 /\ x = y.
Proof. destruct j as [|[|j]]; simpl; intros Hj; by inversion Hj. Qed.

(** [show_image] on a live window whose cursor is either fresh or on a key
    that is the first key only at the first image. *)
Lemma show_image_inv e s :
  List.NoDup (map key (images s)) ->
  Store.store_ok key (images s) (labels s) ->
  (forall k, In k (history s) -> In k (map key (images s))) ->
  (forall j img0, images s !! 0 = Some img0 ->
                  nth_error (history s) j = Some (key img0) -> j = 0) ->
  ((pointer s = (-1)%Z /\ history s = []) \/
   ((0 <= pointer s)%Z /\
    exists k, nth_error (history s) (Z.to_nat (pointer s)) = Some k /\
              (index s = 0 -> forall img0, images s !! 0 = Some img0 -> k = key img0))) ->
  inv (show_image e s).
Proof.
  intros Hnd Hst Hh HJ Hp. unfold inv. rewrite core_show_image.
  destruct (images s !! index s) as [img|] eqn:Himg.
  2: { repeat split; try assumption; try apply Hst. discriminate. }
  assert (Himgs : In (key img) (map key (images s))).
  { apply in_map. by eapply lookup_In. }
  cbv zeta.
  destruct (pointer s =? -1)%Z eqn:Hm1.
  - apply Z.eqb_eq in Hm1. destruct Hp as [[_ Hnil]|[Hge _]]; [|lia].
    rewrite Hnil. simpl. repeat split; try assumption; try apply Hst.
    + intros k [<-|[]]. assumption.
    + intros j img0 _ Hj. by apply nth_error_singleton in Hj as [-> _].
    + intros _. exists img. split; [assumption|]. split; [lia|reflexivity].
  - apply Z.eqb_neq in Hm1. destruct Hp as [[Hp _]|(Hge & k & Hk & Hfirst)]; [contradiction|].
    destruct (history s) as [|k0 h] eqn:Hhist.
    { by destruct (Z.to_nat (pointer s)). }
    rewrite <- Hhist in *. rewrite getitem_nonneg, Hk by assumption.
    destruct (String.eqb k (key img)) eqn:Heq.
    + apply String.eqb_eq in Heq. subst k. unfold core.
      repeat split; try assumption; try apply Hst.
      intros _. exists img. by repeat split.
    + apply String.eqb_neq in Heq.
      assert (Hidx : index s <> 0).
      { intros Hz. apply Heq, Hfirst; [assumption|]. by rewrite <- Hz. }
      repeat split; try assumption; try apply Hst.
      * intros k' Hk'. apply in_app_iff in Hk' as [Hk'|[<-|[]]]; auto.
      * intros j img0 Hzero Hj.
        destruct (Nat.lt_ge_cases j (length (history s))) as [Hlt|Hge'].
        -- rewrite nth_error_app1 in Hj by assumption. eauto.
        -- rewrite nth_error_app2 in Hj by assumption.
           apply nth_error_singleton in Hj as [_ Hj].
           exfalso. apply Hidx. by eapply key_lookup_inj.
      * intros _. exists img. split; [assumption|].
        rewrite length_app. simpl. split; [lia|].
        replace (Z.to_nat (Z.of_nat (length (history s) + 1) - 1))
          with (length (history s)) by lia.
        by rewrite nth_error_app2, Nat.sub_diag.
Qed.

Lemma inv_tell x s : inv s -> inv (tell x s).
Proof. exact id. Qed.

Lemma save_label_inv e l c s : inv s -> destroyed s = false -> inv (save_label e l c s).
Proof.
  intros (Hnd & Hst & Hh & HJ & Hp) Hlive.
  destruct (Hp Hlive) as (img & Himg & Hge & Hnth). simpl in *.
  unfold save_label. rewrite Himg.
  destruct (image_start_time _) as [t0|]; [destruct (ftruth t0)|].
  all: apply show_image_inv; simpl; try assumption.
  all: try (apply (StoreFacts.store_ok_set key (images s) (labels s) img);
            [by eapply lookup_In | assumption]).
  all: right; split; [assumption|]; exists (key img); split; [assumption | lia].
Qed.

Lemma go_back_inv e s : inv s -> destroyed s = false -> inv (go_back e s).
Proof.
  intros Hinv Hlive. pose proof Hinv as (Hnd & Hst & Hh & HJ & Hp).
  destruct (Hp Hlive) as (img & Himg & Hge & Hnth). simpl in *.
  unfold go_back. destruct (0 <? pointer s)%Z eqn:Hpos.
  2: { by apply inv_tell. }
  apply Z.ltb_lt in Hpos. simpl.
  assert (Hlen : Z.to_nat (pointer s) < length (history s)).
  { apply nth_error_Some. congruence. }
  destruct (nth_error (history s) (Z.to_nat (pointer s - 1))) as [prev_key|] eqn:Hprev.
  2: { apply nth_error_None in Hprev. lia. }
  rewrite getitem_nonneg, Hprev by lia.
  assert (Hin : In prev_key (map key (images s))).
  { apply Hh. by eapply nth_error_In. }
  destruct (find_key_found prev_key 0 (images s) Hin) as (i & img_i & Hf & Hi & Hk).
  rewrite Hf. simpl.
  destruct (times s) as [|t ts].
  all: apply show_image_inv; simpl; try assumption.
  all: right; split; [lia|]; exists prev_key; split; [assumption|].
  all: intros -> img0 H0'; rewrite Hi in H0'; by injection H0' as <-.
Qed.

Lemma relabel_current_inv s : inv s -> inv (relabel_current s).
Proof.
  intros Hinv. unfold relabel_current.
  destruct (images s !! index s) as [img|]; [|assumption].
  destruct (Py.mem _ _); [|by apply inv_tell].
  apply inv_tell. destruct Hinv as (Hnd & Hst & Hh & HJ & Hp).
  split; [assumption|]. split; [by apply StoreFacts.store_ok_del|].
  split; [assumption|]. split; assumption.
Qed.

Lemma save_progress_inv e s : inv s -> inv (save_progress e s).
Proof.
  intros Hinv. unfold save_progress.
  destruct (labels s); [|destruct (write_ok e)]; by apply inv_tell.
Qed.

Lemma step_inv s x : inv s -> inv (step s x).
Proof.
  intros Hinv. unfold step. destruct (destroyed s) eqn:Hlive; [assumption|].
  destruct x as [e ev]. destruct ev.
  - by apply save_label_inv.
  - by apply save_label_inv.
  - by apply save_label_inv.
  - by apply go_back_inv.
  - by apply relabel_current_inv.
  - by apply save_progress_inv.
Qed.

Lemma clinical_run_inv trace s : inv s -> inv (run s trace).
Proof.
  unfold run. revert s. induction trace as [|x trace IH]; intros s Hinv; [assumption|].
  simpl. apply IH. by apply step_inv.
Qed.

Lemma clinical_init_inv name t0 e0 imgs :
  List.NoDup (map key imgs) -> inv (init name t0 e0 imgs).
Proof.
  intros Hnd. unfold init. apply show_image_inv; simpl; try assumption.
  - apply StoreFacts.store_ok_empty.
  - intros k [].
  - intros j img0 _ Hj. by destruct j.
  - by left.
Qed.

Lemma save_label_images e l c s : images (save_label e l c s) = images s.
Proof.
  unfold save_label. destruct (images s !! index s); [|reflexivity].
  rewrite clinical_show_image_images. simpl.
  destruct (image_start_time s) as [t0|]; simpl; [destruct (ftruth t0)|]; reflexivity.
Qed.

Lemma go_back_images e s : images (go_back e s) = images s.
Proof.
  unfold go_back. destruct (0 <? pointer s)%Z; [|reflexivity].
  destruct (Py.getitem _ _); [|reflexivity].
  rewrite clinical_show_image_images.
  destruct (find_key _ _ _); simpl; destruct (times s); reflexivity.
Qed.

Lemma relabel_current_images s : images (relabel_current s) = images s.
Proof.
  unfold relabel_current. destruct (images s !! index s); [|reflexivity].
  destruct (Py.mem _ _); reflexivity.
Qed.

Lemma save_progress_images e s : images (save_progress e s) = images s.
Proof.
  unfold save_progress. destruct (labels s); [|destruct (write_ok e)]; reflexivity.
Qed.

Lemma step_images s x : images (step s x) = images s.
Proof.
  unfold step. destruct (destroyed s); [reflexivity|]. destruct x as [e ev].
  destruct ev; unfold save_na;
    auto using save_label_images, go_back_images, relabel_current_images,
               save_progress_images.
Qed.

Lemma run_images trace s : images (run s trace) = images s.
Proof.
  unfold run. revert s. induction trace as [|x trace IH]; intros s; [reflexivity|].
  simpl. by rewrite IH, step_images.
Qed.

Lemma init_images name t0 e0 imgs : images (init name t0 e0 imgs) = imgs.
Proof. unfold init. by rewrite clinical_show_image_images. Qed.

End Facts.
End ClinicalFacts.

(** ** The histopathology tool: the store along a session *)

Module HistopathSession.
Import Histopath HistopathFacts.

Section Facts.
Context `{Platform} `{FileSystem}.
Implicit Types (s : state) (e : env).

Lemma store_move_same s s' :
  images s' = images s -> labels s' = labels s -> store_move s s'.
Proof. intros Hi Hl. split; [assumption | by left]. Qed.

Lemma show_image_move e s s0 :
  images s = images s0 -> labels s = labels s0 -> store_move s0 (show_image e s).
Proof.
  intros Hi Hl. apply store_move_same.
  - by rewrite show_image_images.
  - by rewrite show_image_labels.
Qed.

Lemma save_label_to_storage_move e d sub c s :
  store_move s (save_label_to_storage e d sub c s).
Proof.
  split; [apply save_label_to_storage_images|].
  destruct (images s !! index s) as [img|] eqn:Himg.
  - right; left. exists img, (label_of img d sub c).
    split; [by eapply ClinicalFacts.lookup_In|].
    by apply save_label_to_storage_labels.
  - left. unfold save_label_to_storage. by rewrite Himg.
Qed.

Lemma save_label_simple_move e sub s : store_move s (save_label_simple e sub s).
Proof.
  unfold save_label_simple. destruct (is_str _ _ && negb _).
  - by apply store_move_same.
  - apply save_label_to_storage_move.
Qed.

Lemma save_multi_tier_label_move e s : store_move s (save_multi_tier_label e s).
Proof.
  unfold save_multi_tier_label.
  repeat match goal with
  | |- context [if ?b then _ else _] => destruct b
  end; try (by apply store_move_same); apply save_label_to_storage_move.
Qed.

Lemma next_image_move e s : store_move s (next_image e s).
Proof.
  unfold next_image. destruct (_ <? _)%Z; [|by apply store_move_same].
  by apply show_image_move.
Qed.

Lemma go_back_move e s : store_move s (go_back e s).
Proof.
  unfold go_back. destruct (0 <? index s)%nat; [|by apply store_move_same].
  apply show_image_move; simpl; by destruct (times s).
Qed.

Lemma on_progress_click_move e x w s : store_move s (on_progress_click e x w s).
Proof.
  unfold on_progress_click. destruct (_ =? 0)%Z; [by apply store_move_same|].
  destruct (_ && _); [|by apply store_move_same].
  by apply show_image_move.
Qed.

Lemma relabel_current_move e s : store_move s (relabel_current e s).
Proof.
  unfold relabel_current. destruct (images s !! index s); [|by apply store_move_same].
  destruct (Py.mem _ _); [|by apply store_move_same].
  split; [by rewrite show_image_images|].
  right; right. eexists. by rewrite show_image_labels.
Qed.

Lemma save_progress_move e s : store_move s (save_progress e s).
Proof.
  unfold save_progress.
  destruct (labels s) eqn:Hl; [|destruct (write_ok e)]; apply store_move_same;
    simpl; congruence.
Qed.

Lemma step_move s x : store_move s (step s x).
Proof.
  unfold step. destruct (destroyed s); [by apply store_move_same|].
  destruct x as [e ev]. destruct ev;
    auto using save_label_simple_move, save_multi_tier_label_move, next_image_move,
               go_back_move, on_progress_click_move, relabel_current_move,
               save_progress_move;
    by apply store_move_same.
Qed.

Lemma move_inv s s' : store_move s s' -> store_inv s -> store_inv s'.
Proof.
  intros [Hi Hl] [Hnd Hst]. unfold store_inv. rewrite Hi. split; [assumption|].
  destruct Hl as [->|[(img & r & Hin & ->)|[k ->]]].
  - assumption.
  - by apply StoreFacts.store_ok_set.
  - by apply StoreFacts.store_ok_del.
Qed.

Lemma store_run_inv trace s : store_inv s -> store_inv (run s trace).
Proof.
  unfold run. revert s. induction trace as [|x trace IH]; intros s Hinv; [assumption|].
  simpl. apply IH. eapply move_inv; [apply step_move | assumption].
Qed.

Lemma store_init_inv name t0 e0 imgs :
  List.NoDup (map key imgs) -> store_inv (init name t0 e0 imgs).
Proof.
  intros Hnd. unfold init, store_inv.
  rewrite show_image_images, show_image_labels. simpl.
  split; [assumption | apply StoreFacts.store_ok_empty].
Qed.

(** The [counts] dictionary holds, for each diagnosis, the number of values
    that carry it, and no entry for a diagnosis nobody carries. *)
Lemma count_step_get d counts lbl :
  Py.get d (count_step counts lbl) =
    if decide (diagnosis lbl = d)
    then Some (default 0 (Py.get d counts) + 1)
    else Py.get d counts.
Proof.
  unfold count_step. destruct (decide (diagnosis lbl = d)) as [->|Hne].
  - apply PyFacts.get_set_eq.
  - by apply PyFacts.get_set_ne.
Qed.

Lemma fold_count_step_get d vs counts :
  Py.get d (fold_left count_step vs counts) =
    let c := count_occ pyval_eq_dec (map diagnosis vs) d in
    match Py.get d counts with
    | Some n => Some (n + c)
    | None => if (c =? 0)%nat then None else Some c
    end.
Proof.
  revert counts. induction vs as [|v vs IH]; intros counts; simpl.
  - destruct (Py.get d counts); [f_equal; lia | reflexivity].
  - rewrite IH, count_step_get.
    destruct (pyval_eq_dec (diagnosis v) d) as [Heq|Hne];
      destruct (decide (diagnosis v = d)); try contradiction.
    + destruct (Py.get d counts); simpl; f_equal; lia.
    + reflexivity.
Qed.

End Facts.
End HistopathSession.

(** ** The grading selection *)

Module GradingFacts.
Import Histopath HistopathFacts.

Lemma fold_delete_None (ks : list string) (g : gmap string pyval) (k : string) :
  g !! k = None -> fold_left (fun g' key => delete key g') ks g !! k = None.
Proof.
  revert g. induction ks as [|k0 ks IH]; intros g Hg; simpl; [assumption|].
  apply IH. destruct (decide (k0 = k)) as [->|Hne].
  - apply lookup_delete_eq.
  - by rewrite lookup_delete_ne.
Qed.

Lemma fold_delete_In (ks : list string) (g : gmap string pyval) (k : string) :
  In k ks -> fold_left (fun g' key => delete key g') ks g !! k = None.
Proof.
  revert g. induction ks as [|k0 ks IH]; intros g Hin; [destruct Hin|].
  simpl. destruct Hin as [->|Hin]; [|auto].
  apply fold_delete_None, lookup_delete_eq.
Qed.

Lemma fold_delete_notin (ks : list string) (g : gmap string pyval) (k : string) :
  ~ In k ks -> fold_left (fun g' key => delete key g') ks g !! k = g !! k.
Proof.
  revert g. induction ks as [|k0 ks IH]; intros g Hnin; [reflexivity|].
  simpl. rewrite IH by (intros Hin; apply Hnin; by right).
  apply lookup_delete_ne. intros ->. apply Hnin. by left.
Qed.

Section Facts.
Context `{Platform} `{FileSystem}.
Implicit Types (s : state) (e : env) (g : gmap string pyval).

(** After [select_ungradable]: the marker, the diagnosis, nothing else. *)
Lemma select_ungradable_lookup s k :
  current_grading (select_ungradable s) !! k =
    if decide (k = "ungradable") then Some PTrue
    else if decide (k = "diagnosis") then current_grading s !! k
    else None.
Proof.
  unfold select_ungradable. simpl.
  destruct (decide (k = "ungradable")) as [->|Hu]; [apply lookup_insert_eq|].
  rewrite lookup_insert_ne by congruence.
  destruct (decide (k = "diagnosis")) as [->|Hd].
  - apply fold_delete_notin. intros Hin. apply filter_In in Hin as [_ Hf].
    discriminate.
  - destruct (current_grading s !! k) as [v|] eqn:Hk; [|by apply fold_delete_None].
    apply fold_delete_In, filter_In. split.
    + apply (in_map fst _ (k, v)). apply list_elem_of_In.
      by apply elem_of_map_to_list.
    + simpl. apply String.eqb_neq in Hd. by rewrite Hd.
Qed.

(** After [select_grading]: the tier is set and the marker is gone. *)
Lemma select_grading_lookup tier value s k :
  current_grading (select_grading tier value s) !! k =
    if decide (k = tier) then Some (PStr value)
    else if decide (k = "ungradable") then None
    else current_grading s !! k.
Proof.
  unfold select_grading, gmem. simpl.
  destruct (decide (k = tier)) as [->|Ht]; [apply lookup_insert_eq|].
  rewrite lookup_insert_ne by congruence.
  destruct (decide (k = "ungradable")) as [->|Hu].
  - destruct (current_grading s !! "ungradable") eqn:Hg; [apply lookup_delete_eq | assumption].
  - destruct (current_grading s !! "ungradable"); [by rewrite lookup_delete_ne | reflexivity].
Qed.

Lemma select_primary_lookup diagnosis s k :
  current_grading (select_primary diagnosis s) !! k =
    if decide (k = "diagnosis") then Some (PStr diagnosis) else None.
Proof.
  unfold select_primary. simpl.
  destruct (decide (k = "diagnosis")) as [->|Hd].
  - apply lookup_singleton_eq.
  - by apply lookup_singleton_ne.
Qed.

Lemma well_graded_empty : well_graded ∅.
Proof.
  split; [by left|]. intros tier _. unfold tier_ok. by rewrite lookup_empty.
Qed.

Lemma tier_key_cases tier :
  In tier tier_keys -> tier = "binary" \/ tier = "three_tier" \/ tier = "three_tier_diff".
Proof. simpl. intuition. Qed.

Lemma button_tier tier value :
  In (tier, value) grading_buttons -> In tier tier_keys /\ In value (tier_values tier).
Proof.
  simpl. intros Hin.
  repeat (destruct Hin as [Heq|Hin]; [injection Heq as <- <-; split; vm_compute; tauto|]).
  destruct Hin.
Qed.

Lemma well_graded_select_primary d s :
  well_graded (current_grading (select_primary d s)).
Proof.
  split.
  - left. by rewrite select_primary_lookup.
  - intros tier Hin. unfold tier_ok. rewrite select_primary_lookup.
    apply tier_key_cases in Hin as [-> | [-> | ->]]; exact I.
Qed.

Lemma well_graded_select_grading tier value s :
  In (tier, value) grading_buttons ->
  well_graded (current_grading s) ->
  well_graded (current_grading (select_grading tier value s)).
Proof.
  intros Hb [_ Hok]. apply button_tier in Hb as [Ht Hv]. split.
  - left. rewrite select_grading_lookup.
    apply tier_key_cases in Ht as [-> | [-> | ->]]; reflexivity.
  - intros t Hin. unfold tier_ok. rewrite select_grading_lookup.
    destruct (decide (t = tier)) as [->|Hne]; [eauto|].
    destruct (decide (t = "ungradable")) as [->|Hu]; [exact I|].
    apply Hok, Hin.
Qed.

Lemma well_graded_select_ungradable s :
  well_graded (current_grading (select_ungradable s)).
Proof.
  assert (Hnone : forall tier, In tier tier_keys ->
            current_grading (select_ungradable s) !! tier = None).
  { intros tier Hin. rewrite select_ungradable_lookup.
    apply tier_key_cases in Hin as [-> | [-> | ->]]; reflexivity. }
  split.
  - right. split; [by rewrite select_ungradable_lookup | exact Hnone].
  - intros tier Hin. unfold tier_ok. by rewrite Hnone.
Qed.

Lemma well_graded_show_image e s :
  well_graded (current_grading s) -> well_graded (current_grading (show_image e s)).
Proof.
  intros Hg. destruct (show_image_grading e s) as [->|[_ ->]];
    [apply well_graded_empty | assumption].
Qed.

Lemma well_graded_save_label_to_storage e d sub c s :
  well_graded (current_grading s) ->
  well_graded (current_grading (save_label_to_storage e d sub c s)).
Proof.
  intros Hg. unfold save_label_to_storage.
  destruct (images s !! index s); [|assumption].
  apply well_graded_show_image. simpl. apply well_graded_empty.
Qed.

Lemma well_graded_step s x :
  gui_event (snd x) = true ->
  well_graded (current_grading s) -> well_graded (current_grading (step s x)).
Proof.
  intros Hgui Hg. unfold step. destruct (destroyed s); [assumption|].
  destruct x as [e ev]. simpl in Hgui. destruct ev.
  - apply well_graded_select_primary.
  - unfold save_label_simple. destruct (_ && _); [assumption|].
    by apply well_graded_save_label_to_storage.
  - unfold save_label_simple. destruct (_ && _); [assumption|].
    by apply well_graded_save_label_to_storage.
  - apply well_graded_select_grading; [|assumption].
    apply existsb_exists in Hgui as ([t v] & Hin & Heq). simpl in Heq.
    apply andb_true_iff in Heq as [Ht Hv].
    apply String.eqb_eq in Ht, Hv. by subst.
  - apply well_graded_select_ungradable.
  - unfold save_multi_tier_label.
    repeat match goal with
    | |- context [if ?b then _ else _] => destruct b
    end; try assumption; by apply well_graded_save_label_to_storage.
  - unfold go_back. destruct (0 <? index s)%nat; [|assumption].
    apply well_graded_show_image. destruct (times _); apply well_graded_empty.
  - unfold next_image. destruct (_ <? _)%Z; [|assumption].
    apply well_graded_show_image, well_graded_empty.
  - unfold relabel_current. destruct (images s !! index s); [|assumption].
    destruct (Py.mem _ _); [|assumption]. by apply well_graded_show_image.
  - unfold save_progress. destruct (labels s); [|destruct (write_ok e)]; assumption.
  - unfold on_progress_click. destruct (_ =? 0)%Z; [assumption|].
    destruct (_ && _); [|assumption].
    apply well_graded_show_image, well_graded_empty.
  - assumption.
Qed.

Lemma well_graded_run trace s :
  Forall (fun x => gui_event (snd x) = true) trace ->
  well_graded (current_grading s) -> well_graded (current_grading (run s trace)).
Proof.
  unfold run. revert s. induction trace as [|x trace IH]; intros s Hgui Hg; [assumption|].
  inversion Hgui; subst. simpl. apply IH; [assumption|]. by apply well_graded_step.
Qed.

Lemma well_graded_init name t0 e0 imgs :
  well_graded (current_grading (init name t0 e0 imgs)).
Proof. unfold init. apply well_graded_show_image. simpl. apply well_graded_empty. Qed.

End Facts.
End GradingFacts.

(** ** The export *)

Module ExportFacts.

Lemma clean_is_normalized (c : string) :
  Py.replace Py.CR Py.SP (Py.replace Py.LF Py.SP c) = SpecWords.normalized c.
Proof.
  induction c as [|a c IH]; simpl; [reflexivity|]. rewrite IH. f_equal.
  destruct (Ascii.eqb a Py.LF) eqn:Hlf; simpl; [reflexivity|].
  destruct (Ascii.eqb a Py.CR); reflexivity.
Qed.

Lemma normalized_one_line (c : string) : SpecWords.one_line (SpecWords.normalized c).
Proof.
  unfold SpecWords.one_line. induction c as [|a c [IHlf IHcr]]; simpl; [tauto|].
  destruct (Ascii.eqb a Py.LF) eqn:Hlf; simpl.
  - split; intros [Heq|Hin]; try contradiction; discriminate.
  - destruct (Ascii.eqb a Py.CR) eqn:Hcr; simpl.
    + split; intros [Heq|Hin]; try contradiction; discriminate.
    + apply Ascii.eqb_neq in Hlf, Hcr.
      split; intros [Heq|Hin]; try contradiction; congruence.
Qed.

Lemma normalized_length (c : string) :
  String.length (SpecWords.normalized c) = String.length c.
Proof. induction c as [|a c IH]; simpl; [reflexivity | by rewrite IH]. Qed.

Lemma is_lt_opp (c : comparison) : Py.is_lt (CompOpp c) = true -> Py.is_lt c = false.
Proof. by destruct c. Qed.

Section Facts.
Context `{Platform}.

Lemma clinical_record_lt_asym (a b : Clinical.label_record) :
  Clinical.record_lt a b = true -> Clinical.record_lt b a = false.
Proof.
  unfold Clinical.record_lt.
  rewrite (String.compare_antisym (Clinical.case a) (Clinical.case b)),
          (String.compare_antisym (Clinical.visit a) (Clinical.visit b)),
          (String.compare_antisym (Clinical.file a) (Clinical.file b)).
  rewrite <- !PyFacts.lex_opp. apply is_lt_opp.
Qed.

Lemma histopath_record_lt_asym (a b : Histopath.label_record) :
  Histopath.record_lt a b = true -> Histopath.record_lt b a = false.
Proof.
  unfold Histopath.record_lt.
  rewrite (String.compare_antisym (Histopath.case_id a) (Histopath.case_id b)),
          (String.compare_antisym (Histopath.visit_id a) (Histopath.visit_id b)),
          (String.compare_antisym (Histopath.body_site a) (Histopath.body_site b)),
          (Z.compare_antisym (Histopath.mag_value b) (Histopath.mag_value a)),
          (String.compare_antisym (Histopath.filename a) (Histopath.filename b)).
  rewrite <- !PyFacts.lex_opp. apply is_lt_opp.
Qed.

Lemma clinical_count_label (c : string) (d : Py.dict string Clinical.label_record) :
  Clinical.count_label c d = count_occ string_dec (map Clinical.label (Py.values d)) c.
Proof.
  unfold Clinical.count_label. induction (Py.values d) as [|v vs IH]; simpl; [reflexivity|].
  destruct (String.eqb_spec (Clinical.label v) c) as [Heq|Hne];
    destruct (string_dec (Clinical.label v) c); try contradiction; simpl; by rewrite IH.
Qed.

End Facts.
End ExportFacts.


(** ** The claims of the specification *)

Section Claims.
Context `{Platform} `{FileSystem}.

(** C1 (as amended). In the grading tool, submitting Indeterminate, or an
    Ungradable grading, with an empty comment is rejected with the warning
    "Comment Required" and nothing else changes: no record is written for
    the key of the image, and what the store held stays.  The same
    submission with a non-empty comment writes the record under the key of
    the image.  In the simple tool NA goes through the comment dialog and is
    never rejected: the record is written with the stripped comment, empty
    or not. *)
Theorem C1_comment_required_in_grading_tool_only
    (e : Histopath.env) (s : Histopath.state)
    (ce : Clinical.env) (cs : Clinical.state) :
  let g := Histopath.current_grading s in
  let comment := Histopath.entered_comment s in
  (comment = "" ->
     (forall sub, Histopath.gget "diagnosis" g = Histopath.PStr "Indeterminate" ->
        Histopath.save_label_simple e sub s
        = Histopath.tell (showwarning "Comment Required") s) /\
     (Histopath.truthy (Histopath.gget "ungradable" g) = true ->
        Histopath.save_multi_tier_label e s
        = Histopath.tell (showwarning "Comment Required") s)) /\
  (forall img, comment <> "" -> Histopath.images s !! Histopath.index s = Some img ->
     (forall sub, Histopath.gget "diagnosis" g = Histopath.PStr "Indeterminate" ->
        let r := Histopath.label_of img (Histopath.PStr "Indeterminate") sub comment in
        Histopath.labels (Histopath.save_label_simple e sub s)
        = Py.set (Histopath.key img) r (Histopath.labels s) /\
        Py.get (Histopath.key img) (Histopath.labels (Histopath.save_label_simple e sub s))
        = Some r) /\
     (Histopath.truthy (Histopath.gget "ungradable" g) = true ->
        let r := Histopath.label_of img (Histopath.gget "diagnosis" g) "Ungradable" comment in
        Histopath.labels (Histopath.save_multi_tier_label e s)
        = Py.set (Histopath.key img) r (Histopath.labels s) /\
        Py.get (Histopath.key img) (Histopath.labels (Histopath.save_multi_tier_label e s))
        = Some r)) /\
  (forall txt img, Clinical.images cs !! Clinical.index cs = Some img ->
     let r := Clinical.label_of img "NA" (Py.strip txt) in
     Clinical.labels (Clinical.save_na ce txt cs)
     = Py.set (Clinical.key img) r (Clinical.labels cs) /\
     Py.get (Clinical.key img) (Clinical.labels (Clinical.save_na ce txt cs)) = Some r /\
     forall t, Clinical.log (Clinical.save_na ce txt cs)
               <> Clinical.log cs ++ [showwarning t]).
Proof.
  intros g comment. split; [|split].
  - intros Hempty. split.
    + intros sub Hd. unfold Histopath.save_label_simple.
      fold g. fold (Histopath.entered_comment s). fold comment.
      by rewrite Hd, Hempty.
    + intros Hu. unfold Histopath.save_multi_tier_label.
      fold g. fold (Histopath.entered_comment s). fold comment.
      by rewrite Hu, Hempty.
  - intros img Hne Himg.
    assert (Hc : Py.nonempty comment = true) by (by destruct comment).
    split.
    + intros sub Hd r.
      assert (Heq : Histopath.save_label_simple e sub s
                    = Histopath.save_label_to_storage e (Histopath.PStr "Indeterminate")
                        sub comment s).
      { unfold Histopath.save_label_simple.
        fold g. fold (Histopath.entered_comment s). fold comment.
        by rewrite Hd, Hc. }
      rewrite Heq, (HistopathFacts.save_label_to_storage_labels _ _ _ _ _ img Himg).
      split; [reflexivity | apply PyFacts.get_set_eq].
    + intros Hu r.
      assert (Heq : Histopath.save_multi_tier_label e s
                    = Histopath.save_label_to_storage e (Histopath.gget "diagnosis" g)
                        "Ungradable" comment s).
      { unfold Histopath.save_multi_tier_label.
        fold g. fold (Histopath.entered_comment s). fold comment.
        by rewrite Hu, Hc. }
      rewrite Heq, (HistopathFacts.save_label_to_storage_labels _ _ _ _ _ img Himg).
      split; [reflexivity | apply PyFacts.get_set_eq].
  - intros txt img Himg r. unfold Clinical.save_na.
    rewrite (ClinicalFacts.save_label_labels _ _ _ _ img Himg).
    split; [reflexivity|]. split; [apply PyFacts.get_set_eq|].
    intros t. apply ClinicalFacts.save_label_log.
Qed.


(** C3. When a submission of the grading tool is turned down (it ends on a
    warning: the required comment is missing, or the grading is incomplete),
    the state is the one before the submission with the warning added to
    what was shown: the label store, the position, the recorded durations,
    the selection in progress and the comment box are untouched, so the
    fields can be completed and the submission repeated.  The submissions
    turned down are: Indeterminate or Ungradable without a comment, a
    Dysplasia grading that lacks a tier, a Cancer grading without its
    tier. *)
Theorem C3_rejected_submission_changes_nothing
    (e : Histopath.env) (s : Histopath.state) (t : string) :
  (forall sub,
     Histopath.log (Histopath.save_label_simple e sub s)
     = Histopath.log s ++ [showwarning t] ->
     let s' := Histopath.save_label_simple e sub s in
     s' = Histopath.tell (showwarning t) s /\
     Histopath.labels s' = Histopath.labels s /\
     Histopath.index s' = Histopath.index s /\
     Histopath.times s' = Histopath.times s /\
     Histopath.current_grading s' = Histopath.current_grading s /\
     Histopath.comment_text s' = Histopath.comment_text s) /\
  (Histopath.log (Histopath.save_multi_tier_label e s)
   = Histopath.log s ++ [showwarning t] ->
   let s' := Histopath.save_multi_tier_label e s in
   s' = Histopath.tell (showwarning t) s /\
   Histopath.labels s' = Histopath.labels s /\
   Histopath.index s' = Histopath.index s /\
   Histopath.times s' = Histopath.times s /\
   Histopath.current_grading s' = Histopath.current_grading s /\
   Histopath.comment_text s' = Histopath.comment_text s) /\
  (let g := Histopath.current_grading s in
   let diagnosis := Histopath.gget "diagnosis" g in
   let marked := Histopath.truthy (Histopath.gget "ungradable" g) in
   let comment := Histopath.entered_comment s in
   (forall sub, Histopath.is_str diagnosis "Indeterminate" = true -> comment = "" ->
      Histopath.save_label_simple e sub s
      = Histopath.tell (showwarning "Comment Required") s) /\
   (marked = true -> comment = "" ->
      Histopath.save_multi_tier_label e s
      = Histopath.tell (showwarning "Comment Required") s) /\
   (marked = false -> Histopath.is_str diagnosis "Dysplasia" = true ->
      Histopath.gmem "binary" g = false \/ Histopath.gmem "three_tier" g = false ->
      Histopath.save_multi_tier_label e s = Histopath.tell (showwarning "Incomplete") s) /\
   (marked = false -> Histopath.is_str diagnosis "Dysplasia" = false ->
      Histopath.is_str diagnosis "Cancer" = true ->
      Histopath.gmem "three_tier_diff" g = false ->
      Histopath.save_multi_tier_label e s = Histopath.tell (showwarning "Incomplete") s)).
Proof.
  split; [|split].
  - intros sub Hlog s'. subst s'.
    rewrite (HistopathFacts.save_label_simple_rejected e sub s t Hlog).
    by repeat split.
  - intros Hlog s'. subst s'.
    rewrite (HistopathFacts.save_multi_tier_label_rejected e s t Hlog).
    by repeat split.
  - intros g diagnosis marked comment.
    split; [|split; [|split]].
    + intros sub Hd Hc. unfold Histopath.save_label_simple.
      fold g. fold diagnosis. fold (Histopath.entered_comment s). fold comment.
      by rewrite Hd, Hc.
    + intros Hm Hc. unfold Histopath.save_multi_tier_label.
      fold g. fold marked. fold (Histopath.entered_comment s). fold comment.
      by rewrite Hm, Hc.
    + intros Hm Hd Hmiss. unfold Histopath.save_multi_tier_label.
      fold g. fold diagnosis. fold marked. rewrite Hm, Hd.
      by destruct Hmiss as [-> | ->]; [|rewrite orb_true_r].
    + intros Hm Hd Hc Hmiss. unfold Histopath.save_multi_tier_label.
      fold g. fold diagnosis. fold marked. by rewrite Hm, Hd, Hc, Hmiss.
Qed.

(** C4. For every directory tree, path resolution and root, the catalog of
    either tool holds every resolved image path the walk reaches exactly
    once: no two records share a key, whichever subpaths lead to the same
    file, and every record of the catalog is one the walk reached. *)
Theorem C4_catalog_holds_each_resolved_path_once (root : Path.path) :
  (List.NoDup (map Clinical.key (Clinical.find_clinical_images root)) /\
   (forall x, In x (Clinical.walk root) ->
      count_occ string_dec (map Clinical.key (Clinical.find_clinical_images root))
                (Clinical.key x) = 1) /\
   incl (Clinical.find_clinical_images root) (Clinical.walk root)) /\
  (List.NoDup (map Histopath.key (Histopath.find_histopath_images root)) /\
   (forall x, In x (Histopath.walk root) ->
      count_occ string_dec (map Histopath.key (Histopath.find_histopath_images root))
                (Histopath.key x) = 1) /\
   incl (Histopath.find_histopath_images root) (Histopath.walk root)).
Proof.
  split.
  - apply CatalogFacts.find_clinical_images_catalog.
  - apply CatalogFacts.find_histopath_images_catalog.
Qed.


(** C5. In the grading tool, for the diagnosis Dysplasia: with only the
    binary tier selected, the submission is turned down with the warning
    "Incomplete" and the store stays as it was; with binary Low_Risk and
    three-tier Mild selected it writes the record of the image, whose
    subtype is exactly "Binary:Low_Risk|ThreeTier:Mild". *)
Theorem C5_dysplasia_needs_both_tiers (e : Histopath.env) (s : Histopath.state) :
  (forall b,
     let s1 := Histopath.select_grading "binary" b
                 (Histopath.select_primary "Dysplasia" s) in
     Histopath.save_multi_tier_label e s1 = Histopath.tell (showwarning "Incomplete") s1 /\
     Histopath.labels (Histopath.save_multi_tier_label e s1) = Histopath.labels s) /\
  (forall img, Histopath.images s !! Histopath.index s = Some img ->
     let s2 := Histopath.select_grading "three_tier" "Mild"
                 (Histopath.select_grading "binary" "Low_Risk"
                    (Histopath.select_primary "Dysplasia" s)) in
     let r := Histopath.label_of img (Histopath.PStr "Dysplasia")
                "Binary:Low_Risk|ThreeTier:Mild" (Histopath.entered_comment s) in
     Histopath.labels (Histopath.save_multi_tier_label e s2)
     = Py.set (Histopath.key img) r (Histopath.labels s) /\
     Py.get (Histopath.key img) (Histopath.labels (Histopath.save_multi_tier_label e s2))
     = Some r /\
     Histopath.subtype r = "Binary:Low_Risk|ThreeTier:Mild").
Proof.
  split.
  - intros b s1.
    assert (Heq : Histopath.save_multi_tier_label e s1
                  = Histopath.tell (showwarning "Incomplete") s1).
    { unfold Histopath.save_multi_tier_label, Histopath.gget, Histopath.gmem. subst s1.
      rewrite !GradingFacts.select_grading_lookup, !GradingFacts.select_primary_lookup.
      reflexivity. }
    rewrite Heq. by split.
  - intros img Himg s2 r.
    assert (Heq : Histopath.save_multi_tier_label e s2
                  = Histopath.save_label_to_storage e (Histopath.PStr "Dysplasia")
                      "Binary:Low_Risk|ThreeTier:Mild" (Histopath.entered_comment s) s2).
    { unfold Histopath.save_multi_tier_label, Histopath.gget, Histopath.gmem. subst s2.
      rewrite !GradingFacts.select_grading_lookup, !GradingFacts.select_primary_lookup.
      reflexivity. }
    rewrite Heq.
    rewrite (HistopathFacts.save_label_to_storage_labels _ _ _ _ s2 img Himg).
    split; [reflexivity|]. split; [apply PyFacts.get_set_eq | reflexivity].
Qed.


(** C9. In the grading tool the selection in progress never holds the
    Ungradable marker together with a tier: selecting a tier removes the
    marker, selecting Ungradable removes every tier, and the property is kept
    by every callback of a session.  Hence what [save_multi_tier_label]
    writes has a subtype that is either exactly "Ungradable" (and then the
    marker was selected) or a combination of tier values only. *)
Theorem C9_selection_never_mixes_ungradable_with_tiers :
  (forall (s : Histopath.state) tier value,
     In (tier, value) Histopath.grading_buttons ->
     Histopath.current_grading (Histopath.select_grading tier value s) !! "ungradable"
     = None) /\
  (forall (s : Histopath.state),
     Histopath.current_grading (Histopath.select_ungradable s) !! "ungradable"
     = Some Histopath.PTrue /\
     forall tier, In tier Histopath.tier_keys ->
       Histopath.current_grading (Histopath.select_ungradable s) !! tier = None) /\
  (forall root name t0 e0 trace,
     Forall (fun x => Histopath.gui_event (snd x) = true) trace ->
     Histopath.well_graded
       (Histopath.current_grading (Histopath.session root name t0 e0 trace))) /\
  (forall (e : Histopath.env) (s : Histopath.state) img,
     Histopath.well_graded (Histopath.current_grading s) ->
     Histopath.images s !! Histopath.index s = Some img ->
     let s' := Histopath.save_multi_tier_label e s in
     Histopath.labels s' = Histopath.labels s \/
     exists r,
       Histopath.labels s' = Py.set (Histopath.key img) r (Histopath.labels s) /\
       In (Histopath.subtype r) Histopath.graded_subtypes /\
       (Histopath.subtype r = "Ungradable" <->
        Histopath.current_grading s !! "ungradable" = Some Histopath.PTrue)).
Proof.
  split; [|split; [|split]].
  - intros s tier value Hb. apply GradingFacts.button_tier in Hb as [Ht _].
    rewrite GradingFacts.select_grading_lookup.
    apply GradingFacts.tier_key_cases in Ht as [-> | [-> | ->]]; reflexivity.
  - intros s. destruct (GradingFacts.well_graded_select_ungradable s) as [[Hu|[Hu Hn]] _].
    + rewrite GradingFacts.select_ungradable_lookup in Hu. discriminate.
    + by split.
  - intros root name t0 e0 trace Hgui. unfold Histopath.session.
    apply GradingFacts.well_graded_run; [assumption|].
    apply GradingFacts.well_graded_init.
  - intros e s img [Hun Hok] Himg s'. subst s'.
    unfold Histopath.save_multi_tier_label.
    set (g := Histopath.current_grading s) in *.
    set (comment := Py.strip (Histopath.get_comment_text s)).
    unfold Histopath.gget, Histopath.gmem.
    destruct Hun as [Hu|[Hu Hnone]]; rewrite Hu; simpl.
    + (* no marker: tiers only *)
      pose proof (Hok "binary" ltac:(simpl; tauto)) as Hb.
      pose proof (Hok "three_tier" ltac:(simpl; tauto)) as Ht.
      pose proof (Hok "three_tier_diff" ltac:(simpl; tauto)) as Hd.
      unfold Histopath.tier_ok in Hb, Ht, Hd.
      destruct (Histopath.is_str _ "Dysplasia").
      * destruct (g !! "binary") as [vb|]; [|by left].
        destruct (g !! "three_tier") as [vt|]; [|by left]. simpl.
        right. eexists. split; [by apply HistopathFacts.save_label_to_storage_labels|].
        destruct Hb as (b & -> & Hb), Ht as (t & -> & Ht). simpl.
        split.
        -- vm_compute in Hb, Ht.
           destruct Hb as [<-|[<-|[]]]; destruct Ht as [<-|[<-|[<-|[]]]];
             vm_compute; tauto.
        -- split; [|congruence].
           vm_compute in Hb. destruct Hb as [<-|[<-|[]]]; discriminate.
      * destruct (Histopath.is_str _ "Cancer"); [|by left].
        destruct (g !! "three_tier_diff") as [vd|]; [|by left]. simpl.
        right. eexists. split; [by apply HistopathFacts.save_label_to_storage_labels|].
        destruct Hd as (d & -> & Hd). simpl.
        split.
        -- vm_compute in Hd. destruct Hd as [<-|[<-|[<-|[]]]]; vm_compute; tauto.
        -- split; [discriminate | congruence].
    + (* the marker: Ungradable, or nothing written *)
      destruct (negb (Py.nonempty comment)); [by left|].
      right. eexists. split; [by apply HistopathFacts.save_label_to_storage_labels|].
      simpl. split; [by left | by split].
Qed.






(** C8. Clearing the label of an image that has none, stepping back from
    the first image, and (grading tool) stepping forward from the last
    image are answered by an information box and nothing else: the state
    after the callback is the state before it with that box added to what
    was shown, so the label store, the position and the recorded durations
    are the same.  For the simple tool, whose back step follows the history
    of visited keys, "at the first image" is taken at any point of a
    session. *)
Theorem C8_informational_events_change_nothing :
  (forall (s : Clinical.state) img,
     Clinical.images s !! Clinical.index s = Some img ->
     Py.mem (Clinical.key img) (Clinical.labels s) = false ->
     Clinical.relabel_current s = Clinical.tell (showinfo "Info") s) /\
  (forall root name t0 e0 trace (e : Clinical.env),
     let s := Clinical.session root name t0 e0 trace in
     Clinical.destroyed s = false -> Clinical.index s = 0 ->
     Clinical.go_back e s = Clinical.tell (showinfo "Info") s) /\
  (forall (x : effect) (s : Clinical.state),
     Clinical.labels (Clinical.tell x s) = Clinical.labels s /\
     Clinical.index (Clinical.tell x s) = Clinical.index s /\
     Clinical.times (Clinical.tell x s) = Clinical.times s /\
     Clinical.log (Clinical.tell x s) = Clinical.log s ++ [x]) /\
  (forall (e : Histopath.env) (s : Histopath.state) img,
     Histopath.images s !! Histopath.index s = Some img ->
     Py.mem (Histopath.key img) (Histopath.labels s) = false ->
     Histopath.relabel_current e s = Histopath.tell (showinfo "Info") s) /\
  (forall (e : Histopath.env) (s : Histopath.state),
     Histopath.index s = 0 ->
     Histopath.go_back e s = Histopath.tell (showinfo "Start") s) /\
  (forall (e : Histopath.env) (s : Histopath.state),
     length (Histopath.images s) <= Histopath.index s + 1 ->
     Histopath.next_image e s = Histopath.tell (showinfo "End") s) /\
  (forall (x : effect) (s : Histopath.state),
     Histopath.labels (Histopath.tell x s) = Histopath.labels s /\
     Histopath.index (Histopath.tell x s) = Histopath.index s /\
     Histopath.times (Histopath.tell x s) = Histopath.times s /\
     Histopath.log (Histopath.tell x s) = Histopath.log s ++ [x]).
Proof.
  repeat apply conj.
  - intros s img Himg Hmem. unfold Clinical.relabel_current.
    rewrite Himg. fold (Clinical.key img). by rewrite Hmem.
  - intros root name t0 e0 trace e s Hlive Hzero.
    assert (Hinv : Clinical.inv s).
    { apply ClinicalFacts.clinical_run_inv, ClinicalFacts.clinical_init_inv.
      apply (CatalogFacts.find_clinical_images_catalog root). }
    destruct Hinv as (_ & _ & _ & HJ & Hp).
    destruct (Hp Hlive) as (img & Himg & Hge & Hnth). simpl in *.
    rewrite Hzero in Himg.
    assert (Hptr : Z.to_nat (Clinical.pointer s) = 0) by (by eapply HJ).
    unfold Clinical.go_back.
    replace (0 <? Clinical.pointer s)%Z with false; [reflexivity|].
    symmetry. apply Z.ltb_ge. lia.
  - by intros x s.
  - intros e s img Himg Hmem. unfold Histopath.relabel_current.
    rewrite Himg. fold (Histopath.key img). by rewrite Hmem.
  - intros e s Hzero. unfold Histopath.go_back. by rewrite Hzero.
  - intros e s Hlast. unfold Histopath.next_image.
    replace (Z.of_nat (Histopath.index s) <? Z.of_nat (length (Histopath.images s)) - 1)%Z
      with false; [reflexivity|].
    symmetry. apply Z.ltb_ge. lia.
  - by intros x s.
Qed.

(** C10. In the export of the grading tool, the time of the row at
    position [i] of the sorted rows is the [i]-th recorded duration, whatever
    image the row is about, and "0" for every position from the number of
    recorded durations on.  The export is defined for every store and every
    list of durations: a difference between their lengths is no error. *)
Theorem C10_time_spent_follows_row_position
    (stamp : nat -> string) (s : Histopath.state) :
  length (Histopath._write_csv stamp s) = length (Histopath.labels s) /\
  map Histopath.Time_Spent_sec (Histopath._write_csv stamp s)
  = map (fun i => match Histopath.times s !! i with
                  | Some t => format_2f t
                  | None => "0"
                  end)
        (seq 0 (length (Histopath.labels s))) /\
  (forall i row,
     Histopath._write_csv stamp s !! i = Some row ->
     (exists r, Histopath.rows s !! i = Some r /\
                Histopath.Image_File row = Histopath.filename r) /\
     (forall t, Histopath.times s !! i = Some t ->
                Histopath.Time_Spent_sec row = format_2f t) /\
     (length (Histopath.times s) <= i -> Histopath.Time_Spent_sec row = "0")).
Proof.
  assert (Hlen : length (Histopath.rows s) = length (Histopath.labels s)).
  { unfold Histopath.rows. by rewrite PyFacts.sorted_length, PyFacts.length_values. }
  unfold Histopath._write_csv, Py.enumerate.
  split; [|split].
  - rewrite length_map, <- (length_map snd), PyFacts.enumerate_from_snd. exact Hlen.
  - rewrite <- Hlen, <- (PyFacts.enumerate_from_seq (Histopath.rows s) 0).
    rewrite !map_map. apply map_ext. by intros [i r].
  - intros i row Hrow.
    change (map (Histopath.writerow stamp s) (Py.enumerate_from 0 (Histopath.rows s)))
      with (Histopath.writerow stamp s <$> Py.enumerate_from 0 (Histopath.rows s)) in Hrow.
    rewrite list_lookup_fmap, PyFacts.enumerate_from_lookup in Hrow.
    destruct (Histopath.rows s !! i) as [r|] eqn:Hr; [|discriminate].
    simpl in Hrow. injection Hrow as <-. simpl.
    split; [by exists r|]. split.
    + intros t Ht. by rewrite Ht.
    + intros Hge. by rewrite (lookup_ge_None_2 _ _ Hge).
Qed.


End Claims.

(** ** The claims at work on the small machine *)

Section OnTheSmallMachine.
#[local] Existing Instance Demo.platform.
#[local] Existing Instance Demo.fs.

(** C1 at work: the two rejections, the two accepted submissions, and NA
    with an empty comment in the simple tool. *)
Lemma C1_witness :
  let e := Demo.histopath_env 200 in
  let ce := Demo.clinical_env 200 in
  Histopath.save_label_simple e "" Demo.indeterminate
  = Histopath.tell (showwarning "Comment Required") Demo.indeterminate /\
  Histopath.save_multi_tier_label e Demo.ungradable
  = Histopath.tell (showwarning "Comment Required") Demo.ungradable /\
  Py.get (Histopath.key Demo.first_slide)
         (Histopath.labels (Histopath.save_label_simple e "" Demo.indeterminate_commented))
  = Some (Histopath.label_of Demo.first_slide (Histopath.PStr "Indeterminate") ""
            (Histopath.entered_comment Demo.indeterminate_commented)) /\
  Py.get (Histopath.key Demo.first_slide)
         (Histopath.labels (Histopath.save_multi_tier_label e Demo.ungradable_commented))
  = Some (Histopath.label_of Demo.first_slide
            (Histopath.gget "diagnosis" (Histopath.current_grading Demo.ungradable_commented))
            "Ungradable" (Histopath.entered_comment Demo.ungradable_commented)) /\
  Py.get (Clinical.key Demo.first_photo)
         (Clinical.labels (Clinical.save_na ce "" Demo.clinical_start))
  = Some (Clinical.label_of Demo.first_photo "NA" (Py.strip "")).
Proof.
  intros e ce.
  pose proof (C1_comment_required_in_grading_tool_only e Demo.indeterminate
                ce Demo.clinical_start) as H1.
  pose proof (C1_comment_required_in_grading_tool_only e Demo.ungradable
                ce Demo.clinical_start) as H2.
  pose proof (C1_comment_required_in_grading_tool_only e Demo.indeterminate_commented
                ce Demo.clinical_start) as H3.
  pose proof (C1_comment_required_in_grading_tool_only e Demo.ungradable_commented
                ce Demo.clinical_start) as H4.
  cbv zeta in H1, H2, H3, H4.
  destruct H1 as (Hrej1 & _ & Hna). destruct H2 as (Hrej2 & _ & _).
  destruct H3 as (_ & Hacc3 & _). destruct H4 as (_ & Hacc4 & _).
  split; [|split; [|split; [|split]]].
  - refine (proj1 (Hrej1 _) "" _); vm_compute; reflexivity.
  - refine (proj2 (Hrej2 _) _); vm_compute; reflexivity.
  - refine (proj2 (proj1 (Hacc3 Demo.first_slide _ _) "" _));
      vm_compute; (reflexivity || discriminate).
  - refine (proj2 (proj2 (Hacc4 Demo.first_slide _ _) _));
      vm_compute; (reflexivity || discriminate).
  - refine (proj1 (proj2 (Hna "" Demo.first_photo _))); vm_compute; reflexivity.
Defined.

(** C1 as stated fails in the simple tool: NA submitted with an empty
    comment on the first photo, which had no label, shows no warning and a
    record is stored for the key of the photo. *)
Lemma C1_counterexample_NA_with_empty_comment_is_stored :
  let s := Demo.clinical_start in
  let s' := Clinical.save_na (Demo.clinical_env 200) "" s in
  Py.strip "" = "" /\
  Clinical.images s !! Clinical.index s = Some Demo.first_photo /\
  Py.get (Clinical.key Demo.first_photo) (Clinical.labels s) = None /\
  Clinical.log s' = Clinical.log s /\
  Py.get (Clinical.key Demo.first_photo) (Clinical.labels s')
  = Some {| Clinical.case := "CaseA"; Clinical.visit := "Visit1";
            Clinical.file := "b.jpg"; Clinical.label := "NA";
            Clinical.comment := "" |}.
Proof. vm_compute. repeat split. Qed.


(** C3 at work: Indeterminate without a comment, Ungradable without a
    comment. *)
Lemma C3_witness :
  let e := Demo.histopath_env 200 in
  (Histopath.save_label_simple e "" Demo.indeterminate
   = Histopath.tell (showwarning "Comment Required") Demo.indeterminate /\
   Histopath.labels (Histopath.save_label_simple e "" Demo.indeterminate)
   = Histopath.labels Demo.indeterminate /\
   Histopath.index (Histopath.save_label_simple e "" Demo.indeterminate)
   = Histopath.index Demo.indeterminate) /\
  (Histopath.save_multi_tier_label e Demo.ungradable
   = Histopath.tell (showwarning "Comment Required") Demo.ungradable /\
   Histopath.labels (Histopath.save_multi_tier_label e Demo.ungradable)
   = Histopath.labels Demo.ungradable /\
   Histopath.index (Histopath.save_multi_tier_label e Demo.ungradable)
   = Histopath.index Demo.ungradable).
Proof.
  intros e.
  pose proof (C3_rejected_submission_changes_nothing e Demo.indeterminate
                "Comment Required") as H1.
  pose proof (C3_rejected_submission_changes_nothing e Demo.ungradable
                "Comment Required") as H2.
  cbv zeta in H1, H2. destruct H1 as (Hsimple & _). destruct H2 as (_ & Hmulti & _).
  split.
  - assert (Hlog : Histopath.log (Histopath.save_label_simple e "" Demo.indeterminate)
                   = Histopath.log Demo.indeterminate ++ [showwarning "Comment Required"])
      by (vm_compute; reflexivity).
    destruct (Hsimple "" Hlog) as (Heq & Hl & Hi & _). by repeat split.
  - assert (Hlog : Histopath.log (Histopath.save_multi_tier_label e Demo.ungradable)
                   = Histopath.log Demo.ungradable ++ [showwarning "Comment Required"])
      by (vm_compute; reflexivity).
    destruct (Hmulti Hlog) as (Heq & Hl & Hi & _). by repeat split.
Defined.

(** C4 at work: the photo behind the symbolic link is reached twice and
    kept once; the first slide is kept once. *)
Lemma C4_witness :
  In Demo.linked_photo (Clinical.walk ["data"]) /\
  count_occ string_dec (map Clinical.key (Clinical.find_clinical_images ["data"]))
            (Clinical.key Demo.linked_photo) = 1 /\
  count_occ string_dec (map Histopath.key (Histopath.find_histopath_images ["data"]))
            (Histopath.key Demo.first_slide) = 1.
Proof.
  assert (Hin : In Demo.linked_photo (Clinical.walk ["data"])).
  { vm_compute. do 3 right. by left. }
  assert (Hin' : In Demo.first_slide (Histopath.walk ["data"])).
  { vm_compute. by left. }
  destruct (C4_catalog_holds_each_resolved_path_once ["data"])
    as [(_ & Hc & _) (_ & Hh & _)].
  split; [exact Hin|]. split.
  - exact (Hc Demo.linked_photo Hin).
  - exact (Hh Demo.first_slide Hin').
Defined.

(** C5 at work on the first slide. *)
Lemma C5_witness :
  let e := Demo.histopath_env 200 in
  let r := Histopath.label_of Demo.first_slide (Histopath.PStr "Dysplasia")
             "Binary:Low_Risk|ThreeTier:Mild"
             (Histopath.entered_comment Demo.histopath_start) in
  Py.get (Histopath.key Demo.first_slide)
         (Histopath.labels (Histopath.save_multi_tier_label e Demo.dysplasia_low_mild))
  = Some r /\
  Histopath.subtype r = "Binary:Low_Risk|ThreeTier:Mild".
Proof.
  intros e r.
  pose proof (C5_dysplasia_needs_both_tiers e Demo.histopath_start) as Hboth.
  cbv zeta in Hboth. destruct Hboth as [_ Hboth].
  assert (Himg : Histopath.images Demo.histopath_start
                 !! Histopath.index Demo.histopath_start = Some Demo.first_slide)
    by (vm_compute; reflexivity).
  destruct (Hboth Demo.first_slide Himg) as (_ & Hget & Hsub).
  split; [exact Hget | exact Hsub].
Defined.


(** C8 at work: nothing to clear on the first photo and on the first slide;
    a step back once the first photo is on display again; a step back from
    the first slide; a step forward from the last slide. *)
Lemma C8_witness :
  let ce := Demo.clinical_env 400 in
  let e := Demo.histopath_env 400 in
  Clinical.relabel_current Demo.clinical_start
  = Clinical.tell (showinfo "Info") Demo.clinical_start /\
  Clinical.go_back ce Demo.back_at_first_photo
  = Clinical.tell (showinfo "Info") Demo.back_at_first_photo /\
  Histopath.relabel_current e Demo.histopath_start
  = Histopath.tell (showinfo "Info") Demo.histopath_start /\
  Histopath.go_back e Demo.histopath_start
  = Histopath.tell (showinfo "Start") Demo.histopath_start /\
  Histopath.next_image e Demo.at_last_slide
  = Histopath.tell (showinfo "End") Demo.at_last_slide.
Proof.
  intros ce e.
  pose proof C8_informational_events_change_nothing as Hall.
  cbv zeta in Hall.
  destruct Hall as (Hclear & Hback & _ & Hhclear & Hhback & Hhnext & _).
  split; [|split; [|split; [|split]]].
  - refine (Hclear Demo.clinical_start Demo.first_photo _ _); vm_compute; reflexivity.
  - refine (Hback ["data"] (Some "Asha") 100%Z (Demo.clinical_env 100)
              [ (Demo.clinical_env 200, Clinical.press_suspicious);
                (Demo.clinical_env 300, Clinical.press_back) ] ce _ _);
      vm_compute; reflexivity.
  - refine (Hhclear e Demo.histopath_start Demo.first_slide _ _); vm_compute; reflexivity.
  - refine (Hhback e Demo.histopath_start _). vm_compute. reflexivity.
  - refine (Hhnext e Demo.at_last_slide _). vm_compute. lia.
Defined.

(** C9 at work: a tier chosen after Ungradable removes the marker, a
    session of button presses keeps the selection unmixed, and the complete
    Dysplasia grading it selects is written as tiers only. *)
Lemma C9_witness :
  let e := Demo.histopath_env 600 in
  Histopath.current_grading
    (Histopath.select_grading "binary" "Low_Risk" Demo.ungradable) !! "ungradable" = None /\
  Histopath.well_graded (Histopath.current_grading Demo.graded) /\
  (Histopath.labels (Histopath.save_multi_tier_label e Demo.graded)
   = Histopath.labels Demo.graded \/
   exists r,
     Histopath.labels (Histopath.save_multi_tier_label e Demo.graded)
     = Py.set (Histopath.key Demo.first_slide) r (Histopath.labels Demo.graded) /\
     In (Histopath.subtype r) Histopath.graded_subtypes /\
     (Histopath.subtype r = "Ungradable" <->
      Histopath.current_grading Demo.graded !! "ungradable" = Some Histopath.PTrue)).
Proof.
  intros e.
  pose proof C9_selection_never_mixes_ungradable_with_tiers as Hall.
  cbv zeta in Hall. destruct Hall as (Htier & _ & Hsession & Hsaved).
  assert (Hgui : Forall (fun x => Histopath.gui_event (snd x) = true) Demo.grading_presses).
  { repeat (constructor; [vm_compute; reflexivity|]). constructor. }
  pose proof (Hsession ["data"] (Some "Asha") 100%Z (Demo.histopath_env 100)
                Demo.grading_presses Hgui) as Hwg.
  split; [|split].
  - refine (Htier Demo.ungradable "binary" "Low_Risk" _). vm_compute. by left.
  - exact Hwg.
  - refine (Hsaved e Demo.graded Demo.first_slide Hwg _). vm_compute. reflexivity.
Defined.

(** C10 at work: one label and no duration left gives the row the time
    "0"; and with the second slide labelled before the first, the row of
    the first slide carries the duration measured on the second. *)
Lemma C10_witness :
  let stamp := fun _ : nat => "2026-01-01 10:00:00" in
  (exists row,
     Histopath._write_csv stamp Demo.labelled_then_back !! 0 = Some row /\
     Histopath.times Demo.labelled_then_back = [] /\
     Histopath.Time_Spent_sec row = "0") /\
  (exists row,
     Histopath._write_csv stamp Demo.slides_out_of_order !! 0 = Some row /\
     Histopath.Image_File row = "s1.png" /\
     Histopath.times Demo.slides_out_of_order = [199%Z; 399%Z] /\
     Histopath.Time_Spent_sec row = format_2f 199%Z).
Proof.
  intros stamp. split.
  - destruct (Histopath._write_csv stamp Demo.labelled_then_back !! 0) as [row|] eqn:Hrow;
      [|vm_compute in Hrow; discriminate].
    exists row. split; [reflexivity|]. split; [vm_compute; reflexivity|].
    destruct (C10_time_spent_follows_row_position stamp Demo.labelled_then_back)
      as (_ & _ & Hrows).
    destruct (Hrows 0 row Hrow) as (_ & _ & Hzero).
    apply Hzero. vm_compute. lia.
  - destruct (Histopath._write_csv stamp Demo.slides_out_of_order !! 0) as [row|] eqn:Hrow;
      [|vm_compute in Hrow; discriminate].
    exists row. split; [reflexivity|].
    destruct (C10_time_spent_follows_row_position stamp Demo.slides_out_of_order)
      as (_ & _ & Hrows).
    destruct (Hrows 0 row Hrow) as ((r & Hr & Hfile) & Htime & _).
    split.
    + rewrite Hfile. vm_compute in Hr. by injection Hr as <-.
    + split; [vm_compute; reflexivity|]. apply Htime. vm_compute. reflexivity.
Defined.

End OnTheSmallMachine.

(** ** Orders of the sort keys *)

Module OrderFacts.

Lemma ascii_compare_trans (a b c : ascii) :
  Ascii.compare a b = Lt -> Ascii.compare b c = Lt -> Ascii.compare a c = Lt.
Proof.
  unfold Ascii.compare. rewrite !N.compare_lt_iff. lia.
Qed.

Lemma string_compare_trans (a b c : string) :
  String.compare a b = Lt -> String.compare b c = Lt -> String.compare a c = Lt.
Proof.
  revert b c. induction a as [|x a IH]; intros [|y b] [|z c]; simpl; try congruence.
  destruct (Ascii.compare x y) eqn:Hxy; try discriminate.
  - apply Ascii.compare_eq_iff in Hxy. subst y.
    destruct (Ascii.compare x z); try congruence. apply IH.
  - intros _. destruct (Ascii.compare y z) eqn:Hyz; try discriminate.
    + apply Ascii.compare_eq_iff in Hyz. subst z. by rewrite Hxy.
    + by rewrite (ascii_compare_trans x y z).
Qed.

Lemma ordering_string : Py.ordering String.compare.
Proof.
  split; [apply String.compare_antisym|]. split; [apply string_compare_trans|].
  intros a b c Heq. apply String.compare_eq_iff in Heq. by subst.
Qed.

Lemma ordering_Z : Py.ordering Z.compare.
Proof.
  split; [intros a b; apply Z.compare_antisym|]. split.
  - intros a b c. rewrite !Z.compare_lt_iff. lia.
  - intros a b c Heq. apply Z.compare_eq in Heq. by subst.
Qed.

Lemma ordering_on {A B : Type} (f : A -> B) (cmp : B -> B -> comparison) :
  Py.ordering cmp -> Py.ordering (fun x y => cmp (f x) (f y)).
Proof. intros (Ha & Ht & He). repeat split; eauto. Qed.

Lemma ordering_lex {A : Type} (c1 c2 : A -> A -> comparison) :
  Py.ordering c1 -> Py.ordering c2 ->
  Py.ordering (fun x y => Py.lex (c1 x y) (c2 x y)).
Proof.
  intros (Ha1 & Ht1 & He1) (Ha2 & Ht2 & He2). split; [|split].
  - intros a b. rewrite (Ha1 a b), (Ha2 a b). by destruct (c1 b a), (c2 b a).
  - intros a b c. unfold Py.lex.
    destruct (c1 a b) eqn:Hab; try discriminate;
      destruct (c1 b c) eqn:Hbc; try discriminate; intros H1 H2.
    + rewrite (He1 a b c Hab), Hbc. eauto.
    + by rewrite (He1 a b c Hab), Hbc.
    + assert (Hca : c1 c a = Gt).
      { by rewrite <- (He1 b c a Hbc), (Ha1 b a), Hab. }
      rewrite (Ha1 a c), Hca. reflexivity.
    + by rewrite (Ht1 a b c Hab Hbc).
  - intros a b c. unfold Py.lex.
    destruct (c1 a b) eqn:Hab; try discriminate. intros Heq.
    by rewrite (He1 a b c Hab), (He2 a b c Heq).
Qed.

(** Not sorting after is transitive: with [Sorted], the whole list is in
    order, not only its neighbours. *)
Lemma ascending_trans {A : Type} (cmp : A -> A -> comparison) (a b c : A) :
  Py.ordering cmp ->
  Py.ascending (fun x y => Py.is_lt (cmp x y)) a b ->
  Py.ascending (fun x y => Py.is_lt (cmp x y)) b c ->
  Py.ascending (fun x y => Py.is_lt (cmp x y)) a c.
Proof.
  intros (Ha & Ht & He). unfold Py.ascending.
  rewrite (Ha b a), (Ha c b), (Ha c a).
  destruct (cmp a b) eqn:Hab; simpl; try discriminate; intros _;
    destruct (cmp b c) eqn:Hbc; simpl; try discriminate; intros _.
  - by rewrite (He a b c Hab), Hbc.
  - by rewrite (He a b c Hab), Hbc.
  - assert (Hca : cmp c a = Gt).
    { by rewrite <- (He b c a Hbc), (Ha b a), Hab. }
    rewrite (Ha a c), Hca. reflexivity.
  - by rewrite (Ht a b c Hab Hbc).
Qed.

Lemma sorted_StronglySorted {A : Type} (cmp : A -> A -> comparison) (l : list A) :
  Py.ordering cmp ->
  StronglySorted (Py.ascending (fun x y => Py.is_lt (cmp x y)))
                 (Py.sorted (fun x y => Py.is_lt (cmp x y)) l).
Proof.
  intros Hord. apply Sorted_StronglySorted.
  - intros a b c. by apply ascending_trans.
  - apply PyFacts.sorted_Sorted. intros a b.
    destruct Hord as (Ha & _). rewrite (Ha b a). by destruct (cmp a b).
Qed.

Section Keys.
Context `{Platform} `{FileSystem}.

Lemma clinical_image_ordering :
  Py.ordering (fun x y : Clinical.image =>
    Py.lex (String.compare (Clinical.img_case x) (Clinical.img_case y))
      (Py.lex (String.compare (Clinical.img_visit x) (Clinical.img_visit y))
              (String.compare (Path.str (Clinical.img_path x))
                              (Path.str (Clinical.img_path y))))).
Proof.
  apply ordering_lex; [apply (ordering_on Clinical.img_case), ordering_string|].
  apply ordering_lex; [apply (ordering_on Clinical.img_visit), ordering_string|].
  apply (ordering_on (fun x => Path.str (Clinical.img_path x))), ordering_string.
Qed.

Lemma histopath_image_ordering :
  Py.ordering (fun x y : Histopath.image =>
    Py.lex (String.compare (Histopath.img_case_id x) (Histopath.img_case_id y))
      (Py.lex (String.compare (Histopath.img_visit_id x) (Histopath.img_visit_id y))
      (Py.lex (String.compare (Histopath.img_body_site x) (Histopath.img_body_site y))
      (Py.lex (Z.compare (Histopath.img_mag_value x) (Histopath.img_mag_value y))
              (String.compare (Histopath.img_filename x) (Histopath.img_filename y)))))).
Proof.
  apply ordering_lex; [apply (ordering_on Histopath.img_case_id), ordering_string|].
  apply ordering_lex; [apply (ordering_on Histopath.img_visit_id), ordering_string|].
  apply ordering_lex; [apply (ordering_on Histopath.img_body_site), ordering_string|].
  apply ordering_lex; [apply (ordering_on Histopath.img_mag_value), ordering_Z|].
  apply (ordering_on Histopath.img_filename), ordering_string.
Qed.

Lemma find_clinical_images_StronglySorted root :
  StronglySorted (Py.ascending Clinical.image_lt) (Clinical.find_clinical_images root).
Proof.
  unfold Clinical.find_clinical_images.
  destruct (fold_left _ _ _) as [seen result].
  apply (sorted_StronglySorted _ result clinical_image_ordering).
Qed.

Lemma find_histopath_images_StronglySorted root :
  StronglySorted (Py.ascending Histopath.image_lt) (Histopath.find_histopath_images root).
Proof.
  unfold Histopath.find_histopath_images.
  destruct (fold_left _ _ _) as [seen result].
  apply (sorted_StronglySorted _ result histopath_image_ordering).
Qed.

End Keys.
End OrderFacts.

(** ** Where the entries of a catalog come from *)

Module WalkFacts.

Lemma In_sorted {A : Type} (lt : A -> A -> bool) (l : list A) (x : A) :
  In x (Py.sorted lt l) <-> In x l.
Proof.
  split; apply Permutation_in; [|symmetry]; apply PyFacts.sorted_perm.
Qed.

Lemma In_sorted_dirs `{FileSystem} (p d : Path.path) :
  In d (Py.sorted Path.lt (List.filter is_dir (iterdir p))) ->
  In d (iterdir p) /\ is_dir d = true.
Proof. intros Hin. apply In_sorted in Hin. by apply filter_In in Hin. Qed.

Lemma in_exts_In (exts : list string) (s : string) :
  existsb (String.eqb s) exts = true -> In s exts.
Proof.
  intros Hex. apply existsb_exists in Hex as (x & Hin & Heq).
  apply String.eqb_eq in Heq. by subst.
Qed.

Section Walks.
Context `{Platform} `{FileSystem}.

Lemma clinical_walk_In root img :
  In img (Clinical.walk root) ->
  exists case visit candidate,
    (In case (iterdir root) /\ is_dir case = true) /\
    (In visit (iterdir case) /\ is_dir visit = true) /\
    In candidate (rglob visit) /\ Clinical.is_group_folder candidate = true /\
    In (Clinical.img_path img) (rglob candidate) /\
    In (Py.lower (Path.suffix (Clinical.img_path img))) Clinical.IMAGE_EXTS /\
    Clinical.img_case img = Path.name case /\
    Clinical.img_visit img = Path.name visit.
Proof.
  unfold Clinical.walk. intros Hin.
  apply in_flat_map in Hin as (case & Hcase & Hin).
  apply in_flat_map in Hin as (visit & Hvisit & Hin).
  apply in_flat_map in Hin as (candidate & Hcand & Hin).
  destruct (Clinical.is_group_folder candidate) eqn:Hgroup; [|destruct Hin].
  apply in_flat_map in Hin as (p & Hp & Hin).
  destruct (Clinical.in_exts _) eqn:Hext; [|destruct Hin].
  destruct Hin as [<-|[]]. simpl.
  exists case, visit, candidate.
  split; [by apply In_sorted_dirs|]. split; [by apply In_sorted_dirs|].
  split; [assumption|]. split; [assumption|].
  split; [by apply In_sorted in Hp|].
  split; [exact (in_exts_In Clinical.IMAGE_EXTS _ Hext) | by split].
Qed.

Lemma histopath_walk_In root img :
  In img (Histopath.walk root) ->
  exists case_dir visit_dir base body_site_dir mag_dir,
    (In case_dir (iterdir root) /\ is_dir case_dir = true) /\
    (In visit_dir (iterdir case_dir) /\ is_dir visit_dir = true) /\
    Histopath.histopath_base visit_dir = Some base /\
    (In body_site_dir (iterdir base) /\ is_dir body_site_dir = true) /\
    (In mag_dir (iterdir body_site_dir) /\ is_dir mag_dir = true) /\
    In (Histopath.img_path img) (iterdir mag_dir) /\
    In (Py.lower (Path.suffix (Histopath.img_path img))) Histopath.IMAGE_EXTS /\
    img = {| Histopath.img_case_id := Path.name case_dir;
             Histopath.img_visit_id := Path.name visit_dir;
             Histopath.img_body_site := Path.name body_site_dir;
             Histopath.img_magnification := Path.name mag_dir;
             Histopath.img_mag_value := Histopath.extract_magnification (Path.name mag_dir);
             Histopath.img_filename := Path.name (Histopath.img_path img);
             Histopath.img_path := Histopath.img_path img |}.
Proof.
  unfold Histopath.walk. intros Hin.
  apply in_flat_map in Hin as (case_dir & Hcase & Hin).
  apply in_flat_map in Hin as (visit_dir & Hvisit & Hin).
  destruct (Histopath.histopath_base visit_dir) as [base|] eqn:Hbase; [|destruct Hin].
  apply in_flat_map in Hin as (site & Hsite & Hin).
  apply in_flat_map in Hin as (mag & Hmag & Hin).
  apply in_flat_map in Hin as (p & Hp & Hin).
  destruct (Histopath.in_exts _) eqn:Hext; [|destruct Hin].
  destruct Hin as [<-|[]]. simpl.
  exists case_dir, visit_dir, base, site, mag.
  split; [by apply In_sorted_dirs|]. split; [by apply In_sorted_dirs|].
  split; [assumption|].
  split; [by apply In_sorted_dirs|]. split; [by apply In_sorted_dirs|].
  split; [by apply In_sorted in Hp|].
  split; [exact (in_exts_In Histopath.IMAGE_EXTS _ Hext) | reflexivity].
Qed.

(** The folder [find_histopath_images] takes for a visit is the first of
    [rglob] that is a directory with "histopath" in its lowered name. *)
Lemma histopath_base_first visit_dir base :
  Histopath.histopath_base visit_dir = Some base ->
  exists before after,
    rglob visit_dir = before ++ base :: after /\
    Histopath.is_histopath_folder base = true /\
    forall d, In d before -> Histopath.is_histopath_folder d = false.
Proof.
  unfold Histopath.histopath_base.
  induction (rglob visit_dir) as [|d l IH]; simpl; [discriminate|].
  destruct (Histopath.is_histopath_folder d) eqn:Hd.
  - intros [= ->]. exists [], l. split; [reflexivity|]. split; [assumption|]. intros ? [].
  - intros Hfind. destruct (IH Hfind) as (before & after & -> & Hbase & Hbefore).
    exists (d :: before), after. split; [reflexivity|]. split; [assumption|].
    intros d' [<-|Hin]; auto.
Qed.

End Walks.
End WalkFacts.

(** ** The magnification read from a folder name *)

Module MagnificationFacts.
Import Histopath.

Lemma is_digit_lower_char (c : ascii) : is_digit (Py.lower_char c) = is_digit c.
Proof. destruct c as [[] [] [] [] [] [] [] []]; reflexivity. Qed.

Lemma lower_char_digit (c : ascii) : is_digit c = true -> Py.lower_char c = c.
Proof. destruct c as [[] [] [] [] [] [] [] []]; (reflexivity || discriminate). Qed.

Lemma lower_app (a b : string) : Py.lower (a +:+ b) = Py.lower a +:+ Py.lower b.
Proof. induction a as [|c a IH]; simpl; [reflexivity | by rewrite IH]. Qed.

Lemma lower_digits (ds : string) :
  (forall c, In c (list_ascii_of_string ds) -> is_digit c = true) -> Py.lower ds = ds.
Proof.
  induction ds as [|c ds IH]; simpl; intros Hd; [reflexivity|].
  rewrite lower_char_digit, IH by auto. reflexivity.
Qed.

Lemma lower_no_digit (s : string) :
  (forall c, In c (list_ascii_of_string s) -> is_digit c = false) ->
  forall c, In c (list_ascii_of_string (Py.lower s)) -> is_digit c = false.
Proof.
  induction s as [|a s IH]; simpl; intros Hd c; [tauto|].
  intros [<-|Hin]; [rewrite is_digit_lower_char|]; auto.
Qed.

Lemma span_digits_app (ds : string) (x : ascii) (rest : string) :
  (forall c, In c (list_ascii_of_string ds) -> is_digit c = true) ->
  is_digit x = false ->
  span_digits (ds +:+ String x rest) = (ds, String x rest).
Proof.
  intros Hd Hx. induction ds as [|c ds IH]; simpl.
  - by rewrite Hx.
  - rewrite (Hd c) by (by left). rewrite IH; [reflexivity|].
    intros c' Hin. apply Hd. by right.
Qed.

Lemma search_skips_no_digit (pre s : string) :
  (forall c, In c (list_ascii_of_string pre) -> is_digit c = false) ->
  search_digits_x (pre +:+ s) = search_digits_x s.
Proof.
  induction pre as [|c pre IH]; simpl; intros Hd; [reflexivity|].
  rewrite (Hd c) by (by left). apply IH. intros c' Hin. apply Hd. by right.
Qed.

Lemma search_no_digit (s : string) :
  (forall c, In c (list_ascii_of_string s) -> is_digit c = false) ->
  search_digits_x s = None.
Proof.
  induction s as [|c s IH]; simpl; intros Hd; [reflexivity|].
  rewrite (Hd c) by (by left). apply IH. intros c' Hin. apply Hd. by right.
Qed.

Lemma search_digits_then_x (ds rest : string) :
  ds <> "" ->
  (forall c, In c (list_ascii_of_string ds) -> is_digit c = true) ->
  search_digits_x (ds +:+ String "x" rest) = Some ds.
Proof.
  intros Hne Hd. destruct ds as [|c ds]; [contradiction|].
  change (String c ds +:+ String "x" rest) with (String c (ds +:+ String "x" rest)).
  cbn [search_digits_x]. rewrite (Hd c) by (by left).
  change (String c (ds +:+ String "x" rest)) with (String c ds +:+ String "x" rest).
  rewrite span_digits_app by (auto; reflexivity). reflexivity.
Qed.

Lemma int_of_digits_nonneg (ds : string) (acc : Z) :
  (0 <= acc)%Z -> (0 <= int_of_digits acc ds)%Z.
Proof.
  revert acc. induction ds as [|c ds IH]; simpl; intros acc Hacc; [assumption|].
  apply IH. lia.
Qed.

Lemma extract_magnification_nonneg (name : string) : (0 <= extract_magnification name)%Z.
Proof.
  unfold extract_magnification. destruct (search_digits_x _); [|lia].
  by apply int_of_digits_nonneg.
Qed.

Lemma extract_magnification_no_digit (name : string) :
  (forall c, In c (list_ascii_of_string name) -> is_digit c = false) ->
  extract_magnification name = 0%Z.
Proof.
  intros Hd. unfold extract_magnification.
  rewrite search_no_digit; [reflexivity|]. by apply lower_no_digit.
Qed.

Lemma extract_magnification_digits_x (pre ds rest : string) (x : ascii) :
  (forall c, In c (list_ascii_of_string pre) -> is_digit c = false) ->
  ds <> "" ->
  (forall c, In c (list_ascii_of_string ds) -> is_digit c = true) ->
  x = "x"%char \/ x = "X"%char ->
  extract_magnification (pre +:+ ds +:+ String x rest) = int_of_digits 0 ds.
Proof.
  intros Hpre Hne Hd Hx. unfold extract_magnification.
  rewrite !lower_app, (lower_digits ds Hd).
  rewrite search_skips_no_digit by (by apply lower_no_digit).
  replace (Py.lower (String x rest)) with (String "x" (Py.lower rest))
    by (by destruct Hx as [-> | ->]).
  by rewrite search_digits_then_x.
Qed.

End MagnificationFacts.

(** ** The clinical tool: position, records and cases along a session *)

Module ClinicalSession.
Import Clinical ClinicalFacts.

Lemma In_set {K V : Type} `{EqDecision K} (k k0 : K) (v v0 : V) (d : Py.dict K V) :
  In (k, v) (Py.set k0 v0 d) -> (k = k0 /\ v = v0) \/ In (k, v) d.
Proof.
  induction d as [|[k' v'] d IH]; simpl.
  - intros [[= <- <-]|[]]. by left.
  - destruct (decide (k' = k0)) as [->|Hne]; simpl.
    + intros [[= <- <-]|Hin]; [by left | right; by right].
    + intros [Heq|Hin]; [right; by left|].
      destruct (IH Hin) as [?|?]; [by left | right; by right].
Qed.

Lemma In_del {K V : Type} `{EqDecision K} (k k0 : K) (v : V) (d : Py.dict K V) :
  In (k, v) (Py.del k0 d) -> In (k, v) d.
Proof.
  induction d as [|[k' v'] d IH]; simpl; [tauto|].
  destruct (decide (k' = k0)); simpl; tauto.
Qed.

Lemma get_Some_In {K V : Type} `{EqDecision K} (k : K) (v : V) (d : Py.dict K V) :
  Py.get k d = Some v -> In (k, v) d.
Proof.
  induction d as [|[k' v'] d IH]; simpl; [discriminate|].
  destruct (decide (k' = k)) as [->|Hne]; [intros [= ->]; by left | auto].
Qed.

Lemma In_values {K V : Type} (v : V) (d : Py.dict K V) :
  In v (Py.values d) -> exists k, In (k, v) d.
Proof.
  unfold Py.values. intros Hin. apply in_map_iff in Hin as ([k v'] & Heq & Hin).
  simpl in Heq. subst v'. by exists k.
Qed.

Section Facts.
Context `{Platform} `{FileSystem}.
Implicit Types (s : state) (e : env).

Lemma clinical_show_image_cases e s : cases (show_image e s) = cases s.
Proof.
  unfold show_image, finish, show_banner_if_new_case, push_history.
  repeat (break_match; simpl); congruence.
Qed.

Lemma clinical_show_image_total e s : total_images (show_image e s) = total_images s.
Proof.
  unfold show_image, finish, show_banner_if_new_case, push_history.
  repeat (break_match; simpl); congruence.
Qed.

(** [show_image] on a cursor that is fresh or inside the history: the
    window is closed exactly when the position is past the last image, and
    nothing is raised. *)
Lemma show_image_placed e s :
  index s <= length (images s) ->
  (pointer s = (-1)%Z \/
   ((0 <= pointer s)%Z /\ exists k, nth_error (history s) (Z.to_nat (pointer s)) = Some k)) ->
  destroyed s = false -> end_time s = None ->
  (forall exn, ~ In (raised exn) (log s)) ->
  total_images s = length (images s) ->
  placed (show_image e s).
Proof.
  intros Hle Hp Hlive Hend Hlog Htot. unfold placed.
  rewrite clinical_show_image_images, clinical_show_image_index, clinical_show_image_total.
  unfold show_image.
  destruct (images s !! index s) as [img|] eqn:Himg.
  - assert (Hlt : index s < length (images s)) by (by eapply lookup_lt_Some).
    assert (Hupd : exists s1,
              (if (pointer s =? -1)%Z then Some (push_history (get_key (img_path img)) s)
               else match history s with
                    | [] => Some s
                    | _ :: _ =>
                        match Py.getitem (history s) (pointer s) with
                        | None => None
                        | Some k =>
                            if String.eqb k (get_key (img_path img)) then Some s
                            else Some (push_history (get_key (img_path img)) s)
                        end
                    end) = Some s1 /\
              destroyed s1 = false /\ end_time s1 = None /\ log s1 = log s).
    { destruct (pointer s =? -1)%Z eqn:Hm1; [by eexists|].
      apply Z.eqb_neq in Hm1. destruct Hp as [Hp|(Hge & k & Hk)]; [contradiction|].
      destruct (history s) as [|k0 h] eqn:Hh; [by eexists|].
      rewrite getitem_nonneg, Hk by assumption.
      destruct (String.eqb k _); by eexists. }
    destruct Hupd as (s1 & -> & Hlive1 & Hend1 & Hlog1).
    unfold show_banner_if_new_case. simpl.
    destruct (images s1 !! index s1); simpl; rewrite Hlive1, Hend1, Hlog1.
    all: split; [lia|]; split; [discriminate|]; split; [|by split].
    all: split; [discriminate | congruence].
  - apply lookup_ge_None in Himg. unfold finish. simpl.
    split; [assumption|]. split; [intros _; lia|]. split; [|by split].
    split; [discriminate | reflexivity].
Qed.

Lemma placed_tell_info t s : placed s -> placed (tell (showinfo t) s).
Proof.
  intros (Hle & Hdead & Hend & Hlog & Htot). repeat split; try assumption; try apply Hend.
  intros exn Hin. simpl in Hin. apply in_app_iff in Hin as [Hin|[Heq|[]]].
  - by apply (Hlog exn).
  - discriminate.
Qed.

Lemma placed_tell_box x s :
  (forall exn, x <> raised exn) -> placed s -> placed (tell x s).
Proof.
  intros Hx (Hle & Hdead & Hend & Hlog & Htot). repeat split; try assumption; try apply Hend.
  intros exn Hin. simpl in Hin. apply in_app_iff in Hin as [Hin|[Heq|[]]].
  - by apply (Hlog exn).
  - by apply (Hx exn).
Qed.

Lemma placed_live_end s : placed s -> destroyed s = false -> end_time s = None.
Proof.
  intros (_ & _ & Hend & _) Hlive. destruct (end_time s) eqn:He; [|reflexivity].
  assert (Hd : destroyed s = true) by (apply Hend; discriminate). congruence.
Qed.

Lemma save_label_placed e l c s :
  inv s -> placed s -> destroyed s = false -> placed (save_label e l c s).
Proof.
  intros (Hnd & Hst & Hh & HJ & Hp) Hpl Hlive.
  pose proof (placed_live_end s Hpl Hlive) as Hend.
  destruct Hpl as (Hle & Hdead & _ & Hlog & Htot).
  destruct (Hp Hlive) as (img & Himg & Hge & Hnth). simpl in *.
  assert (Hlt : index s < length (images s)) by (by eapply lookup_lt_Some).
  unfold save_label. rewrite Himg.
  destruct (image_start_time _) as [t0|]; [destruct (ftruth t0)|].
  all: apply show_image_placed; simpl; try assumption; try lia.
  all: right; split; [assumption|]; by exists (key img).
Qed.

Lemma go_back_placed e s :
  inv s -> placed s -> destroyed s = false -> placed (go_back e s).
Proof.
  intros (Hnd & Hst & Hh & HJ & Hp) Hpl Hlive.
  pose proof (placed_live_end s Hpl Hlive) as Hend.
  destruct (Hp Hlive) as (img & Himg & Hge & Hnth). simpl in *.
  unfold go_back. destruct (0 <? pointer s)%Z eqn:Hpos.
  2: { by apply placed_tell_info. }
  destruct Hpl as (Hle & Hdead & _ & Hlog & Htot).
  apply Z.ltb_lt in Hpos. simpl.
  assert (Hlen : Z.to_nat (pointer s) < length (history s)).
  { apply nth_error_Some. congruence. }
  destruct (nth_error (history s) (Z.to_nat (pointer s - 1))) as [prev_key|] eqn:Hprev.
  2: { apply nth_error_None in Hprev. lia. }
  rewrite getitem_nonneg, Hprev by lia.
  assert (Hin : In prev_key (map key (images s))).
  { apply Hh. by eapply nth_error_In. }
  destruct (find_key_found prev_key 0 (images s) Hin) as (i & img_i & Hf & Hi & Hk).
  rewrite Hf. simpl.
  assert (Hlt : i < length (images s)) by (by eapply lookup_lt_Some).
  destruct (times s) as [|t ts].
  all: apply show_image_placed; simpl; try assumption; try lia.
  all: right; split; [lia|]; by exists prev_key.
Qed.

Lemma relabel_current_placed s : placed s -> placed (relabel_current s).
Proof.
  intros Hpl. unfold relabel_current.
  destruct (images s !! index s) as [img|]; [|assumption].
  destruct (Py.mem _ _); by apply placed_tell_info.
Qed.

Lemma save_progress_placed e s : placed s -> placed (save_progress e s).
Proof.
  intros Hpl. unfold save_progress.
  destruct (labels s); [|destruct (write_ok e)]; by apply placed_tell_box.
Qed.

Lemma step_placed s x : inv s -> placed s -> placed (step s x).
Proof.
  intros Hinv Hpl. unfold step. destruct (destroyed s) eqn:Hlive; [assumption|].
  destruct x as [e ev]. destruct ev.
  - by apply save_label_placed.
  - by apply save_label_placed.
  - by apply save_label_placed.
  - by apply go_back_placed.
  - by apply relabel_current_placed.
  - by apply save_progress_placed.
Qed.

(** *** The records and the cases *)

Lemma save_label_cases e l c s img_info :
  images s !! index s = Some img_info ->
  cases (save_label e l c s) = {[ img_case img_info ]} ∪ cases s.
Proof.
  intros Himg. unfold save_label. rewrite Himg. rewrite clinical_show_image_cases. simpl.
  destruct (image_start_time s) as [t0|]; simpl; [destruct (ftruth t0)|]; reflexivity.
Qed.

Lemma save_label_recorded e l c s :
  button_label l c -> recorded s -> recorded (save_label e l c s).
Proof.
  intros Hb Hrec. unfold recorded. rewrite save_label_images.
  destruct (images s !! index s) as [img|] eqn:Himg.
  - rewrite (save_label_labels e l c s img Himg). intros k r Hin.
    apply In_set in Hin as [[-> ->]|Hin]; [|by apply Hrec].
    exists img, l, c. split; [by eapply lookup_In | by repeat split].
  - unfold save_label. rewrite Himg. exact Hrec.
Qed.

Lemma save_label_cases_ok e l c s : cases_ok s -> cases_ok (save_label e l c s).
Proof.
  intros [Hin Hsub]. unfold cases_ok. rewrite save_label_images.
  destruct (images s !! index s) as [img|] eqn:Himg.
  - rewrite (save_label_labels e l c s img Himg), (save_label_cases e l c s img Himg).
    split.
    + intros k r Hkr. apply In_set in Hkr as [[-> ->]|Hkr]; [simpl; by apply elem_of_union_l, elem_of_singleton|].
      apply elem_of_union_r. by eapply Hin.
    + intros c0 Hc. apply elem_of_union in Hc as [Hc|Hc]; [|auto].
      apply elem_of_singleton in Hc. subst c0. apply in_map. by eapply lookup_In.
  - unfold save_label. rewrite Himg. by split.
Qed.

Lemma go_back_labels e s : labels (go_back e s) = labels s.
Proof.
  unfold go_back. destruct (0 <? pointer s)%Z; [|reflexivity].
  destruct (Py.getitem _ _); [|reflexivity].
  rewrite clinical_show_image_labels.
  destruct (find_key _ _ _); simpl; destruct (times s); reflexivity.
Qed.

Lemma go_back_cases e s : cases (go_back e s) = cases s.
Proof.
  unfold go_back. destruct (0 <? pointer s)%Z; [|reflexivity].
  destruct (Py.getitem _ _); [|reflexivity].
  rewrite clinical_show_image_cases.
  destruct (find_key _ _ _); simpl; destruct (times s); reflexivity.
Qed.

Lemma step_recorded s x : recorded s -> recorded (step s x).
Proof.
  intros Hrec. unfold step. destruct (destroyed s); [assumption|].
  destruct x as [e ev]. destruct ev.
  - apply save_label_recorded; [|assumption]. left. by split.
  - apply save_label_recorded; [|assumption]. right; left. by split.
  - apply save_label_recorded; [|assumption]. right; right. split; [reflexivity|]. by eexists.
  - unfold recorded. by rewrite go_back_labels, go_back_images.
  - unfold recorded, relabel_current. destruct (images s !! index s); [|assumption].
    destruct (Py.mem _ _); simpl; [|assumption].
    intros k r Hin. apply Hrec. by eapply In_del.
  - unfold save_progress. destruct (labels s); [|destruct (write_ok e)]; exact Hrec.
Qed.

Lemma step_cases_ok s x : cases_ok s -> cases_ok (step s x).
Proof.
  intros Hc. unfold step. destruct (destroyed s); [assumption|].
  destruct x as [e ev]. destruct ev.
  - by apply save_label_cases_ok.
  - by apply save_label_cases_ok.
  - by apply save_label_cases_ok.
  - unfold cases_ok. by rewrite go_back_labels, go_back_images, go_back_cases.
  - unfold cases_ok, relabel_current. destruct (images s !! index s); [|assumption].
    destruct (Py.mem _ _); simpl; [|assumption].
    destruct Hc as [Hin Hsub]. split; [|assumption].
    intros k r Hkr. eapply Hin. by eapply In_del.
  - unfold save_progress. destruct (labels s); [|destruct (write_ok e)]; exact Hc.
Qed.

(** Everything a session keeps true. *)
Lemma clinical_run_tidy trace s :
  inv s -> placed s -> recorded s -> cases_ok s ->
  inv (run s trace) /\ placed (run s trace) /\ recorded (run s trace)
  /\ cases_ok (run s trace).
Proof.
  unfold run. revert s. induction trace as [|x trace IH]; intros s Hinv Hpl Hrec Hc;
    [by split; [|split; [|split]]|].
  simpl. apply IH.
  - by apply step_inv.
  - by apply step_placed.
  - by apply step_recorded.
  - by apply step_cases_ok.
Qed.

Lemma clinical_init_tidy name t0 e0 imgs :
  placed (init name t0 e0 imgs) /\ recorded (init name t0 e0 imgs)
  /\ cases_ok (init name t0 e0 imgs).
Proof.
  unfold init. split; [|split].
  - apply show_image_placed; simpl; auto; try lia.
  - unfold recorded. rewrite clinical_show_image_labels. simpl. intros k r [].
  - unfold cases_ok. rewrite clinical_show_image_labels, clinical_show_image_cases.
    simpl. split; [intros k r [] | set_solver].
Qed.

Lemma clinical_session_tidy root name t0 e0 trace :
  let s := session root name t0 e0 trace in
  inv s /\ placed s /\ recorded s /\ cases_ok s.
Proof.
  unfold session.
  destruct (clinical_init_tidy name t0 e0 (find_clinical_images root)) as (Hpl & Hrec & Hc).
  apply clinical_run_tidy; try assumption.
  apply clinical_init_inv. apply (CatalogFacts.find_clinical_images_catalog root).
Qed.

End Facts.
End ClinicalSession.

(** ** The histopathology tool: position, records and cases along a session *)

Module HistopathTidy.
Import Histopath HistopathFacts.

(** Splits the branches of [show_image] and of [finish]. *)
Ltac show_image_branches :=
  unfold show_image, finish, show_banner_if_new_case;
  repeat match goal with
  | |- context [match ?x with _ => _ end] => destruct x eqn:?; simpl in *
  end.

Section Facts.
Context `{Platform} `{FileSystem}.
Implicit Types (s : state) (e : env).

Lemma show_image_cases e s : cases (show_image e s) = cases s.
Proof. show_image_branches; congruence. Qed.

Lemma show_image_some e s img :
  images s !! index s = Some img ->
  destroyed (show_image e s) = destroyed s /\
  end_time (show_image e s) = end_time s /\
  log (show_image e s) = log s /\
  last_case (show_image e s) = Some (img_case_id img).
Proof.
  intros Himg. unfold show_image, show_banner_if_new_case. rewrite Himg. simpl.
  rewrite Himg. destruct (Py.get _ _) as [r|]; [destruct (Py.nonempty _)|]; by simpl.
Qed.

Lemma show_image_none e s :
  images s !! index s = None -> show_image e s = finish e s.
Proof. intros Himg. unfold show_image. by rewrite Himg. Qed.

Lemma histopath_show_image_placed e s :
  index s <= length (images s) -> destroyed s = false -> placed (show_image e s).
Proof.
  intros Hle Hlive. unfold placed.
  rewrite show_image_images, show_image_index. split; [assumption|].
  destruct (images s !! index s) as [img|] eqn:Himg.
  - destruct (show_image_some e s img Himg) as (-> & _). congruence.
  - rewrite (show_image_none e s Himg).
    apply lookup_ge_None in Himg. unfold finish. simpl.
    destruct (labels s) as [|kr d] eqn:Hl; simpl.
    + intros _. split; [lia|]. split; [discriminate|].
      exists (log s), "Complete". split; [reflexivity|]. left. by rewrite Hl.
    + destruct (write_ok e); simpl; [|congruence].
      intros _. split; [lia|]. split; [discriminate|].
      exists (log s), "Complete!". split; [reflexivity|]. right. by rewrite Hl.
Qed.

Lemma no_raise_tell x s :
  (forall exn, x <> raised exn) ->
  (forall exn, ~ In (raised exn) (log s)) ->
  forall exn, ~ In (raised exn) (log (tell x s)).
Proof.
  intros Hx Hlog exn Hin. simpl in Hin. apply in_app_iff in Hin as [Hin|[Heq|[]]].
  - by apply (Hlog exn).
  - by apply (Hx exn).
Qed.

Lemma show_image_safe e s :
  write_ok e = true -> index s <= length (images s) ->
  (forall exn, ~ In (raised exn) (log s)) ->
  safe (show_image e s).
Proof.
  intros Hw Hle Hlog. unfold safe.
  rewrite show_image_images, show_image_index.
  destruct (images s !! index s) as [img|] eqn:Himg.
  - destruct (show_image_some e s img Himg) as (_ & _ & -> & _).
    split; [|assumption]. intros _. by eapply lookup_lt_Some.
  - rewrite (show_image_none e s Himg). unfold finish. simpl. rewrite Hw.
    destruct (labels s); simpl; (split; [discriminate|]).
    all: apply (no_raise_tell _ (set_end_time (Some (t_show e)) s)); [discriminate | exact Hlog].
Qed.

(** *** What each callback does to the position *)

Lemma placed_tell x s : destroyed s = false -> placed s -> placed (tell x s).
Proof. intros Hlive [Hle _]. split; [assumption|]. simpl. congruence. Qed.

Lemma safe_tell_box x s : (forall exn, x <> raised exn) -> safe s -> safe (tell x s).
Proof. intros Hx [Hin Hlog]. split; [assumption|]. by apply no_raise_tell. Qed.

(** The submission on the last image ends in [finish]. *)
Lemma save_label_to_storage_last e d sub c s img :
  images s !! index s = Some img -> index s + 1 = length (images s) ->
  exists s4,
    save_label_to_storage e d sub c s = finish e s4 /\
    labels s4 = Py.set (key img) (label_of img d sub c) (labels s) /\
    log s4 = log s /\ destroyed s4 = destroyed s.
Proof.
  intros Himg Hlast. unfold save_label_to_storage. rewrite Himg.
  destruct (image_start_time _) as [t0|]; [destruct (ftruth t0)|].
  all: eexists; split;
    [apply show_image_none; simpl; apply lookup_ge_None; lia | by simpl].
Qed.

Lemma save_label_to_storage_placed e d sub c s :
  destroyed s = false -> placed s -> placed (save_label_to_storage e d sub c s).
Proof.
  intros Hlive Hpl. unfold save_label_to_storage.
  destruct (images s !! index s) as [img|] eqn:Himg; [|by apply placed_tell].
  apply lookup_lt_Some in Himg.
  destruct (image_start_time _) as [t0|]; [destruct (ftruth t0)|].
  all: apply histopath_show_image_placed; simpl; [lia | assumption].
Qed.

Lemma save_label_to_storage_safe e d sub c s :
  write_ok e = true -> destroyed s = false -> safe s ->
  safe (save_label_to_storage e d sub c s).
Proof.
  intros Hw Hlive [Hin Hlog]. specialize (Hin Hlive). unfold save_label_to_storage.
  destruct (images s !! index s) as [img|] eqn:Himg.
  2: { apply lookup_ge_None in Himg. lia. }
  destruct (image_start_time _) as [t0|]; [destruct (ftruth t0)|].
  all: apply show_image_safe; simpl; [assumption | lia | assumption].
Qed.

Lemma histopath_step_placed s x : placed s -> placed (step s x).
Proof.
  intros Hpl. unfold step. destruct (destroyed s) eqn:Hlive; [assumption|].
  pose proof Hpl as [Hle _].
  destruct x as [e ev]. destruct ev.
  - split; [exact Hle | simpl; congruence].
  - unfold save_label_simple. destruct (_ && _); [by apply placed_tell|].
    by apply save_label_to_storage_placed.
  - unfold save_label_simple. destruct (_ && _); [by apply placed_tell|].
    by apply save_label_to_storage_placed.
  - split; [exact Hle | simpl; congruence].
  - split; [exact Hle | simpl; congruence].
  - unfold save_multi_tier_label.
    repeat match goal with
    | |- context [if ?b then _ else _] => destruct b
    end; try assumption; try (by apply placed_tell);
    by apply save_label_to_storage_placed.
  - unfold go_back. destruct (0 <? index s)%nat eqn:Hpos; [|by apply placed_tell].
    destruct (times _); apply histopath_show_image_placed; simpl; solve [lia | assumption].
  - unfold next_image. destruct (_ <? _)%Z eqn:Hnext; [|by apply placed_tell].
    apply Z.ltb_lt in Hnext. apply histopath_show_image_placed; simpl; [lia | assumption].
  - unfold relabel_current. destruct (images s !! index s); [|assumption].
    destruct (Py.mem _ _); [|by apply placed_tell].
    apply histopath_show_image_placed; simpl; assumption.
  - unfold save_progress. destruct (labels s); [|destruct (write_ok e)];
      by apply placed_tell.
  - unfold on_progress_click. destruct (_ =? 0)%Z; [by apply placed_tell|].
    destruct (_ && _) eqn:Hin; [|assumption].
    apply andb_true_iff in Hin as [Hge Hlt].
    apply Z.leb_le in Hge. apply Z.ltb_lt in Hlt.
    apply histopath_show_image_placed; simpl; [lia | assumption].
  - split; [exact Hle | simpl; congruence].
Qed.

Lemma step_safe s x : write_ok (fst x) = true -> safe s -> safe (step s x).
Proof.
  intros Hw Hsafe. unfold step. destruct (destroyed s) eqn:Hlive; [assumption|].
  pose proof Hsafe as [Hin Hlog]. specialize (Hin Hlive).
  destruct x as [e ev]. simpl in Hw. destruct ev.
  - split; [intros _; exact Hin | exact Hlog].
  - unfold save_label_simple. destruct (_ && _); [by apply safe_tell_box|].
    by apply save_label_to_storage_safe.
  - unfold save_label_simple. destruct (_ && _); [by apply safe_tell_box|].
    by apply save_label_to_storage_safe.
  - split; [intros _; exact Hin | exact Hlog].
  - split; [intros _; exact Hin | exact Hlog].
  - unfold save_multi_tier_label.
    repeat match goal with
    | |- context [if ?b then _ else _] => destruct b
    end; try assumption; try (by apply safe_tell_box);
    by apply save_label_to_storage_safe.
  - unfold go_back. destruct (0 <? index s)%nat eqn:Hpos; [|by apply safe_tell_box].
    destruct (times _); apply show_image_safe; simpl; solve [lia | assumption].
  - unfold next_image. destruct (_ <? _)%Z eqn:Hnext; [|by apply safe_tell_box].
    apply Z.ltb_lt in Hnext. apply show_image_safe; simpl; solve [lia | assumption].
  - unfold relabel_current. destruct (images s !! index s); [|assumption].
    destruct (Py.mem _ _); [|by apply safe_tell_box].
    apply show_image_safe; simpl; [assumption | lia |].
    intros exn Hex. apply in_app_iff in Hex as [Hex|[Heq|[]]]; [|discriminate].
    by apply (Hlog exn).
  - unfold save_progress. destruct (labels s); [|destruct (write_ok e)];
      by apply safe_tell_box.
  - unfold on_progress_click. destruct (_ =? 0)%Z eqn:Hz.
    { apply Z.eqb_eq in Hz. lia. }
    destruct (_ && _) eqn:Hrange; [|assumption].
    apply andb_true_iff in Hrange as [Hge Hlt].
    apply Z.leb_le in Hge. apply Z.ltb_lt in Hlt.
    apply show_image_safe; simpl; solve [lia | assumption].
  - split; [intros _; exact Hin | exact Hlog].
Qed.

(** *** The records and the cases *)

Lemma save_label_to_storage_cases e d sub c s img_info :
  images s !! index s = Some img_info ->
  cases (save_label_to_storage e d sub c s) = {[ img_case_id img_info ]} ∪ cases s.
Proof.
  intros Himg. unfold save_label_to_storage. rewrite Himg.
  rewrite show_image_cases. simpl.
  destruct (image_start_time s) as [t0|]; simpl; [destruct (ftruth t0)|]; reflexivity.
Qed.

Lemma save_label_to_storage_tidy e d sub c s :
  (exists txt, c = Py.strip txt) ->
  recorded s /\ cases_ok s ->
  recorded (save_label_to_storage e d sub c s)
  /\ cases_ok (save_label_to_storage e d sub c s).
Proof.
  intros Hstrip [Hrec [Hin Hsub]]. unfold recorded, cases_ok.
  rewrite save_label_to_storage_images.
  destruct (images s !! index s) as [img|] eqn:Himg.
  - rewrite (save_label_to_storage_labels e d sub c s img Himg),
            (save_label_to_storage_cases e d sub c s img Himg).
    split; [|split].
    + intros k r Hkr. apply ClinicalSession.In_set in Hkr as [[-> ->]|Hkr]; [|by apply Hrec].
      exists img. split; [by eapply ClinicalFacts.lookup_In | by repeat split].
    + intros k r Hkr. apply ClinicalSession.In_set in Hkr as [[-> ->]|Hkr];
        [simpl; by apply elem_of_union_l, elem_of_singleton|].
      apply elem_of_union_r. by eapply Hin.
    + intros c0 Hc. apply elem_of_union in Hc as [Hc|Hc]; [|auto].
      apply elem_of_singleton in Hc. subst c0. apply in_map.
      by eapply ClinicalFacts.lookup_In.
  - unfold save_label_to_storage. rewrite Himg. by split.
Qed.

Lemma tidy_same s s' :
  images s' = images s -> labels s' = labels s -> cases s' = cases s ->
  recorded s /\ cases_ok s -> recorded s' /\ cases_ok s'.
Proof.
  intros Hi Hl Hc. unfold recorded, cases_ok. by rewrite Hi, Hl, Hc.
Qed.

Lemma step_tidy s x :
  recorded s /\ cases_ok s -> recorded (step s x) /\ cases_ok (step s x).
Proof.
  intros Ht. unfold step. destruct (destroyed s); [assumption|].
  destruct x as [e ev]. destruct ev.
  - exact Ht.
  - unfold save_label_simple. destruct (_ && _); [exact Ht|].
    apply save_label_to_storage_tidy; [by eexists | exact Ht].
  - unfold save_label_simple. destruct (_ && _); [exact Ht|].
    apply save_label_to_storage_tidy; [by eexists | exact Ht].
  - exact Ht.
  - exact Ht.
  - unfold save_multi_tier_label.
    repeat match goal with
    | |- context [if ?b then _ else _] => destruct b
    end; try exact Ht; (apply save_label_to_storage_tidy; [by eexists | exact Ht]).
  - unfold go_back. destruct (0 <? index s)%nat; [|exact Ht].
    apply (tidy_same s); [| | |exact Ht];
      rewrite ?show_image_images, ?show_image_labels, ?show_image_cases;
      by destruct (times _).
  - unfold next_image. destruct (_ <? _)%Z; [|exact Ht].
    apply (tidy_same s); [| | |exact Ht];
      by rewrite ?show_image_images, ?show_image_labels, ?show_image_cases.
  - unfold relabel_current. destruct (images s !! index s); [|exact Ht].
    destruct (Py.mem _ _); [|exact Ht].
    destruct Ht as [Hrec [Hin Hsub]]. unfold recorded, cases_ok.
    rewrite show_image_images, show_image_labels, show_image_cases. simpl.
    split; [|split; [|assumption]].
    + intros k r Hkr. apply Hrec. by eapply ClinicalSession.In_del.
    + intros k r Hkr. eapply Hin. by eapply ClinicalSession.In_del.
  - unfold save_progress. destruct (labels s); [|destruct (write_ok e)]; exact Ht.
  - unfold on_progress_click. destruct (_ =? 0)%Z; [exact Ht|].
    destruct (_ && _); [|exact Ht].
    apply (tidy_same s); [| | |exact Ht];
      by rewrite ?show_image_images, ?show_image_labels, ?show_image_cases.
  - exact Ht.
Qed.

Lemma histopath_run_tidy trace s :
  placed s -> recorded s /\ cases_ok s ->
  placed (run s trace) /\ recorded (run s trace) /\ cases_ok (run s trace).
Proof.
  unfold run. revert s. induction trace as [|x trace IH]; intros s Hpl Ht;
    [by split|].
  simpl. apply IH; [by apply histopath_step_placed | by apply step_tidy].
Qed.

Lemma histopath_run_safe trace s :
  Forall (fun x => write_ok (fst x) = true) trace -> safe s -> safe (run s trace).
Proof.
  unfold run. revert s. induction trace as [|x trace IH]; intros s Hw Hs; [assumption|].
  inversion Hw; subst. simpl. apply IH; [assumption|]. by apply step_safe.
Qed.

Lemma histopath_session_tidy root name t0 e0 trace :
  let s := session root name t0 e0 trace in
  store_inv s /\ placed s /\ recorded s /\ cases_ok s.
Proof.
  unfold session. split.
  - apply HistopathSession.store_run_inv, HistopathSession.store_init_inv.
    apply (CatalogFacts.find_histopath_images_catalog root).
  - apply histopath_run_tidy; unfold init.
    + apply histopath_show_image_placed; simpl; [lia | reflexivity].
    + unfold recorded, cases_ok.
      rewrite show_image_labels, show_image_cases. simpl.
      split; [intros k r [] | split; [intros k r [] | set_solver]].
Qed.

Lemma histopath_session_safe root name t0 e0 trace :
  write_ok e0 = true -> Forall (fun x => write_ok (fst x) = true) trace ->
  safe (session root name t0 e0 trace).
Proof.
  intros Hw0 Hw. unfold session. apply histopath_run_safe; [assumption|].
  unfold init. apply show_image_safe; simpl; [assumption | lia | tauto].
Qed.

End Facts.
End HistopathTidy.

(** ** Names, stems and suffixes *)

Module PathFacts.

Lemma append_cons (x : ascii) (a b : string) : String x a +:+ b = String x (a +:+ b).
Proof. reflexivity. Qed.

Lemma append_nil_r (a : string) : a +:+ "" = a.
Proof. induction a as [|x a IH]; [reflexivity|]. by rewrite append_cons, IH. Qed.

Lemma append_inv_head (a b c : string) : a +:+ b = a +:+ c -> b = c.
Proof.
  induction a as [|x a IH]; [exact id|]. rewrite !append_cons. intros [= Heq]. auto.
Qed.

Lemma last_dot_split (s : string) :
  match Path.from_last_dot s with
  | Some r => exists b, Path.upto_last_dot s = Some b /\ b +:+ r = s
                        /\ exists r', r = String "." r'
  | None => Path.upto_last_dot s = None
  end.
Proof.
  induction s as [|c s IH]; simpl; [reflexivity|].
  destruct (Path.from_last_dot s) as [r|].
  - destruct IH as (b & -> & Heq & Hdot). exists (String c b).
    split; [reflexivity|]. split; [by rewrite append_cons, Heq | assumption].
  - rewrite IH. destruct (Ascii.eqb_spec c "."%char) as [->|Hne]; [|reflexivity].
    exists "". split; [reflexivity|]. split; [reflexivity | by eexists].
Qed.

Lemma stem_suffix (p : Path.path) : Path.stem p +:+ Path.suffix p = Path.name p.
Proof.
  unfold Path.stem, Path.suffix. destruct (Path.name p) as [|c rest]; [reflexivity|].
  pose proof (last_dot_split rest) as Hsplit.
  destruct (Path.from_last_dot rest) as [r|].
  - destruct Hsplit as (b & -> & Heq & _).
    destruct (1 <? String.length r)%nat;
      [by rewrite append_cons, Heq | by rewrite append_nil_r].
  - by rewrite append_nil_r.
Qed.

(** A suffix is empty or begins with its dot. *)
Lemma suffix_dot (p : Path.path) :
  Path.suffix p = "" \/ exists r, Path.suffix p = String "." r.
Proof.
  unfold Path.suffix. destruct (Path.name p) as [|c rest]; [by left|].
  pose proof (last_dot_split rest) as Hsplit.
  destruct (Path.from_last_dot rest) as [r|]; [|by left].
  destruct Hsplit as (b & _ & _ & r' & ->).
  destruct (1 <? _)%nat; [right; by eexists | by left].
Qed.

Lemma from_last_dot_app (a b r : string) :
  Path.from_last_dot b = Some r -> Path.from_last_dot (a +:+ b) = Some r.
Proof.
  intros Hb. induction a as [|c a IH]; [assumption|].
  rewrite append_cons. simpl. by rewrite IH.
Qed.

Lemma name_with_name (p q : Path.path) (n : string) :
  Path.with_name p n = Some q ->
  Path.name q = n /\ removelast q = removelast p /\ Path.name p <> "".
Proof.
  unfold Path.with_name. destruct (Path.name p) eqn:Hn; simpl; [discriminate|].
  intros [= <-]. unfold Path.name.
  split; [apply last_last|]. split; [apply removelast_last | discriminate].
Qed.

End PathFacts.

(** ** Stripped comments *)

Module StripFacts.

Lemma blank_app (a b : string) : Py.blank (a +:+ b) <-> Py.blank a /\ Py.blank b.
Proof.
  unfold Py.blank. induction a as [|c a IH]; simpl.
  - split; [intros Hb; split; [tauto | exact Hb] | tauto].
  - split.
    + intros Hb. assert (Hab : forall c', In c' (list_ascii_of_string (a +:+ b)) ->
                                 Py.isspace c' = true) by (intros; apply Hb; by right).
      apply IH in Hab as [Ha Hb']. split; [|exact Hb'].
      intros c' [<-|Hin]; [apply Hb; by left | by apply Ha].
    + intros [Ha Hb] c' [<-|Hin]; [apply Ha; by left|].
      apply (proj2 IH); [|assumption]. split; [|exact Hb].
      intros c'' Hc. apply Ha. by right.
Qed.

Lemma lstrip_blank (s : string) : Py.lstrip s = "" <-> Py.blank s.
Proof.
  unfold Py.blank. induction s as [|c s IH]; simpl; [tauto|].
  destruct (Py.isspace c) eqn:Hc.
  - rewrite IH. split; [intros Hb c' [<-|Hin]; auto | intros Hb c' Hin; apply Hb; by right].
  - split; [discriminate|]. intros Hb. rewrite (Hb c) in Hc by (by left). discriminate.
Qed.

Lemma rstrip_blank (s : string) : Py.rstrip s = "" <-> Py.blank s.
Proof.
  unfold Py.blank. induction s as [|c s IH]; simpl; [tauto|].
  destruct (Py.rstrip s) as [|x r] eqn:Hr.
  - destruct (Py.isspace c) eqn:Hc.
    + split; [|reflexivity]. intros _ c' [<-|Hin]; [assumption | by apply IH].
    + split; [discriminate|]. intros Hb. rewrite (Hb c) in Hc by (by left). discriminate.
  - split; [discriminate|]. intros Hb.
    assert (Hnil : String x r = "") by (apply IH; intros c' Hin; apply Hb; by right).
    discriminate.
Qed.

Lemma lstrip_head (s : string) (c : ascii) (r : string) :
  Py.lstrip s = String c r -> Py.isspace c = false.
Proof.
  induction s as [|x s IH]; simpl; [discriminate|].
  destruct (Py.isspace x) eqn:Hx; [exact IH|]. by intros [= <- _].
Qed.

Lemma rstrip_cons (c : ascii) (r : string) :
  Py.isspace c = false -> Py.rstrip (String c r) = String c (Py.rstrip r).
Proof. intros Hc. simpl. destruct (Py.rstrip r); [by rewrite Hc | reflexivity]. Qed.

Lemma strip_blank (s : string) : Py.strip s = "" <-> Py.blank s.
Proof.
  unfold Py.strip. split.
  - intros Hs. apply lstrip_blank. destruct (Py.lstrip s) as [|c r] eqn:Hl; [reflexivity|].
    rewrite (rstrip_cons c r (lstrip_head s c r Hl)) in Hs. discriminate.
  - intros Hb. apply lstrip_blank in Hb. by rewrite Hb.
Qed.

(** A stripped string begins with no whitespace ... *)
Lemma strip_head (s : string) (c : ascii) (r : string) :
  Py.strip s = String c r -> Py.isspace c = false.
Proof.
  unfold Py.strip. destruct (Py.lstrip s) as [|x l] eqn:Hl; [discriminate|].
  pose proof (lstrip_head s x l Hl) as Hx. rewrite (rstrip_cons x l Hx).
  by intros [= <- _].
Qed.

(** ... and ends with none. *)
Lemma rstrip_last (t a : string) (c : ascii) :
  Py.rstrip t = a +:+ String c "" -> Py.isspace c = false.
Proof.
  revert a. induction t as [|x t IH]; intros a; simpl.
  - destruct a; discriminate.
  - destruct (Py.rstrip t) as [|y r] eqn:Hr.
    + destruct (Py.isspace x) eqn:Hx; [destruct a; discriminate|].
      destruct a as [|x' a]; simpl.
      * by intros [= <-].
      * intros [= _ Heq]. destruct a; discriminate.
    + destruct a as [|x' a]; simpl; [discriminate|].
      intros [= _ Heq]. by apply (IH a).
Qed.

Lemma rstrip_idem (s : string) : Py.rstrip (Py.rstrip s) = Py.rstrip s.
Proof.
  induction s as [|c s IH]; simpl; [reflexivity|].
  destruct (Py.rstrip s) as [|x r] eqn:Hr.
  - destruct (Py.isspace c) eqn:Hc; simpl; [reflexivity | by rewrite Hc].
  - change (Py.rstrip (String c (String x r)))
      with (match Py.rstrip (String x r) with
            | "" => if Py.isspace c then "" else String c ""
            | r' => String c r'
            end).
    by rewrite IH.
Qed.

Lemma rstrip_app_blank (u w : string) : Py.blank w -> Py.rstrip (u +:+ w) = Py.rstrip u.
Proof.
  intros Hw. induction u as [|c u IH]; simpl; [by apply rstrip_blank | by rewrite IH].
Qed.

Lemma strip_idem_newline (t : string) :
  Py.strip (Py.strip t +:+ String Py.LF "") = Py.strip t.
Proof.
  assert (Hlf : Py.blank (String Py.LF "")).
  { intros c [<-|[]]. reflexivity. }
  destruct (Py.strip t) as [|c r] eqn:Hs.
  - reflexivity.
  - pose proof (strip_head t c r Hs) as Hc.
    unfold Py.strip at 1. simpl Py.lstrip. rewrite Hc.
    change (String c (r +:+ String Py.LF "")) with (String c r +:+ String Py.LF "").
    rewrite rstrip_app_blank by assumption.
    rewrite <- Hs. unfold Py.strip. apply rstrip_idem.
Qed.

Section Comment.
Context `{Platform}.

Lemma entered_comment_blank (s : Histopath.state) :
  Histopath.entered_comment s = "" <-> Py.blank (Histopath.comment_text s).
Proof.
  unfold Histopath.entered_comment, Histopath.get_comment_text.
  rewrite strip_blank, blank_app. split; [tauto|]. intros Hb. split; [assumption|].
  intros c [<-|[]]. reflexivity.
Qed.

End Comment.
End StripFacts.

(** ** More on dictionaries, sorted lists and counts *)

Module MoreFacts.

Lemma no_exception_intro (l : list effect) :
  (forall exn, ~ In (raised exn) l) -> no_exception l.
Proof.
  intros Hl. apply List.Forall_forall. intros x Hx. destruct x as [t|t|t|exn]; try exact I.
  by apply (Hl exn).
Qed.

Lemma del_set_fresh {K V : Type} `{EqDecision K} (k : K) (v : V) (d : Py.dict K V) :
  Py.get k d = None -> Py.del k (Py.set k v d) = d.
Proof.
  induction d as [|[k' v'] d IH]; simpl.
  - intros _. by destruct (decide (k = k)).
  - destruct (decide (k' = k)) as [->|Hne]; [discriminate|]. intros Hg. simpl.
    destruct (decide (k' = k)); [contradiction|]. by rewrite IH.
Qed.

Lemma length_del {K V : Type} `{EqDecision K} (k : K) (d : Py.dict K V) :
  Py.mem k d = true -> length (Py.del k d) + 1 = length d.
Proof.
  unfold Py.mem. induction d as [|[k' v'] d IH]; simpl; [discriminate|].
  destruct (decide (k' = k)) as [->|Hne]; simpl; [lia|].
  intros Hm. rewrite <- (IH Hm). lia.
Qed.

Lemma set_nonempty {K V : Type} `{EqDecision K} (k : K) (v : V) (d : Py.dict K V) :
  Py.set k v d <> [].
Proof. destruct d as [|[k' v'] d]; simpl; [|destruct (decide (k' = k))]; discriminate. Qed.

Lemma store_ok_length {I R : Type} (key : I -> string) (imgs : list I)
    (d : Py.dict string R) :
  Store.store_ok key imgs d -> length d <= length imgs.
Proof.
  intros [Hnd Hsub]. rewrite <- (length_map fst d), <- (length_map key imgs).
  apply NoDup_incl_length; [exact Hnd | exact Hsub].
Qed.

Lemma StronglySorted_lookup {A : Type} (R : A -> A -> Prop) (l : list A) (i j : nat)
    (a b : A) :
  StronglySorted R l -> i < j -> l !! i = Some a -> l !! j = Some b -> R a b.
Proof.
  intros Hs. revert i j. induction Hs as [|x l Hs IH Hall]; intros i j Hlt Hi Hj;
    [discriminate|].
  destruct j as [|j]; [lia|]. simpl in Hj.
  destruct i as [|i]; simpl in Hi.
  - injection Hi as <-. rewrite List.Forall_forall in Hall. apply Hall.
    by eapply ClinicalFacts.lookup_In.
  - apply (IH i j); [lia | assumption | assumption].
Qed.

Lemma string_compare_refl (a : string) : String.compare a a = Eq.
Proof.
  pose proof (String.compare_antisym a a) as Ha. by destruct (String.compare a a).
Qed.

(** Three labels, each record with one of them: the three counts add up to
    the number of records. *)
Lemma count_label_sum (d : Py.dict string Clinical.label_record) :
  (forall r, In r (Py.values d) ->
     In (Clinical.label r) ["Suspicious"; "Non-Suspicious"; "NA"]) ->
  length d = Clinical.count_label "Suspicious" d
             + Clinical.count_label "Non-Suspicious" d
             + Clinical.count_label "NA" d.
Proof.
  unfold Clinical.count_label. rewrite <- (PyFacts.length_values d).
  induction (Py.values d) as [|r vs IH]; intros Hl; [reflexivity|].
  simpl. rewrite IH by (intros r' Hr'; apply Hl; by right).
  destruct (Hl r ltac:(by left)) as [<-|[<-|[<-|[]]]]; simpl; lia.
Qed.

Section Histo.
Context `{Platform} `{FileSystem}.
Import Histopath HistopathFacts.

Lemma draw_progress_bar_lookup (w : Z) (s : state) (i : nat) (x1 x2 : Z) (fill : string) :
  draw_progress_bar w s !! i = Some (x1, x2, fill) ->
  let box_w := Z.max 2 ((if (w =? 0)%Z then 1300 else w) / Z.of_nat (length (images s))) in
  exists img,
    images s !! i = Some img /\
    x1 = (Z.of_nat i * box_w)%Z /\ x2 = ((Z.of_nat i + 1) * box_w - 1)%Z /\
    fill = if (i =? index s)%nat then "#3498db"
           else if Py.mem (key img) (labels s) then "#27ae60" else "#95a5a6".
Proof.
  unfold draw_progress_bar. destruct (Z.of_nat (length (images s)) =? 0)%Z; [discriminate|].
  unfold Py.enumerate.
  match goal with |- context [map ?f ?l] => change (map f l) with (f <$> l) end.
  rewrite list_lookup_fmap, PyFacts.enumerate_from_lookup.
  destruct (images s !! i) as [img|]; [|discriminate].
  simpl. intros [= <- <- <-]. by exists img.
Qed.

Lemma draw_progress_bar_length (w : Z) (s : state) :
  length (draw_progress_bar w s) = length (images s).
Proof.
  unfold draw_progress_bar. destruct (Z.of_nat (length (images s)) =? 0)%Z eqn:Hz.
  - apply Z.eqb_eq in Hz. simpl. lia.
  - rewrite length_map. unfold Py.enumerate.
    by rewrite <- (length_map snd), PyFacts.enumerate_from_snd.
Qed.

Lemma histopath_step_images s x : images (step s x) = images s.
Proof. apply HistopathSession.step_move. Qed.

Lemma histopath_run_images trace s : images (run s trace) = images s.
Proof.
  unfold run. revert s. induction trace as [|x trace IH]; intros s; [reflexivity|].
  simpl. by rewrite IH, histopath_step_images.
Qed.

Lemma histopath_session_images root name t0 e0 trace :
  images (session root name t0 e0 trace) = find_histopath_images root.
Proof. unfold session, init. by rewrite histopath_run_images, show_image_images. Qed.

End Histo.

Section Clin.
Context `{Platform} `{FileSystem}.
Import Clinical ClinicalFacts.

Lemma clinical_session_images root name t0 e0 trace :
  images (session root name t0 e0 trace) = find_clinical_images root.
Proof. unfold session. by rewrite run_images, init_images. Qed.

(** *** The per-case statistics of the summary *)

Lemma count_in_case_app keep c rs rs' :
  count_in_case keep c (rs ++ rs')
  = count_in_case keep c rs + count_in_case keep c rs'.
Proof. unfold count_in_case. by rewrite List.filter_app, length_app. Qed.

Lemma count_in_case_none keep c rs :
  (forall r, In r rs -> case r <> c) -> count_in_case keep c rs = 0.
Proof.
  unfold count_in_case. induction rs as [|r rs IH]; intros Hn; [reflexivity|]. simpl.
  destruct (String.eqb_spec (case r) c) as [Heq|Hne].
  - exfalso. apply (Hn r); [by left | assumption].
  - simpl. apply IH. intros r' Hr'. apply Hn. by right.
Qed.

Lemma count_in_case_one keep c r :
  count_in_case keep c [r] = if String.eqb (case r) c && keep r then 1 else 0.
Proof. unfold count_in_case. simpl. by destruct (_ && _). Qed.

Lemma case_stats_step_tallies done stats r :
  tallies done stats ->
  In (label r) ["Suspicious"; "Non-Suspicious"; "NA"] ->
  exists stats',
    case_stats_step (Some stats) r = Some stats' /\ tallies (done ++ [r]) stats'.
Proof.
  intros Ht Hl. unfold case_stats_step.
  set (c0 := case r).
  set (stats1 := if Py.mem c0 stats then stats else Py.set c0 fresh_stats stats).
  assert (Hrow : exists row,
            Py.get c0 stats1 = Some row /\
            Py.get "total" row = Some (count_in_case (fun _ => true) c0 done) /\
            (forall l, In l ["Suspicious"; "Non-Suspicious"; "NA"] ->
               Py.get l row
               = Some (count_in_case (fun r => String.eqb (label r) l) c0 done)) /\
            forall c, c <> c0 -> Py.get c stats1 = Py.get c stats).
  { subst stats1. pose proof (Ht c0) as Hc0. unfold Py.mem.
    destruct (Py.get c0 stats) as [row|] eqn:Hg.
    - destruct Hc0 as (_ & Htot & Hlab). exists row. by repeat split.
    - exists fresh_stats. split; [apply PyFacts.get_set_eq|].
      split; [by rewrite count_in_case_none|]. split.
      + intros l Hin. rewrite count_in_case_none by assumption.
        destruct Hin as [<-|[<-|[<-|[]]]]; reflexivity.
      + intros c Hc. by apply PyFacts.get_set_ne. }
  destruct Hrow as (row & Hg1 & Htot & Hlab & Hother). rewrite Hg1.
  unfold incr. rewrite Htot.
  assert (Hnt : "total" <> label r).
  { destruct Hl as [<-|[<-|[<-|[]]]]; discriminate. }
  rewrite (PyFacts.get_set_ne _ _ _ _ Hnt), (Hlab _ Hl).
  eexists. split; [reflexivity|].
  intros c. destruct (decide (c = c0)) as [->|Hc].
  - rewrite PyFacts.get_set_eq. split; [|split].
    + exists r. split; [apply in_app_iff; right; by left | reflexivity].
    + rewrite (PyFacts.get_set_ne _ _ _ _ (not_eq_sym Hnt)), PyFacts.get_set_eq.
      rewrite count_in_case_app, count_in_case_one. fold c0.
      rewrite String.eqb_refl. simpl. reflexivity.
    + intros l Hin. rewrite count_in_case_app, count_in_case_one. fold c0.
      rewrite String.eqb_refl. simpl.
      destruct (String.eqb_spec (label r) l) as [<-|Hne].
      * by rewrite PyFacts.get_set_eq.
      * rewrite (PyFacts.get_set_ne _ _ _ _ Hne).
        assert (Hlt : "total" <> l) by (destruct Hin as [<-|[<-|[<-|[]]]]; discriminate).
        rewrite (PyFacts.get_set_ne _ _ _ _ Hlt), (Hlab _ Hin). f_equal. lia.
  - rewrite (PyFacts.get_set_ne _ _ _ _ (not_eq_sym Hc)), (Hother c Hc).
    pose proof (Ht c) as Htc.
    assert (Hnone : forall keep, count_in_case keep c [r] = 0).
    { intros keep. rewrite count_in_case_one. fold c0.
      destruct (String.eqb_spec c0 c) as [Heq|_]; [congruence | reflexivity]. }
    destruct (Py.get c stats) as [rowc|].
    + destruct Htc as ((r' & Hr' & Hcase) & Htc & Hlc). split; [|split].
      * exists r'. split; [apply in_app_iff; by left | assumption].
      * rewrite count_in_case_app, Hnone, Htc. f_equal. lia.
      * intros l Hin. rewrite count_in_case_app, Hnone, (Hlc l Hin). f_equal. lia.
    + intros r' Hr'. apply in_app_iff in Hr' as [Hr'|[<-|[]]]; [by apply Htc|].
      fold c0. congruence.
Qed.

Lemma fold_case_stats_tallies rs done stats :
  tallies done stats ->
  (forall r, In r rs -> In (label r) ["Suspicious"; "Non-Suspicious"; "NA"]) ->
  exists stats',
    fold_left case_stats_step rs (Some stats) = Some stats' /\ tallies (done ++ rs) stats'.
Proof.
  revert done stats. induction rs as [|r rs IH]; intros done stats Ht Hl.
  - exists stats. by rewrite app_nil_r.
  - destruct (case_stats_step_tallies done stats r Ht (Hl r ltac:(by left)))
      as (stats1 & Hstep & Ht1).
    destruct (IH (done ++ [r]) stats1 Ht1 ltac:(intros r' Hr'; apply Hl; by right))
      as (stats' & Hfold & Ht').
    exists stats'. cbn [fold_left]. rewrite Hstep. split; [assumption|].
    by rewrite <- app_assoc in Ht'.
Qed.

End Clin.
End MoreFacts.

(** ** Moves back and forth, and what a redisplay shows *)

Module MoveFacts.

Section Histo.
Context `{Platform} `{FileSystem}.
Import Histopath HistopathFacts.
Implicit Types (s : state) (e : env).

Lemma save_label_to_storage_times e d sub c s img t0 :
  images s !! index s = Some img ->
  image_start_time s = Some t0 -> ftruth t0 = true ->
  times (save_label_to_storage e d sub c s) = times s ++ [fsub (t_elapsed e) t0].
Proof.
  intros Himg Ht0 Htrue. unfold save_label_to_storage. rewrite Himg.
  rewrite show_image_times. simpl. by rewrite Ht0, Htrue.
Qed.

Lemma go_back_fields e s :
  0 < index s ->
  index (go_back e s) = index s - 1 /\
  labels (go_back e s) = labels s /\
  images (go_back e s) = images s /\
  times (go_back e s) = removelast (times s).
Proof.
  intros Hpos. unfold go_back.
  replace (0 <? index s)%nat with true by (symmetry; by apply Nat.ltb_lt).
  rewrite show_image_index, show_image_labels, show_image_images, show_image_times.
  split; [by destruct (times _)|]. split; [by destruct (times _)|].
  split; [by destruct (times _)|].
  change (times (reset_selection (set_index (index s - 1) s))) with (times s).
  destruct (times s) eqn:Ht; simpl; by rewrite ?Ht.
Qed.

Lemma next_image_fields e s :
  index s + 1 < length (images s) ->
  index (next_image e s) = index s + 1 /\
  labels (next_image e s) = labels s /\
  images (next_image e s) = images s /\
  times (next_image e s) = times s.
Proof.
  intros Hlt. unfold next_image.
  replace (Z.of_nat (index s) <? Z.of_nat (length (images s)) - 1)%Z with true
    by (symmetry; apply Z.ltb_lt; lia).
  by rewrite show_image_index, show_image_labels, show_image_images, show_image_times.
Qed.

Lemma histopath_relabel_current_fields e s img :
  images s !! index s = Some img ->
  Py.mem (key img) (labels s) = true ->
  index (relabel_current e s) = index s /\
  labels (relabel_current e s) = Py.del (key img) (labels s) /\
  times (relabel_current e s) = times s /\
  log (relabel_current e s) = log s ++ [showinfo "Relabel"].
Proof.
  intros Himg Hmem. unfold relabel_current. rewrite Himg. fold (key img). rewrite Hmem.
  rewrite show_image_index, show_image_labels, show_image_times.
  split; [reflexivity|]. split; [reflexivity|]. split; [reflexivity|].
  match goal with |- log (show_image e ?s') = _ =>
    destruct (HistopathTidy.show_image_some e s' img Himg) as (_ & _ & -> & _)
  end.
  reflexivity.
Qed.

(** What the form holds after [show_image] on an image. *)
Lemma show_image_form e s img :
  images s !! index s = Some img ->
  current_primary (show_image e s) = None /\
  current_grading (show_image e s) = ∅ /\
  comment_text (show_image e s)
  = match Py.get (key img) (labels s) with
    | Some r => comment r
    | None => ""
    end.
Proof.
  intros Himg. unfold show_image, show_banner_if_new_case. rewrite Himg. simpl.
  rewrite Himg. simpl. fold (key img).
  destruct (Py.get (key img) (labels s)) as [r|]; [|by simpl].
  destruct (comment r) eqn:Hc; simpl; by rewrite ?Hc.
Qed.

End Histo.

Section Clin.
Context `{Platform} `{FileSystem}.
Import Clinical ClinicalFacts.

Lemma count_in_case_sum c rs :
  (forall r, In r rs -> In (label r) ["Suspicious"; "Non-Suspicious"; "NA"]) ->
  count_in_case (fun _ => true) c rs
  = count_in_case (fun r => String.eqb (label r) "Suspicious") c rs
    + count_in_case (fun r => String.eqb (label r) "Non-Suspicious") c rs
    + count_in_case (fun r => String.eqb (label r) "NA") c rs.
Proof.
  unfold count_in_case. induction rs as [|r rs IH]; intros Hl; [reflexivity|].
  simpl. destruct (String.eqb (case r) c); simpl.
  - destruct (Hl r ltac:(by left)) as [<-|[<-|[<-|[]]]]; simpl;
      rewrite IH by (intros r' Hr'; apply Hl; by right); lia.
  - apply IH. intros r' Hr'. apply Hl. by right.
Qed.

Lemma count_in_case_pos c rs r :
  In r rs -> case r = c -> 0 < count_in_case (fun _ => true) c rs.
Proof.
  unfold count_in_case. intros Hin Hc.
  assert (Hf : In r (List.filter (fun r => String.eqb (case r) c && true) rs)).
  { apply filter_In. split; [assumption|]. rewrite Hc, String.eqb_refl. reflexivity. }
  destruct (List.filter _ rs); [destruct Hf | simpl; lia].
Qed.

End Clin.
End MoveFacts.

(** ** Which of two paths to one file a catalog keeps *)

Module FirstFacts.

Section Dedup.
Context {A : Type} (key : A -> string).
Variable body : gset string * list A -> A -> gset string * list A.
Hypothesis body_eq : forall seen result x,
  body (seen, result) x =
    if decide (key x ∈ seen) then (seen, result)
    else ({[ key x ]} ∪ seen, result ++ [x]).

(** What the loop adds to [result] is, for each new key, the first element
    of the list with that key. *)
Lemma loop_first l acc y :
  In y (snd (fold_left body l acc)) ->
  In y (snd acc) \/
  exists before after,
    l = before ++ y :: after /\
    (forall x, In x before -> key x <> key y) /\
    key y ∉ fst acc.
Proof.
  revert acc. induction l as [|x l IH]; intros [seen result] Hin; simpl in *; [by left|].
  apply IH in Hin. rewrite body_eq in Hin.
  destruct (decide (key x ∈ seen)) as [Hseen|Hnew]; simpl in Hin.
  - destruct Hin as [Hin|(before & after & -> & Hbefore & Hy)]; [by left|].
    right. exists (x :: before), after. split; [reflexivity|]. split; [|assumption].
    intros x' [<-|Hx']; [congruence | by apply Hbefore].
  - destruct Hin as [Hin|(before & after & -> & Hbefore & Hy)].
    + apply in_app_iff in Hin as [Hin|[<-|[]]]; [by left|].
      right. exists [], l. split; [reflexivity|]. split; [intros ? [] | assumption].
    + right. exists (x :: before), after. split; [reflexivity|].
      apply not_elem_of_union in Hy as [Hy1 Hy2]. split; [|assumption].
      intros x' [<-|Hx']; [|by apply Hbefore].
      intros Heq. apply Hy1. apply elem_of_singleton. congruence.
Qed.

Lemma loop_first_from_empty l y :
  In y (snd (fold_left body l (∅, []))) ->
  exists before after,
    l = before ++ y :: after /\ forall x, In x before -> key x <> key y.
Proof.
  intros Hin. apply loop_first in Hin as [[]|(before & after & Hl & Hb & _)].
  by exists before, after.
Qed.
End Dedup.

Section Builders.
Context `{Platform} `{FileSystem}.

Lemma find_clinical_images_first root img :
  In img (Clinical.find_clinical_images root) ->
  exists before after,
    Clinical.walk root = before ++ img :: after /\
    forall x, In x before -> Clinical.key x <> Clinical.key img.
Proof.
  unfold Clinical.find_clinical_images. intros Hin.
  apply (loop_first_from_empty Clinical.key Clinical.visit_image
           ltac:(intros; reflexivity)).
  destruct (fold_left Clinical.visit_image (Clinical.walk root) (∅, [])) as [seen result].
  by apply WalkFacts.In_sorted in Hin.
Qed.

Lemma find_histopath_images_first root img :
  In img (Histopath.find_histopath_images root) ->
  exists before after,
    Histopath.walk root = before ++ img :: after /\
    forall x, In x before -> Histopath.key x <> Histopath.key img.
Proof.
  unfold Histopath.find_histopath_images. intros Hin.
  apply (loop_first_from_empty Histopath.key Histopath.visit_image
           ltac:(intros; reflexivity)).
  destruct (fold_left Histopath.visit_image (Histopath.walk root) (∅, [])) as [seen result].
  by apply WalkFacts.In_sorted in Hin.
Qed.

End Builders.
End FirstFacts.

(** ** The step back of the simple tool, and the annotator *)

Module BackFacts.

Section Clin.
Context `{Platform} `{FileSystem}.
Import Clinical ClinicalFacts.
Implicit Types (s : state) (e : env).

(** [show_image] on an image whose key is under the cursor changes
    neither the history nor what was shown. *)
Lemma show_image_under_cursor e s img :
  images s !! index s = Some img ->
  (0 <= pointer s)%Z ->
  nth_error (history s) (Z.to_nat (pointer s)) = Some (key img) ->
  history (show_image e s) = history s /\
  pointer (show_image e s) = pointer s /\
  destroyed (show_image e s) = destroyed s /\
  log (show_image e s) = log s.
Proof.
  intros Himg Hge Hnth. unfold show_image. rewrite Himg.
  replace (pointer s =? -1)%Z with false by (symmetry; apply Z.eqb_neq; lia).
  destruct (history s) as [|k0 h] eqn:Hh.
  { by destruct (Z.to_nat (pointer s)). }
  rewrite getitem_nonneg, Hnth by assumption.
  fold (key img). rewrite String.eqb_refl.
  unfold show_banner_if_new_case. simpl. rewrite Himg. simpl. by rewrite ?Hh.
Qed.

Lemma clinical_annotator_show_image e s : annotator (show_image e s) = annotator s.
Proof.
  unfold show_image, finish, show_banner_if_new_case, push_history.
  repeat (break_match; simpl); congruence.
Qed.

Lemma clinical_annotator_step s x : annotator (step s x) = annotator s.
Proof.
  unfold step. destruct (destroyed s); [reflexivity|]. destruct x as [e ev].
  assert (Hsave : forall l c, annotator (save_label e l c s) = annotator s).
  { intros l c. unfold save_label. destruct (images s !! index s); [|reflexivity].
    rewrite clinical_annotator_show_image. simpl.
    destruct (image_start_time s) as [t0|]; simpl; [destruct (ftruth t0)|]; reflexivity. }
  destruct ev; unfold save_na; try apply Hsave.
  - unfold go_back. destruct (0 <? pointer s)%Z; [|reflexivity].
    destruct (Py.getitem _ _); [|reflexivity].
    rewrite clinical_annotator_show_image.
    destruct (find_key _ _ _); simpl; destruct (times s); reflexivity.
  - unfold relabel_current. destruct (images s !! index s); [|reflexivity].
    destruct (Py.mem _ _); reflexivity.
  - unfold save_progress. destruct (labels s); [|destruct (write_ok e)]; reflexivity.
Qed.

Lemma clinical_annotator_run trace s : annotator (run s trace) = annotator s.
Proof.
  unfold run. revert s. induction trace as [|x trace IH]; intros s; [reflexivity|].
  simpl. by rewrite IH, clinical_annotator_step.
Qed.

End Clin.

Section Histo.
Context `{Platform} `{FileSystem}.
Import Histopath HistopathFacts.
Implicit Types (s : state) (e : env).

Lemma histopath_annotator_show_image e s : annotator (show_image e s) = annotator s.
Proof. HistopathTidy.show_image_branches; congruence. Qed.

Lemma histopath_annotator_save e d sub c s :
  annotator (save_label_to_storage e d sub c s) = annotator s.
Proof.
  unfold save_label_to_storage. destruct (images s !! index s); [|reflexivity].
  rewrite histopath_annotator_show_image. simpl.
  destruct (image_start_time s) as [t0|]; simpl; [destruct (ftruth t0)|]; reflexivity.
Qed.

Lemma histopath_annotator_step s x : annotator (step s x) = annotator s.
Proof.
  unfold step. destruct (destroyed s); [reflexivity|]. destruct x as [e ev].
  destruct ev; try reflexivity.
  - unfold save_label_simple. destruct (_ && _); [reflexivity|].
    apply histopath_annotator_save.
  - unfold save_label_simple. destruct (_ && _); [reflexivity|].
    apply histopath_annotator_save.
  - unfold save_multi_tier_label.
    repeat match goal with
    | |- context [if ?b then _ else _] => destruct b
    end; try reflexivity; apply histopath_annotator_save.
  - unfold go_back. destruct (0 <? index s)%nat; [|reflexivity].
    rewrite histopath_annotator_show_image. by destruct (times _).
  - unfold next_image. destruct (_ <? _)%Z; [|reflexivity].
    by rewrite histopath_annotator_show_image.
  - unfold relabel_current. destruct (images s !! index s); [|reflexivity].
    destruct (Py.mem _ _); [|reflexivity]. by rewrite histopath_annotator_show_image.
  - unfold save_progress. destruct (labels s); [|destruct (write_ok e)]; reflexivity.
  - unfold on_progress_click. destruct (_ =? 0)%Z; [reflexivity|].
    destruct (_ && _); [|reflexivity]. by rewrite histopath_annotator_show_image.
Qed.

Lemma histopath_annotator_run trace s : annotator (run s trace) = annotator s.
Proof.
  unfold run. revert s. induction trace as [|x trace IH]; intros s; [reflexivity|].
  simpl. by rewrite IH, histopath_annotator_step.
Qed.

End Histo.
End BackFacts.

(** ** Further properties of the two tools *)

Section Further.
Context `{Platform} `{FileSystem}.

(** X1. The catalog of either tool is in ascending order of its sort key
    from end to end: an entry never sorts before one that stands earlier.
    In the grading catalog, among the images of one case, visit and body
    site the magnification values go up as numbers (4x before 10x before
    40x), whatever the folder names are as strings. *)
Theorem X1_catalogs_are_sorted_from_end_to_end (root : Path.path) :
  (StronglySorted (Py.ascending Clinical.image_lt) (Clinical.find_clinical_images root) /\
   forall i j a b, i < j ->
     Clinical.find_clinical_images root !! i = Some a ->
     Clinical.find_clinical_images root !! j = Some b ->
     Clinical.image_lt b a = false) /\
  (StronglySorted (Py.ascending Histopath.image_lt)
                  (Histopath.find_histopath_images root) /\
   forall i j a b, i < j ->
     Histopath.find_histopath_images root !! i = Some a ->
     Histopath.find_histopath_images root !! j = Some b ->
     Histopath.image_lt b a = false /\
     (Histopath.img_case_id a = Histopath.img_case_id b ->
      Histopath.img_visit_id a = Histopath.img_visit_id b ->
      Histopath.img_body_site a = Histopath.img_body_site b ->
      (Histopath.img_mag_value a <= Histopath.img_mag_value b)%Z)).
Proof.
  split.
  - split; [apply OrderFacts.find_clinical_images_StronglySorted|].
    intros i j a b Hlt Hi Hj.
    exact (MoreFacts.StronglySorted_lookup _ _ i j a b
             (OrderFacts.find_clinical_images_StronglySorted root) Hlt Hi Hj).
  - split; [apply OrderFacts.find_histopath_images_StronglySorted|].
    intros i j a b Hlt Hi Hj.
    pose proof (MoreFacts.StronglySorted_lookup _ _ i j a b
                  (OrderFacts.find_histopath_images_StronglySorted root) Hlt Hi Hj) as Hab.
    split; [exact Hab|]. intros Hc Hv Hb.
    unfold Py.ascending, Histopath.image_lt in Hab.
    rewrite Hc, Hv, Hb, !MoreFacts.string_compare_refl in Hab. revert Hab.
    destruct (Z.compare_spec (Histopath.img_mag_value b) (Histopath.img_mag_value a))
      as [Heq|Hlt'|Hgt]; simpl; intros Hab; [lia | discriminate | lia].
Qed.

(** X2. Every entry of a catalog comes from the directory tree as the
    builder walks it.  Simple tool: a directory of the root (the case), a
    directory in it (the visit), a directory anywhere below the visit whose
    lowered name contains "xc" or "clinical", and a path anywhere below that
    directory whose lowered suffix is an image extension; the entry carries
    the names of the case and of the visit.  Grading tool: case, visit, the
    first directory below the visit with "histopath" in its lowered name, a
    directory in it (the body site), a directory in that (the
    magnification) and a path directly in it with an image extension; the
    entry carries their names, the magnification read from the folder name
    and the file name.  Nothing else enters a catalog. *)
Theorem X2_catalog_entries_come_from_the_tree (root : Path.path) :
  (forall img, In img (Clinical.find_clinical_images root) ->
     exists case visit candidate,
       (In case (iterdir root) /\ is_dir case = true) /\
       (In visit (iterdir case) /\ is_dir visit = true) /\
       In candidate (rglob visit) /\ is_dir candidate = true /\
       (Py.contains "xc" (Py.lower (Path.name candidate)) = true \/
        Py.contains "clinical" (Py.lower (Path.name candidate)) = true) /\
       In (Clinical.img_path img) (rglob candidate) /\
       In (Py.lower (Path.suffix (Clinical.img_path img))) Clinical.IMAGE_EXTS /\
       Clinical.img_case img = Path.name case /\
       Clinical.img_visit img = Path.name visit) /\
  (forall img, In img (Histopath.find_histopath_images root) ->
     exists case_dir visit_dir base body_site_dir mag_dir,
       (In case_dir (iterdir root) /\ is_dir case_dir = true) /\
       (In visit_dir (iterdir case_dir) /\ is_dir visit_dir = true) /\
       (exists before after,
          rglob visit_dir = before ++ base :: after /\
          Histopath.is_histopath_folder base = true /\
          forall d, In d before -> Histopath.is_histopath_folder d = false) /\
       (In body_site_dir (iterdir base) /\ is_dir body_site_dir = true) /\
       (In mag_dir (iterdir body_site_dir) /\ is_dir mag_dir = true) /\
       In (Histopath.img_path img) (iterdir mag_dir) /\
       In (Py.lower (Path.suffix (Histopath.img_path img))) Histopath.IMAGE_EXTS /\
       Histopath.img_case_id img = Path.name case_dir /\
       Histopath.img_visit_id img = Path.name visit_dir /\
       Histopath.img_body_site img = Path.name body_site_dir /\
       Histopath.img_magnification img = Path.name mag_dir /\
       Histopath.img_mag_value img
       = Histopath.extract_magnification (Histopath.img_magnification img) /\
       Histopath.img_filename img = Path.name (Histopath.img_path img)).
Proof.
  split.
  - intros img Hin.
    apply (proj2 (proj2 (CatalogFacts.find_clinical_images_catalog root))) in Hin.
    destruct (WalkFacts.clinical_walk_In root img Hin)
      as (case & visit & candidate & Hcase & Hvisit & Hcand & Hgroup & Hpath & Hext
          & Hc & Hv).
    exists case, visit, candidate.
    unfold Clinical.is_group_folder in Hgroup.
    apply andb_true_iff in Hgroup as [Hdir Hname]. apply orb_true_iff in Hname.
    split; [exact Hcase|]. split; [exact Hvisit|]. split; [exact Hcand|].
    split; [exact Hdir|]. split; [exact Hname|]. split; [exact Hpath|].
    split; [exact Hext|]. by split.
  - intros img Hin.
    apply (proj2 (proj2 (CatalogFacts.find_histopath_images_catalog root))) in Hin.
    destruct (WalkFacts.histopath_walk_In root img Hin)
      as (case_dir & visit_dir & base & site & mag & Hcase & Hvisit & Hbase & Hsite
          & Hmag & Hpath & Hext & Himg).
    exists case_dir, visit_dir, base, site, mag.
    split; [assumption|]. split; [assumption|].
    split; [by apply WalkFacts.histopath_base_first|].
    split; [assumption|]. split; [assumption|]. split; [assumption|].
    split; [assumption|]. rewrite Himg. simpl. by repeat split.
Qed.

(** X3. The magnification read from a folder name is never negative; it is
    0 for a name without digit; and for a name made of a part without
    digit, then digits, then the letter x in either case, then anything, it
    is the number the digits spell. *)
Theorem X3_magnification_is_the_number_before_the_x :
  (forall name, (0 <= Histopath.extract_magnification name)%Z) /\
  (forall name,
     (forall c, In c (list_ascii_of_string name) -> Histopath.is_digit c = false) ->
     Histopath.extract_magnification name = 0%Z) /\
  (forall pre ds rest x,
     (forall c, In c (list_ascii_of_string pre) -> Histopath.is_digit c = false) ->
     ds <> "" ->
     (forall c, In c (list_ascii_of_string ds) -> Histopath.is_digit c = true) ->
     x = "x"%char \/ x = "X"%char ->
     Histopath.extract_magnification (pre +:+ ds +:+ String x rest)
     = Histopath.int_of_digits 0 ds).
Proof.
  split; [apply MagnificationFacts.extract_magnification_nonneg|].
  split; [apply MagnificationFacts.extract_magnification_no_digit|].
  apply MagnificationFacts.extract_magnification_digits_x.
Qed.


(** X5. No callback of a session of the simple tool raises: the lookups
    [self.images[self.index]] of [save_label] and
    [self.history[self.pointer]] of [show_image] and [go_back] always
    succeed, whatever buttons are pressed in whatever order. *)
Theorem X5_clinical_callbacks_never_raise
    (root : Path.path) (name : option string) (t0 : float) (e0 : Clinical.env)
    (trace : list (Clinical.env * Clinical.event)) :
  no_exception (Clinical.log (Clinical.session root name t0 e0 trace)).
Proof.
  destruct (ClinicalSession.clinical_session_tidy root name t0 e0 trace)
    as (_ & (_ & _ & _ & Hlog & _) & _).
  by apply MoreFacts.no_exception_intro.
Qed.

(** X6. In every session of the grading tool the catalog is the one found
    at the start and the position stays within it, whatever is clicked on
    the progress bar.  A closed window means that the position went past
    the last image, that the end time was taken, and that the last thing
    shown was the completion box: "Complete" with an empty store, and
    "Complete!" otherwise. *)
Theorem X6_grading_window_closes_only_past_the_last_image
    (root : Path.path) (name : option string) (t0 : float) (e0 : Histopath.env)
    (trace : list (Histopath.env * Histopath.event)) :
  let s := Histopath.session root name t0 e0 trace in
  Histopath.images s = Histopath.find_histopath_images root /\
  Histopath.index s <= length (Histopath.images s) /\
  (Histopath.destroyed s = true ->
     Histopath.index s = length (Histopath.images s) /\
     Histopath.end_time s <> None /\
     exists l t, Histopath.log s = l ++ [showinfo t] /\
       ((t = "Complete" /\ Histopath.labels s = []) \/
        (t = "Complete!" /\ Histopath.labels s <> []))).
Proof.
  intros s.
  destruct (HistopathTidy.histopath_session_tidy root name t0 e0 trace)
    as (_ & (Hle & Hdead) & _).
  split; [apply MoreFacts.histopath_session_images|]. by split.
Qed.

(** X7. As long as every export succeeds, no callback of a session of the
    grading tool raises, and the window is open exactly when the position
    is on an image of the catalog: the lookup [self.images[self.index]] of
    a submission and the division by [len(self.images)] of a click on the
    progress bar are then always defined. *)
Theorem X7_grading_callbacks_never_raise_while_exports_succeed
    (root : Path.path) (name : option string) (t0 : float) (e0 : Histopath.env)
    (trace : list (Histopath.env * Histopath.event)) :
  Histopath.write_ok e0 = true ->
  Forall (fun x => Histopath.write_ok (fst x) = true) trace ->
  let s := Histopath.session root name t0 e0 trace in
  no_exception (Histopath.log s) /\
  (Histopath.destroyed s = false <-> Histopath.index s < length (Histopath.images s)).
Proof.
  intros Hw0 Hw s.
  destruct (HistopathTidy.histopath_session_safe root name t0 e0 trace Hw0 Hw)
    as (Hin & Hlog).
  destruct (HistopathTidy.histopath_session_tidy root name t0 e0 trace)
    as (_ & (_ & Hdead) & _).
  fold s in Hin, Hlog, Hdead.
  split; [by apply MoreFacts.no_exception_intro|]. split; [exact Hin|].
  intros Hlt. destruct (Histopath.destroyed s) eqn:Hd; [|reflexivity].
  destruct (Hdead eq_refl) as (Heq & _). lia.
Qed.

(** X8. The submission on the last image stores its record and then tries
    the final export.  When the export succeeds the completion box is shown
    and the window is closed.  When it fails, the error box is shown and the
    window stays open with the position past the last image: the record is
    in the store, and the next submission raises IndexError and changes
    nothing else. *)
Theorem X8_last_submission_closes_the_window_unless_the_export_fails
    (e : Histopath.env) (d : Histopath.pyval) (sub c : string)
    (s : Histopath.state) (img : Histopath.image) :
  Histopath.images s !! Histopath.index s = Some img ->
  Histopath.index s + 1 = length (Histopath.images s) ->
  let s' := Histopath.save_label_to_storage e d sub c s in
  Py.get (Histopath.key img) (Histopath.labels s') = Some (Histopath.label_of img d sub c) /\
  Histopath.index s' = length (Histopath.images s') /\
  (Histopath.write_ok e = true ->
     Histopath.destroyed s' = true /\
     Histopath.log s' = Histopath.log s ++ [showinfo "Complete!"]) /\
  (Histopath.write_ok e = false ->
     Histopath.destroyed s' = Histopath.destroyed s /\
     Histopath.log s' = Histopath.log s ++ [showerror "Error"] /\
     forall e2 d2 sub2 c2,
       Histopath.save_label_to_storage e2 d2 sub2 c2 s'
       = Histopath.tell (raised "IndexError") s').
Proof.
  intros Himg Hlast s'.
  assert (Hlabels : Histopath.labels s'
                    = Py.set (Histopath.key img) (Histopath.label_of img d sub c)
                        (Histopath.labels s))
    by (by apply HistopathFacts.save_label_to_storage_labels).
  assert (Hindex : Histopath.index s' = length (Histopath.images s')).
  { subst s'. rewrite (HistopathFacts.save_label_to_storage_index e d sub c s img Himg),
      HistopathFacts.save_label_to_storage_images. exact Hlast. }
  split; [rewrite Hlabels; apply PyFacts.get_set_eq|]. split; [exact Hindex|].
  assert (Hraise : forall e2 d2 sub2 c2,
            Histopath.save_label_to_storage e2 d2 sub2 c2 s'
            = Histopath.tell (raised "IndexError") s').
  { intros e2 d2 sub2 c2. unfold Histopath.save_label_to_storage at 1.
    replace (Histopath.images s' !! Histopath.index s') with (@None Histopath.image);
      [reflexivity|].
    symmetry. apply lookup_ge_None. lia. }
  destruct (HistopathTidy.save_label_to_storage_last e d sub c s img Himg Hlast)
    as (s4 & Heq & Hl4 & Hlog4 & Hdead4).
  fold s' in Heq. rewrite Heq in Hraise |- *.
  unfold Histopath.finish in *.
  change (Histopath.labels (Histopath.set_end_time (Some (Histopath.t_show e)) s4))
    with (Histopath.labels s4) in *.
  destruct (Histopath.labels s4) as [|kr l] eqn:Hs4.
  { symmetry in Hl4. by apply MoreFacts.set_nonempty in Hl4. }
  split.
  - intros ->. simpl. by rewrite Hlog4.
  - intros Hw. rewrite Hw in Hraise |- *. simpl. rewrite Hlog4, Hdead4.
    split; [reflexivity|]. split; [reflexivity | exact Hraise].
Qed.


(** X10. Every stored record is about an image of the catalog: it sits
    under the key of that image and carries its case, visit and file name
    (grading tool: case, visit, body site, magnification folder and value,
    file name).  Hence every row of the export names an image of the
    catalog. *)
Theorem X10_every_record_and_row_is_about_a_catalog_image
    (croot : Path.path) (cname : option string) (ct0 : float) (ce0 : Clinical.env)
    (ctrace : list (Clinical.env * Clinical.event))
    (root : Path.path) (name : option string) (t0 : float) (e0 : Histopath.env)
    (trace : list (Histopath.env * Histopath.event)) (stamp : nat -> string) :
  (let cs := Clinical.session croot cname ct0 ce0 ctrace in
   (forall k r, Py.get k (Clinical.labels cs) = Some r ->
      exists img, In img (Clinical.find_clinical_images croot) /\
        Clinical.key img = k /\
        Clinical.case r = Clinical.img_case img /\
        Clinical.visit r = Clinical.img_visit img /\
        Clinical.file r = Path.name (Clinical.img_path img)) /\
   (forall row, In row (Clinical._write_csv cs) ->
      exists img, In img (Clinical.find_clinical_images croot) /\
        Clinical.csv_case row = Clinical.img_case img /\
        Clinical.csv_visit row = Clinical.img_visit img /\
        Clinical.csv_file row = Path.name (Clinical.img_path img))) /\
  (let s := Histopath.session root name t0 e0 trace in
   (forall k r, Py.get k (Histopath.labels s) = Some r ->
      exists img, In img (Histopath.find_histopath_images root) /\
        Histopath.key img = k /\
        Histopath.case_id r = Histopath.img_case_id img /\
        Histopath.visit_id r = Histopath.img_visit_id img /\
        Histopath.body_site r = Histopath.img_body_site img /\
        Histopath.magnification r = Histopath.img_magnification img /\
        Histopath.mag_value r = Histopath.img_mag_value img /\
        Histopath.filename r = Histopath.img_filename img) /\
   (forall row, In row (Histopath._write_csv stamp s) ->
      exists img, In img (Histopath.find_histopath_images root) /\
        Histopath.Case_ID row = Histopath.img_case_id img /\
        Histopath.Visit_ID row = Histopath.img_visit_id img /\
        Histopath.Body_Site row = Histopath.img_body_site img /\
        Histopath.Magnification row = Histopath.img_magnification img /\
        Histopath.Image_File row = Histopath.img_filename img)).
Proof.
  split.
  - intros cs.
    destruct (ClinicalSession.clinical_session_tidy croot cname ct0 ce0 ctrace)
      as (_ & _ & Hrec & _).
    unfold Clinical.recorded in Hrec.
    rewrite (MoreFacts.clinical_session_images croot cname ct0 ce0 ctrace) in Hrec.
    fold cs in Hrec.
    assert (Hin : forall k r, In (k, r) (Clinical.labels cs) ->
              exists img, In img (Clinical.find_clinical_images croot) /\
                Clinical.key img = k /\
                Clinical.case r = Clinical.img_case img /\
                Clinical.visit r = Clinical.img_visit img /\
                Clinical.file r = Path.name (Clinical.img_path img)).
    { intros k r Hkr. destruct (Hrec k r Hkr) as (img & l & c & Himg & Hk & -> & _).
      exists img. by repeat split. }
    split.
    + intros k r Hg. apply Hin. by apply ClinicalSession.get_Some_In.
    + intros row Hrow. unfold Clinical._write_csv in Hrow.
      apply in_map_iff in Hrow as (r & <- & Hr).
      unfold Clinical.rows in Hr. apply WalkFacts.In_sorted in Hr.
      apply ClinicalSession.In_values in Hr as (k & Hkr).
      destruct (Hin k r Hkr) as (img & Himg & _ & Hc & Hv & Hf).
      exists img. by repeat split.
  - intros s.
    destruct (HistopathTidy.histopath_session_tidy root name t0 e0 trace)
      as (_ & _ & Hrec & _).
    unfold Histopath.recorded in Hrec.
    rewrite (MoreFacts.histopath_session_images root name t0 e0 trace) in Hrec.
    fold s in Hrec.
    assert (Hin : forall k r, In (k, r) (Histopath.labels s) ->
              exists img, In img (Histopath.find_histopath_images root) /\
                Histopath.key img = k /\
                Histopath.case_id r = Histopath.img_case_id img /\
                Histopath.visit_id r = Histopath.img_visit_id img /\
                Histopath.body_site r = Histopath.img_body_site img /\
                Histopath.magnification r = Histopath.img_magnification img /\
                Histopath.mag_value r = Histopath.img_mag_value img /\
                Histopath.filename r = Histopath.img_filename img).
    { intros k r Hkr. destruct (Hrec k r Hkr) as (img & Himg & Hk & Hr & _).
      exists img. rewrite Hr. by repeat split. }
    split.
    + intros k r Hg. apply Hin. by apply ClinicalSession.get_Some_In.
    + intros row Hrow. unfold Histopath._write_csv in Hrow.
      apply in_map_iff in Hrow as ([i r] & <- & Hr).
      apply (in_map snd) in Hr. unfold Py.enumerate in Hr.
      rewrite PyFacts.enumerate_from_snd in Hr. simpl in Hr.
      unfold Histopath.rows in Hr. apply WalkFacts.In_sorted in Hr.
      apply ClinicalSession.In_values in Hr as (k & Hkr).
      destruct (Hin k r Hkr) as (img & Himg & _ & Hc & Hv & Hb & Hm & _ & Hf).
      exists img. by repeat split.
Qed.

(** X11. In every session of the simple tool each stored label is
    Suspicious, Non-Suspicious or NA, a comment goes only with NA and is
    stored stripped, and so the three counts of the information bar and of
    the summary add up to the number of labelled images. *)
Theorem X11_clinical_counts_add_up
    (root : Path.path) (name : option string) (t0 : float) (e0 : Clinical.env)
    (trace : list (Clinical.env * Clinical.event)) :
  let s := Clinical.session root name t0 e0 trace in
  Forall (fun r =>
            In (Clinical.label r) ["Suspicious"; "Non-Suspicious"; "NA"] /\
            (Clinical.comment r = "" \/ Clinical.label r = "NA") /\
            Py.strip (Clinical.comment r +:+ String Py.LF "") = Clinical.comment r)
         (Py.values (Clinical.labels s)) /\
  length (Clinical.labels s)
  = Clinical.count_label "Suspicious" (Clinical.labels s)
    + Clinical.count_label "Non-Suspicious" (Clinical.labels s)
    + Clinical.count_label "NA" (Clinical.labels s).
Proof.
  intros s.
  destruct (ClinicalSession.clinical_session_tidy root name t0 e0 trace)
    as (_ & _ & Hrec & _).
  fold s in Hrec.
  assert (Hall : forall r, In r (Py.values (Clinical.labels s)) ->
            In (Clinical.label r) ["Suspicious"; "Non-Suspicious"; "NA"] /\
            (Clinical.comment r = "" \/ Clinical.label r = "NA") /\
            Py.strip (Clinical.comment r +:+ String Py.LF "") = Clinical.comment r).
  { intros r Hr. apply ClinicalSession.In_values in Hr as (k & Hkr).
    destruct (Hrec k r Hkr) as (img & l & c & _ & _ & -> & Hb). simpl.
    destruct Hb as [[-> ->]|[[-> ->]|[-> [txt ->]]]].
    - split; [tauto|]. split; [by left | reflexivity].
    - split; [tauto|]. split; [by left | reflexivity].
    - split; [tauto|]. split; [by right | apply StripFacts.strip_idem_newline]. }
  split; [by apply List.Forall_forall|].
  apply MoreFacts.count_label_sum. intros r Hr. by apply Hall.
Qed.

(** X12. The progress bar has one rectangle per image, and a click inside
    the rectangle drawn for an image shows that image: with the same
    non-zero canvas width, [on_progress_click] computes from any abscissa
    between the two sides of the i-th rectangle the position i, resets the
    selection and leaves the store alone.  The rectangle is blue for the
    image on display, green for another labelled image and grey otherwise.
    A click left of the first or right of the last rectangle changes
    nothing. *)
Theorem X12_click_on_a_drawn_box_shows_its_image
    (e : Histopath.env) (s : Histopath.state) (w : Z) :
  length (Histopath.draw_progress_bar w s) = length (Histopath.images s) /\
  (forall i x1 x2 fill x,
     w <> 0%Z ->
     Histopath.draw_progress_bar w s !! i = Some (x1, x2, fill) ->
     (x1 <= x <= x2)%Z ->
     let s' := Histopath.on_progress_click e x w s in
     Histopath.index s' = i /\
     Histopath.labels s' = Histopath.labels s /\
     Histopath.current_grading s' = ∅ /\
     exists img,
       Histopath.images s !! i = Some img /\
       fill = if (i =? Histopath.index s)%nat then "#3498db"
              else if Py.mem (Histopath.key img) (Histopath.labels s) then "#27ae60"
              else "#95a5a6") /\
  (forall x,
     Histopath.images s <> [] ->
     (x < 0 \/
      Z.of_nat (length (Histopath.images s))
      * Z.max 2 (w / Z.of_nat (length (Histopath.images s))) <= x)%Z ->
     Histopath.on_progress_click e x w s = s).
Proof.
  split; [apply MoreFacts.draw_progress_bar_length|]. split.
  - intros i x1 x2 fill x Hw Hbox Hx s'.
    destruct (MoreFacts.draw_progress_bar_lookup w s i x1 x2 fill Hbox)
      as (img & Himg & -> & -> & Hfill).
    pose proof (lookup_lt_Some _ _ _ Himg) as Hlt.
    replace (w =? 0)%Z with false in Hx by (symmetry; by apply Z.eqb_neq).
    set (n := Z.of_nat (length (Histopath.images s))) in *.
    set (box_w := Z.max 2 (w / n)) in *.
    assert (Hbw : (2 <= box_w)%Z) by (subst box_w; lia).
    assert (Hidx : (x / box_w)%Z = Z.of_nat i).
    { symmetry. apply (Z.div_unique x box_w (Z.of_nat i) (x - box_w * Z.of_nat i)); lia. }
    assert (Heq : s' = Histopath.show_image e
                         (Histopath.reset_selection (Histopath.set_index i s))).
    { subst s'. unfold Histopath.on_progress_click. fold n. fold box_w.
      replace (n =? 0)%Z with false by (symmetry; apply Z.eqb_neq; lia).
      rewrite Hidx.
      replace ((0 <=? Z.of_nat i) && (Z.of_nat i <? n))%Z with true
        by (symmetry; apply andb_true_iff; split; [apply Z.leb_le | apply Z.ltb_lt]; lia).
      by rewrite Nat2Z.id. }
    rewrite Heq, HistopathFacts.show_image_index, HistopathFacts.show_image_labels.
    split; [reflexivity|]. split; [reflexivity|]. split.
    + destruct (HistopathFacts.show_image_grading e
                  (Histopath.reset_selection (Histopath.set_index i s)))
        as [Hg|[_ Hg]]; rewrite Hg; reflexivity.
    + by exists img.
  - intros x Hne Hout. unfold Histopath.on_progress_click.
    set (n := Z.of_nat (length (Histopath.images s))) in *.
    assert (Hn : (0 < n)%Z).
    { subst n. destruct (Histopath.images s); [contradiction | simpl; lia]. }
    set (box_w := Z.max 2 (w / n)) in *.
    assert (Hbw : (2 <= box_w)%Z) by (subst box_w; lia).
    replace (n =? 0)%Z with false by (symmetry; apply Z.eqb_neq; lia).
    replace ((0 <=? x / box_w) && (x / box_w <? n))%Z with false; [reflexivity|].
    symmetry. apply andb_false_iff. destruct Hout as [Hneg|Hbig].
    + left. apply Z.leb_gt. apply Z.div_lt_upper_bound; lia.
    + right. apply Z.ltb_ge. apply Z.div_le_lower_bound; lia.
Qed.



(** X15. In a session, Relabel on an image that has a label removes
    exactly the record of that image: its key has no record afterwards,
    every other key keeps its record, the store has one record less, the
    position stays, and the information box "Relabel" is shown.  In the
    grading tool the form is reset and the comment box emptied. *)
Theorem X15_relabel_removes_exactly_the_record_on_display
    (croot : Path.path) (cname : option string) (ct0 : float) (ce0 : Clinical.env)
    (ctrace : list (Clinical.env * Clinical.event)) (cimg : Clinical.image)
    (root : Path.path) (name : option string) (t0 : float) (e0 : Histopath.env)
    (trace : list (Histopath.env * Histopath.event)) (e : Histopath.env)
    (img : Histopath.image) :
  (let cs := Clinical.session croot cname ct0 ce0 ctrace in
   Clinical.images cs !! Clinical.index cs = Some cimg ->
   Py.mem (Clinical.key cimg) (Clinical.labels cs) = true ->
   let cs' := Clinical.relabel_current cs in
   Py.get (Clinical.key cimg) (Clinical.labels cs') = None /\
   (forall k, k <> Clinical.key cimg ->
      Py.get k (Clinical.labels cs') = Py.get k (Clinical.labels cs)) /\
   length (Clinical.labels cs') + 1 = length (Clinical.labels cs) /\
   Clinical.index cs' = Clinical.index cs /\
   Clinical.log cs' = Clinical.log cs ++ [showinfo "Relabel"]) /\
  (let s := Histopath.session root name t0 e0 trace in
   Histopath.images s !! Histopath.index s = Some img ->
   Py.mem (Histopath.key img) (Histopath.labels s) = true ->
   let s' := Histopath.relabel_current e s in
   Py.get (Histopath.key img) (Histopath.labels s') = None /\
   (forall k, k <> Histopath.key img ->
      Py.get k (Histopath.labels s') = Py.get k (Histopath.labels s)) /\
   length (Histopath.labels s') + 1 = length (Histopath.labels s) /\
   Histopath.index s' = Histopath.index s /\
   Histopath.log s' = Histopath.log s ++ [showinfo "Relabel"] /\
   Histopath.comment_text s' = "" /\
   Histopath.current_grading s' = ∅).
Proof.
  split.
  - intros cs Himg Hmem cs'.
    destruct (ClinicalSession.clinical_session_tidy croot cname ct0 ce0 ctrace)
      as ((_ & (Hnd & _) & _) & _).
    fold cs in Hnd. simpl in Hnd.
    assert (Heq : cs' = Clinical.tell (showinfo "Relabel")
                          (Clinical.set_labels
                             (Py.del (Clinical.key cimg) (Clinical.labels cs)) cs)).
    { subst cs'. unfold Clinical.relabel_current. rewrite Himg.
      fold (Clinical.key cimg). by rewrite Hmem. }
    rewrite Heq. simpl.
    split; [by apply PyFacts.get_del_eq|].
    split; [intros k Hk; apply PyFacts.get_del_ne; congruence|].
    split; [by apply MoreFacts.length_del | by split].
  - intros s Himg Hmem s'.
    destruct (HistopathTidy.histopath_session_tidy root name t0 e0 trace)
      as ((_ & (Hnd & _)) & _).
    fold s in Hnd.
    destruct (MoveFacts.histopath_relabel_current_fields e s img Himg Hmem)
      as (Hidx & Hl & _ & Hlog).
    fold s' in Hidx, Hl, Hlog. rewrite Hl.
    split; [by apply PyFacts.get_del_eq|].
    split; [intros k Hk; apply PyFacts.get_del_ne; congruence|].
    split; [by apply MoreFacts.length_del|].
    split; [exact Hidx|]. split; [exact Hlog|].
    subst s'. unfold Histopath.relabel_current. rewrite Himg.
    fold (Histopath.key img). rewrite Hmem.
    match goal with |- context [Histopath.show_image e ?s1] =>
      destruct (MoveFacts.show_image_form e s1 img Himg) as (_ & Hg & Hc)
    end.
    rewrite Hg, Hc. simpl. by rewrite (PyFacts.get_del_eq _ _ Hnd).
Qed.

(** X16. In the grading tool, a submission on an image that had no label,
    then Previous, then Relabel, undoes the submission: the store, the
    position and the recorded durations are what they were before it (the
    image is not the last one, and the timer was running). *)
Theorem X16_submit_previous_relabel_undoes_the_submission
    (e1 e2 e3 : Histopath.env) (d : Histopath.pyval) (sub c : string)
    (s : Histopath.state) (img : Histopath.image) (t0 : float) :
  Histopath.images s !! Histopath.index s = Some img ->
  Histopath.index s + 1 < length (Histopath.images s) ->
  Py.get (Histopath.key img) (Histopath.labels s) = None ->
  Histopath.image_start_time s = Some t0 -> ftruth t0 = true ->
  let s1 := Histopath.save_label_to_storage e1 d sub c s in
  let s2 := Histopath.go_back e2 s1 in
  let s3 := Histopath.relabel_current e3 s2 in
  (Py.get (Histopath.key img) (Histopath.labels s1) = Some (Histopath.label_of img d sub c) /\
   Histopath.index s1 = Histopath.index s + 1 /\
   Histopath.times s1 = Histopath.times s ++ [fsub (Histopath.t_elapsed e1) t0]) /\
  (Histopath.labels s2 = Histopath.labels s1 /\
   Histopath.index s2 = Histopath.index s /\
   Histopath.times s2 = Histopath.times s) /\
  (Histopath.labels s3 = Histopath.labels s /\
   Histopath.index s3 = Histopath.index s /\
   Histopath.times s3 = Histopath.times s).
Proof.
  intros Himg Hlt Hfresh Ht0 Htrue s1 s2 s3.
  pose proof (HistopathFacts.save_label_to_storage_labels e1 d sub c s img Himg) as Hl1.
  pose proof (HistopathFacts.save_label_to_storage_index e1 d sub c s img Himg) as Hi1.
  pose proof (MoveFacts.save_label_to_storage_times e1 d sub c s img t0 Himg Ht0 Htrue)
    as Ht1.
  pose proof (HistopathFacts.save_label_to_storage_images e1 d sub c s) as Him1.
  fold s1 in Hl1, Hi1, Ht1, Him1.
  destruct (MoveFacts.go_back_fields e2 s1 ltac:(lia)) as (Hi2 & Hl2 & Him2 & Ht2).
  fold s2 in Hi2, Hl2, Him2, Ht2.
  assert (Hi2' : Histopath.index s2 = Histopath.index s) by lia.
  assert (Himg2 : Histopath.images s2 !! Histopath.index s2 = Some img)
    by (by rewrite Him2, Him1, Hi2').
  assert (Hmem2 : Py.mem (Histopath.key img) (Histopath.labels s2) = true).
  { unfold Py.mem. by rewrite Hl2, Hl1, PyFacts.get_set_eq. }
  destruct (MoveFacts.histopath_relabel_current_fields e3 s2 img Himg2 Hmem2)
    as (Hi3 & Hl3 & Ht3 & _).
  fold s3 in Hi3, Hl3, Ht3.
  split; [|split].
  - rewrite Hl1. split; [apply PyFacts.get_set_eq | by split].
  - split; [exact Hl2|]. split; [exact Hi2'|]. by rewrite Ht2, Ht1, removelast_last.
  - split; [by rewrite Hl3, Hl2, Hl1, MoreFacts.del_set_fresh|].
    split; [by rewrite Hi3|]. by rewrite Ht3, Ht2, Ht1, removelast_last.
Qed.

(** X17. In the grading tool, Next followed by Previous comes back to the
    same image with the same store, but the last recorded duration is
    gone: [go_back] pops [SESSION["times"]] although [next_image] recorded
    nothing. *)
Theorem X17_next_then_previous_drops_a_recorded_duration
    (e1 e2 : Histopath.env) (s : Histopath.state) :
  Histopath.index s + 1 < length (Histopath.images s) ->
  let s' := Histopath.go_back e2 (Histopath.next_image e1 s) in
  Histopath.index s' = Histopath.index s /\
  Histopath.labels s' = Histopath.labels s /\
  Histopath.times s' = removelast (Histopath.times s) /\
  (Histopath.times s <> [] ->
   length (Histopath.times s') + 1 = length (Histopath.times s)).
Proof.
  intros Hlt s'.
  destruct (MoveFacts.next_image_fields e1 s Hlt) as (Hi1 & Hl1 & _ & Ht1).
  destruct (MoveFacts.go_back_fields e2 (Histopath.next_image e1 s) ltac:(lia))
    as (Hi2 & Hl2 & _ & Ht2).
  fold s' in Hi2, Hl2, Ht2.
  split; [lia|]. split; [congruence|]. rewrite Ht2, Ht1. split; [reflexivity|].
  intros Hne. destruct (exists_last Hne) as (l & t & ->).
  rewrite removelast_last, length_app. simpl. lia.
Qed.

(** X18. Both tools write the summary beside the CSV file under the stem
    of its name followed by "_summary.txt".  The summary path is never the
    path of the CSV file itself, whatever the name and suffix of that
    file; computing it fails only for an output path with an empty name. *)
Theorem X18_summary_sits_beside_the_csv_and_never_replaces_it
    (output_file : Path.path) :
  Clinical.summary_path output_file = Histopath.get_summary_path output_file /\
  (Histopath.get_summary_path output_file = None <-> Path.name output_file = "") /\
  Path.stem output_file +:+ Path.suffix output_file = Path.name output_file /\
  (forall q, Histopath.get_summary_path output_file = Some q ->
     q <> output_file /\
     removelast q = removelast output_file /\
     Path.name q = Path.stem output_file +:+ "_summary.txt" /\
     Path.suffix q = ".txt").
Proof.
  split; [reflexivity|]. split; [|split; [apply PathFacts.stem_suffix|]].
  - unfold Histopath.get_summary_path, Path.with_name.
    destruct (Path.name output_file); simpl; split; congruence.
  - intros q Hq. unfold Histopath.get_summary_path in Hq.
    destruct (PathFacts.name_with_name _ _ _ Hq) as (Hname & Hparent & Hne).
    split; [|split; [exact Hparent|split; [exact Hname|]]].
    + intros ->. rewrite <- (PathFacts.stem_suffix output_file) in Hname at 1.
      apply PathFacts.append_inv_head in Hname.
      destruct (PathFacts.suffix_dot output_file) as [Hs|[r Hs]];
        rewrite Hs in Hname; discriminate.
    + unfold Path.suffix. rewrite Hname.
      destruct (Path.stem output_file) as [|c st]; [reflexivity|].
      rewrite PathFacts.append_cons.
      by rewrite (PathFacts.from_last_dot_app st "_summary.txt" ".txt").
Qed.

(** X19. In every session of the simple tool the per-case statistics of
    the summary are computed without KeyError, and they are right: a case
    has an entry exactly when it has a stored label; its "total" is the
    number of stored labels of the case, each of the three label entries
    the number of those with that label, and the three add up to the
    total. *)
Theorem X19_per_case_statistics_count_right
    (root : Path.path) (name : option string) (t0 : float) (e0 : Clinical.env)
    (trace : list (Clinical.env * Clinical.event)) :
  let s := Clinical.session root name t0 e0 trace in
  let rs := Py.values (Clinical.labels s) in
  exists stats,
    Clinical.case_stats s = Some stats /\
    Clinical.tallies rs stats /\
    forall c row, Py.get c stats = Some row ->
      exists total suspicious non_suspicious na,
        Py.get "total" row = Some total /\
        Py.get "Suspicious" row = Some suspicious /\
        Py.get "Non-Suspicious" row = Some non_suspicious /\
        Py.get "NA" row = Some na /\
        total = suspicious + non_suspicious + na /\ 0 < total.
Proof.
  intros s rs.
  destruct (ClinicalSession.clinical_session_tidy root name t0 e0 trace)
    as (_ & _ & Hrec & _).
  fold s in Hrec.
  assert (Hall : forall r, In r rs -> In (Clinical.label r) ["Suspicious"; "Non-Suspicious"; "NA"]).
  { intros r Hr. apply ClinicalSession.In_values in Hr as (k & Hkr).
    destruct (Hrec k r Hkr) as (img & l & c & _ & _ & -> & Hb). simpl.
    destruct Hb as [[-> _]|[[-> _]|[-> _]]]; tauto. }
  assert (Hstart : Clinical.tallies [] []) by (intros c r []).
  destruct (MoreFacts.fold_case_stats_tallies rs [] [] Hstart Hall)
    as (stats & Hfold & Ht).
  exists stats. split; [exact Hfold|]. split; [exact Ht|].
  intros c row Hrow. pose proof (Ht c) as Hc. rewrite Hrow in Hc.
  destruct Hc as ((r & Hr & Hcase) & Htot & Hlab).
  do 4 eexists. split; [exact Htot|].
  split; [apply Hlab; simpl; tauto|]. split; [apply Hlab; simpl; tauto|].
  split; [apply Hlab; simpl; tauto|].
  split; [by apply MoveFacts.count_in_case_sum | by eapply MoveFacts.count_in_case_pos].
Qed.

(** X20. The comment a submission of the grading tool works with is the
    content of the comment box without the whitespace around it: it is
    empty exactly when the box holds whitespace only, and otherwise
    neither begins nor ends with a whitespace character.  So a box of
    spaces and line breaks does not meet the comment requirement:
    Indeterminate and Ungradable are turned down as with an empty box. *)
Theorem X20_whitespace_is_no_comment (e : Histopath.env) (s : Histopath.state) :
  let g := Histopath.current_grading s in
  let comment := Histopath.entered_comment s in
  (comment = "" <-> Py.blank (Histopath.comment_text s)) /\
  (forall c rest, comment = String c rest -> Py.isspace c = false) /\
  (forall front c, comment = front +:+ String c "" -> Py.isspace c = false) /\
  (Py.blank (Histopath.comment_text s) ->
     (forall sub, Histopath.gget "diagnosis" g = Histopath.PStr "Indeterminate" ->
        Histopath.save_label_simple e sub s
        = Histopath.tell (showwarning "Comment Required") s) /\
     (Histopath.truthy (Histopath.gget "ungradable" g) = true ->
        Histopath.save_multi_tier_label e s
        = Histopath.tell (showwarning "Comment Required") s)).
Proof.
  intros g comment.
  split; [apply StripFacts.entered_comment_blank|].
  split; [intros c rest; apply StripFacts.strip_head|].
  split; [intros front c; apply StripFacts.rstrip_last|].
  intros Hb. apply StripFacts.entered_comment_blank in Hb. split.
  - intros sub Hd. unfold Histopath.save_label_simple.
    fold g. fold (Histopath.entered_comment s). by rewrite Hd, Hb.
  - intros Hu. unfold Histopath.save_multi_tier_label.
    fold g. fold (Histopath.entered_comment s). by rewrite Hu, Hb.
Qed.

(** X21. In a session of the grading tool, displaying an image that has a
    label puts its stored comment back into the comment box with an empty
    selection, and the comment a submission would then work with is that
    very comment: labelling the image again without touching the box
    stores the same comment. *)
Theorem X21_redisplay_puts_the_stored_comment_back
    (root : Path.path) (name : option string) (t0 : float) (e0 : Histopath.env)
    (trace : list (Histopath.env * Histopath.event)) (e : Histopath.env)
    (img : Histopath.image) (r : Histopath.label_record) :
  let s := Histopath.session root name t0 e0 trace in
  Histopath.images s !! Histopath.index s = Some img ->
  Py.get (Histopath.key img) (Histopath.labels s) = Some r ->
  let s' := Histopath.show_image e s in
  Histopath.comment_text s' = Histopath.comment r /\
  Histopath.entered_comment s' = Histopath.comment r /\
  Histopath.current_primary s' = None /\
  Histopath.current_grading s' = ∅.
Proof.
  intros s Himg Hget s'.
  destruct (HistopathTidy.histopath_session_tidy root name t0 e0 trace)
    as (_ & _ & Hrec & _).
  fold s in Hrec.
  destruct (Hrec _ _ (ClinicalSession.get_Some_In _ _ _ Hget))
    as (_ & _ & _ & _ & txt & Hstrip).
  destruct (MoveFacts.show_image_form e s img Himg) as (Hp & Hg & Hc).
  fold s' in Hp, Hg, Hc. rewrite Hget in Hc.
  split; [exact Hc|]. split; [|by split].
  unfold Histopath.entered_comment, Histopath.get_comment_text.
  rewrite Hc, Hstrip. apply StripFacts.strip_idem_newline.
Qed.

(** X22. In a session of the simple tool, Back with the cursor beyond the
    first entry of the history shows the image whose key is the entry just
    before the cursor: the cursor moves one entry back, the history and the
    store stay as they are, the last recorded duration is dropped, the
    window stays open and nothing is reported. *)
Theorem X22_back_shows_the_entry_before_the_cursor
    (root : Path.path) (name : option string) (t0 : float) (e0 : Clinical.env)
    (trace : list (Clinical.env * Clinical.event)) (e : Clinical.env) :
  let s := Clinical.session root name t0 e0 trace in
  Clinical.destroyed s = false -> (0 < Clinical.pointer s)%Z ->
  let s' := Clinical.go_back e s in
  exists img,
    nth_error (Clinical.history s) (Z.to_nat (Clinical.pointer s - 1))
    = Some (Clinical.key img) /\
    Clinical.images s' !! Clinical.index s' = Some img /\
    Clinical.history s' = Clinical.history s /\
    Clinical.pointer s' = (Clinical.pointer s - 1)%Z /\
    Clinical.labels s' = Clinical.labels s /\
    Clinical.times s' = removelast (Clinical.times s) /\
    Clinical.destroyed s' = false /\
    Clinical.log s' = Clinical.log s.
Proof.
  intros s Hlive Hpos s'.
  destruct (ClinicalSession.clinical_session_tidy root name t0 e0 trace)
    as ((Hnd & Hst & Hh & HJ & Hp) & _).
  fold s in Hnd, Hst, Hh, HJ, Hp. simpl in Hnd, Hst, Hh, HJ, Hp.
  destruct (Hp Hlive) as (img & Himg & Hge & Hnth).
  assert (Hlen : Z.to_nat (Clinical.pointer s) < length (Clinical.history s)).
  { apply nth_error_Some. congruence. }
  destruct (nth_error (Clinical.history s) (Z.to_nat (Clinical.pointer s - 1)))
    as [prev_key|] eqn:Hprev.
  2: { apply nth_error_None in Hprev. lia. }
  assert (Hin : In prev_key (map Clinical.key (Clinical.images s))).
  { apply Hh. by eapply nth_error_In. }
  destruct (ClinicalFacts.find_key_found prev_key 0 (Clinical.images s) Hin)
    as (i & img_i & Hf & Hi & Hk).
  exists img_i. split; [by rewrite Hk|].
  assert (Heq : exists s3,
            s' = Clinical.show_image e s3 /\
            Clinical.images s3 = Clinical.images s /\ Clinical.index s3 = i /\
            Clinical.history s3 = Clinical.history s /\
            Clinical.pointer s3 = (Clinical.pointer s - 1)%Z /\
            Clinical.labels s3 = Clinical.labels s /\
            Clinical.times s3 = removelast (Clinical.times s) /\
            Clinical.destroyed s3 = Clinical.destroyed s /\
            Clinical.log s3 = Clinical.log s).
  { subst s'. unfold Clinical.go_back.
    replace (0 <? Clinical.pointer s)%Z with true by (symmetry; by apply Z.ltb_lt).
    simpl. rewrite ClinicalFacts.getitem_nonneg, Hprev, Hf by lia. simpl.
    destruct (Clinical.times s) eqn:Ht; eexists; (split; [reflexivity|]); simpl;
      by rewrite ?Ht. }
  destruct Heq as (s3 & -> & Him3 & Hi3 & Hh3 & Hp3 & Hl3 & Ht3 & Hd3 & Hlog3).
  assert (Himg3 : Clinical.images s3 !! Clinical.index s3 = Some img_i)
    by (by rewrite Him3, Hi3).
  destruct (BackFacts.show_image_under_cursor e s3 img_i Himg3)
    as (Hh' & Hp' & Hd' & Hlog'); [lia | by rewrite Hh3, Hp3, Hk|].
  rewrite ClinicalFacts.clinical_show_image_images, ClinicalFacts.clinical_show_image_index,
    ClinicalFacts.clinical_show_image_labels, ClinicalFacts.clinical_show_image_times,
    Hh', Hp', Hd', Hlog'.
  split; [exact Himg3|]. split; [exact Hh3|]. split; [exact Hp3|].
  split; [exact Hl3|]. split; [exact Ht3|]. split; [congruence | exact Hlog3].
Qed.

(** X23. When several paths of the walk lead to one file, the catalog
    keeps the entry the walk reaches first: every entry of a catalog is
    the first of the walk with its key. *)
Theorem X23_catalog_keeps_the_path_reached_first (root : Path.path) :
  (forall img, In img (Clinical.find_clinical_images root) ->
     exists before after,
       Clinical.walk root = before ++ img :: after /\
       forall x, In x before -> Clinical.key x <> Clinical.key img) /\
  (forall img, In img (Histopath.find_histopath_images root) ->
     exists before after,
       Histopath.walk root = before ++ img :: after /\
       forall x, In x before -> Histopath.key x <> Histopath.key img).
Proof.
  split.
  - apply FirstFacts.find_clinical_images_first.
  - apply FirstFacts.find_histopath_images_first.
Qed.


End Further.

(** ** The further properties at work on the small machine *)

Section FurtherOnTheSmallMachine.
#[local] Existing Instance Demo.platform.
#[local] Existing Instance Demo.fs.

(** Membership in a list that computes. *)
Ltac in_computed_list := vm_compute; repeat (first [left; reflexivity | right]).

(** X1 at work: the photo of folder [clinical] stands after the first
    photo, and the 40x slide after the 10x slide. *)
Lemma X1_witness :
  Clinical.image_lt Demo.third_photo Demo.first_photo = false /\
  Histopath.image_lt Demo.second_slide Demo.first_slide = false /\
  (Histopath.img_mag_value Demo.first_slide
   <= Histopath.img_mag_value Demo.second_slide)%Z.
Proof.
  destruct (X1_catalogs_are_sorted_from_end_to_end ["data"]) as ((_ & Hc) & (_ & Hh)).
  assert (Hc0 : Clinical.find_clinical_images ["data"] !! 0 = Some Demo.first_photo)
    by (vm_compute; reflexivity).
  assert (Hc2 : Clinical.find_clinical_images ["data"] !! 2 = Some Demo.third_photo)
    by (vm_compute; reflexivity).
  assert (Hh0 : Histopath.find_histopath_images ["data"] !! 0 = Some Demo.first_slide)
    by (vm_compute; reflexivity).
  assert (Hh1 : Histopath.find_histopath_images ["data"] !! 1 = Some Demo.second_slide)
    by (vm_compute; reflexivity).
  split; [exact (Hc 0 2 _ _ ltac:(lia) Hc0 Hc2)|].
  destruct (Hh 0 1 _ _ ltac:(lia) Hh0 Hh1) as (Hlt & Hmag).
  split; [exact Hlt | apply Hmag; reflexivity].
Defined.

(** X2 at work: where the photo of folder [clinical] and the second slide
    come from. *)
Lemma X2_witness :
  (exists candidate,
     In (Clinical.img_path Demo.third_photo) (rglob candidate) /\
     (Py.contains "xc" (Py.lower (Path.name candidate)) = true \/
      Py.contains "clinical" (Py.lower (Path.name candidate)) = true)) /\
  (exists mag_dir,
     In (Histopath.img_path Demo.second_slide) (iterdir mag_dir) /\
     Histopath.img_magnification Demo.second_slide = Path.name mag_dir).
Proof.
  destruct (X2_catalog_entries_come_from_the_tree ["data"]) as (Hc & Hh).
  split.
  - destruct (Hc Demo.third_photo)
      as (case & visit & candidate & _ & _ & _ & _ & Hname & Hpath & _);
      [in_computed_list|].
    exists candidate. split; [exact Hpath | exact Hname].
  - destruct (Hh Demo.second_slide)
      as (case_dir & visit_dir & base & site & mag & _ & _ & _ & _ & _ & Hpath & _
          & _ & _ & _ & Hmag & _);
      [in_computed_list|].
    exists mag. split; [exact Hpath | exact Hmag].
Defined.

(** X3 at work: no digit gives 0, and "HE_40X_b" gives 40. *)
Lemma X3_witness :
  Histopath.extract_magnification "Tongue" = 0%Z /\
  Histopath.extract_magnification "HE_40X_b" = 40%Z.
Proof.
  destruct X3_magnification_is_the_number_before_the_x as (_ & Hnone & Hsome).
  split.
  - apply Hnone. intros c [<-|[<-|[<-|[<-|[<-|[<-|[]]]]]]]; reflexivity.
  - refine (Hsome "HE_" "40" "_b" "X"%char _ _ _ _).
    + intros c [<-|[<-|[<-|[]]]]; reflexivity.
    + discriminate.
    + intros c [<-|[<-|[]]]; reflexivity.
    + by right.
Defined.


(** X6 at work: with the three slides labelled the window is closed, past
    the last slide, after the completion box. *)
Lemma X6_witness :
  Histopath.index (Demo.slides Demo.label_all_slides)
  = length (Histopath.images (Demo.slides Demo.label_all_slides)) /\
  exists l t, Histopath.log (Demo.slides Demo.label_all_slides) = l ++ [showinfo t].
Proof.
  cbv beta delta [Demo.photos Demo.slides].
  destruct (X6_grading_window_closes_only_past_the_last_image
              ["data"] (Some "Asha") Demo.start_clock (Demo.histopath_env 100) Demo.label_all_slides)
    as (_ & _ & Hd).
  destruct Hd as (Hi & _ & l & t & Hlog & _); [vm_compute; reflexivity|].
  split; [exact Hi | exists l, t; exact Hlog].
Defined.

(** X7 at work: a session whose exports all succeed. *)
Lemma X7_witness :
  no_exception (Histopath.log (Demo.slides Demo.label_all_slides)) /\
  (Histopath.destroyed (Demo.slides Demo.label_all_slides) = false
   <-> Histopath.index (Demo.slides Demo.label_all_slides)
       < length (Histopath.images (Demo.slides Demo.label_all_slides))).
Proof.
  cbv beta delta [Demo.photos Demo.slides].
  refine (X7_grading_callbacks_never_raise_while_exports_succeed
            ["data"] (Some "Asha") Demo.start_clock (Demo.histopath_env 100) Demo.label_all_slides
            _ _).
  - reflexivity.
  - repeat constructor.
Defined.

(** X8 at work: the last slide submitted while the export fails. *)
Lemma X8_witness :
  let s' := Histopath.save_label_to_storage (Demo.failing_env 400)
              (Histopath.PStr "Normal") "Both" "" Demo.at_last_slide in
  Histopath.log s' = Histopath.log Demo.at_last_slide ++ [showerror "Error"] /\
  Histopath.save_label_to_storage (Demo.histopath_env 500)
    (Histopath.PStr "Normal") "Both" "" s'
  = Histopath.tell (raised "IndexError") s'.
Proof.
  intros s'.
  destruct (X8_last_submission_closes_the_window_unless_the_export_fails
              (Demo.failing_env 400) (Histopath.PStr "Normal") "Both" ""
              Demo.at_last_slide Demo.third_slide)
    as (_ & _ & _ & Hfail); [vm_compute; reflexivity | vm_compute; reflexivity |].
  destruct (Hfail eq_refl) as (_ & Hlog & Hraise).
  split; [exact Hlog | apply Hraise].
Defined.


(** X10 at work: the records stored for the second photo and for the first
    slide. *)
Lemma X10_witness :
  (exists img,
     In img (Clinical.find_clinical_images ["data"]) /\
     Clinical.key img = Clinical.key Demo.second_photo /\
     Clinical.file (Clinical.label_of Demo.second_photo "NA" "blurred")
     = Path.name (Clinical.img_path img)) /\
  (exists img,
     In img (Histopath.find_histopath_images ["data"]) /\
     Histopath.key img = Histopath.key Demo.first_slide /\
     Histopath.filename
       (Histopath.label_of Demo.first_slide (Histopath.PStr "Indeterminate") ""
          "out of focus")
     = Histopath.img_filename img).
Proof.
  destruct (X10_every_record_and_row_is_about_a_catalog_image
              ["data"] (Some "Asha") Demo.start_clock (Demo.clinical_env 100) Demo.label_two_photos
              ["data"] (Some "Asha") Demo.start_clock (Demo.histopath_env 100)
              Demo.label_slide_then_back (fun _ => "2026-01-01 10:00:00"))
    as ((Hc & _) & (Hh & _)).
  split.
  - destruct (Hc (Clinical.key Demo.second_photo)
                (Clinical.label_of Demo.second_photo "NA" "blurred"))
      as (img & Hin & Hk & _ & _ & Hf); [vm_compute; reflexivity|].
    exists img. split; [exact Hin | split; [exact Hk | exact Hf]].
  - destruct (Hh (Histopath.key Demo.first_slide)
                (Histopath.label_of Demo.first_slide (Histopath.PStr "Indeterminate") ""
                   "out of focus"))
      as (img & Hin & Hk & _ & _ & _ & _ & _ & Hf); [vm_compute; reflexivity|].
    exists img. split; [exact Hin | split; [exact Hk | exact Hf]].
Defined.

(** X12 at work: on a canvas 1300 wide with three slides, a click at 500
    shows the second slide, and a click at 1299 is right of the last
    rectangle. *)
Lemma X12_witness :
  Histopath.index
    (Histopath.on_progress_click (Demo.histopath_env 200) 500 1300 Demo.histopath_start)
  = 1 /\
  Histopath.on_progress_click (Demo.histopath_env 200) 1299 1300 Demo.histopath_start
  = Demo.histopath_start.
Proof.
  destruct (X12_click_on_a_drawn_box_shows_its_image
              (Demo.histopath_env 200) Demo.histopath_start 1300%Z) as (_ & Hin & Hout).
  split.
  - refine (proj1 (Hin 1 433%Z 865%Z "#95a5a6" 500%Z _ _ _));
      [lia | vm_compute; reflexivity | lia].
  - apply Hout; [vm_compute; discriminate | right; vm_compute; discriminate].
Defined.


(** X15 at work: Relabel on the first photo, and on the first slide, after
    coming back to it. *)
Lemma X15_witness :
  Py.get (Clinical.key Demo.first_photo)
    (Clinical.labels (Clinical.relabel_current (Demo.photos Demo.label_photo_then_back)))
  = None /\
  Py.get (Histopath.key Demo.first_slide)
    (Histopath.labels
       (Histopath.relabel_current (Demo.histopath_env 600)
          (Demo.slides Demo.label_slide_then_back)))
  = None.
Proof.
  cbv beta delta [Demo.photos Demo.slides].
  destruct (X15_relabel_removes_exactly_the_record_on_display
              ["data"] (Some "Asha") Demo.start_clock (Demo.clinical_env 100)
              Demo.label_photo_then_back Demo.first_photo
              ["data"] (Some "Asha") Demo.start_clock (Demo.histopath_env 100)
              Demo.label_slide_then_back (Demo.histopath_env 600) Demo.first_slide)
    as (Hc & Hh).
  split.
  - refine (proj1 (Hc _ _)); vm_compute; reflexivity.
  - refine (proj1 (Hh _ _)); vm_compute; reflexivity.
Defined.

(** X16 at work: the first slide submitted, then Previous, then Relabel. *)
Lemma X16_witness :
  let s1 := Histopath.save_label_to_storage (Demo.histopath_env 200)
              (Histopath.PStr "Normal") "Both" "" Demo.histopath_start in
  let s3 := Histopath.relabel_current (Demo.histopath_env 400)
              (Histopath.go_back (Demo.histopath_env 300) s1) in
  Histopath.labels s3 = Histopath.labels Demo.histopath_start /\
  Histopath.index s3 = Histopath.index Demo.histopath_start /\
  Histopath.times s3 = Histopath.times Demo.histopath_start.
Proof.
  intros s1 s3.
  refine (proj2 (proj2 (X16_submit_previous_relabel_undoes_the_submission
            (Demo.histopath_env 200) (Demo.histopath_env 300) (Demo.histopath_env 400)
            (Histopath.PStr "Normal") "Both" "" Demo.histopath_start Demo.first_slide
            106%Z _ _ _ _ _)));
    vm_compute; (reflexivity || lia).
Defined.

(** X17 at work: two durations recorded, Next then Previous leaves one. *)
Lemma X17_witness :
  let s' := Histopath.go_back (Demo.histopath_env 1100)
              (Histopath.next_image (Demo.histopath_env 1000) Demo.slides_out_of_order) in
  Histopath.index s' = Histopath.index Demo.slides_out_of_order /\
  Histopath.labels s' = Histopath.labels Demo.slides_out_of_order /\
  Histopath.times s' = removelast (Histopath.times Demo.slides_out_of_order).
Proof.
  intros s'.
  destruct (X17_next_then_previous_drops_a_recorded_duration
              (Demo.histopath_env 1000) (Demo.histopath_env 1100) Demo.slides_out_of_order)
    as (Hi & Hl & Ht & _); [vm_compute; lia|].
  split; [exact Hi | split; [exact Hl | exact Ht]].
Defined.

(** X18 at work: the summary of [out/labels.csv]. *)
Lemma X18_witness :
  Histopath.get_summary_path ["out"; "labels.csv"] = Some ["out"; "labels_summary.txt"] /\
  removelast ["out"; "labels_summary.txt"] = removelast ["out"; "labels.csv"] /\
  Path.suffix ["out"; "labels_summary.txt"] = ".txt".
Proof.
  destruct (X18_summary_sits_beside_the_csv_and_never_replaces_it ["out"; "labels.csv"])
    as (_ & _ & _ & Hq).
  destruct (Hq ["out"; "labels_summary.txt"] eq_refl) as (_ & Hparent & _ & Hsuffix).
  split; [reflexivity | split; [exact Hparent | exact Hsuffix]].
Defined.

(** X19 at work: the statistics of the four photos, three of CaseA. *)
Lemma X19_witness :
  exists total suspicious non_suspicious na,
    Clinical.case_stats (Demo.photos Demo.label_all_photos)
    = Some [("CaseA", [("total", total); ("Suspicious", suspicious);
                       ("Non-Suspicious", non_suspicious); ("NA", na)]);
            ("CaseB", [("total", 1); ("Suspicious", 1);
                       ("Non-Suspicious", 0); ("NA", 0)])] /\
    total = suspicious + non_suspicious + na /\ 0 < total.
Proof.
  cbv beta delta [Demo.photos Demo.slides].
  destruct (X19_per_case_statistics_count_right
              ["data"] (Some "Asha") Demo.start_clock (Demo.clinical_env 100) Demo.label_all_photos)
    as (stats & Hstats & _ & Hrows).
  assert (Hval : Clinical.case_stats
                   (Clinical.session ["data"] (Some "Asha") Demo.start_clock
                      (Demo.clinical_env 100) Demo.label_all_photos)
                 = Some [("CaseA", [("total", 3); ("Suspicious", 1);
                                    ("Non-Suspicious", 1); ("NA", 1)]);
                         ("CaseB", [("total", 1); ("Suspicious", 1);
                                    ("Non-Suspicious", 0); ("NA", 0)])])
    by (vm_compute; reflexivity).
  rewrite Hval in Hstats. injection Hstats as <-.
  destruct (Hrows "CaseA" _ eq_refl)
    as (total & suspicious & non_suspicious & na & Ht & Hs & Hn & Ha & Hsum & Hpos).
  injection Ht as <-. injection Hs as <-. injection Hn as <-. injection Ha as <-.
  exists 3, 1, 1, 1. split; [exact Hval | split; [reflexivity | lia]].
Defined.

(** X20 at work: Indeterminate with a box of three spaces. *)
Lemma X20_witness :
  Histopath.entered_comment Demo.indeterminate_blank = "" /\
  Histopath.save_label_simple (Demo.histopath_env 300) "" Demo.indeterminate_blank
  = Histopath.tell (showwarning "Comment Required") Demo.indeterminate_blank.
Proof.
  destruct (X20_whitespace_is_no_comment (Demo.histopath_env 300) Demo.indeterminate_blank)
    as (Hiff & _ & _ & Hrej).
  assert (Hb : Py.blank (Histopath.comment_text Demo.indeterminate_blank)).
  { intros c Hin. vm_compute in Hin. destruct Hin as [<-|[<-|[<-|[]]]]; reflexivity. }
  split; [apply Hiff; exact Hb|].
  refine (proj1 (Hrej Hb) "" _). vm_compute. reflexivity.
Defined.

(** X21 at work: the first slide, labelled Indeterminate with the comment
    " out of focus ", is displayed again. *)
Lemma X21_witness :
  Histopath.entered_comment
    (Histopath.show_image (Demo.histopath_env 600) (Demo.slides Demo.label_slide_then_back))
  = "out of focus".
Proof.
  cbv beta delta [Demo.photos Demo.slides].
  pose proof (X21_redisplay_puts_the_stored_comment_back
                ["data"] (Some "Asha") Demo.start_clock (Demo.histopath_env 100)
                Demo.label_slide_then_back (Demo.histopath_env 600) Demo.first_slide
                (Histopath.label_of Demo.first_slide (Histopath.PStr "Indeterminate") ""
                   "out of focus")) as Hshow.
  cbv zeta in Hshow.
  refine (proj1 (proj2 (Hshow _ _))); vm_compute; reflexivity.
Defined.

(** X22 at work: two photos labelled, the third on display, then Back. *)
Lemma X22_witness :
  exists img,
    nth_error (Clinical.history (Demo.photos Demo.label_two_photos))
              (Z.to_nat (Clinical.pointer (Demo.photos Demo.label_two_photos) - 1))
    = Some (Clinical.key img) /\
    Clinical.images (Clinical.go_back (Demo.clinical_env 400) (Demo.photos Demo.label_two_photos))
      !! Clinical.index
           (Clinical.go_back (Demo.clinical_env 400) (Demo.photos Demo.label_two_photos))
    = Some img.
Proof.
  cbv beta delta [Demo.photos Demo.slides].
  destruct (X22_back_shows_the_entry_before_the_cursor
              ["data"] (Some "Asha") Demo.start_clock (Demo.clinical_env 100) Demo.label_two_photos
              (Demo.clinical_env 400))
    as (img & Hkey & Himg & _); [vm_compute; reflexivity | vm_compute; reflexivity |].
  exists img. split; [exact Hkey | exact Himg].
Defined.

(** X23 at work: [img1.jpg] is reached twice, first in folder [XC_images],
    and that is the entry the catalog keeps. *)
Lemma X23_witness :
  exists before after,
    Clinical.walk ["data"] = before ++ Demo.second_photo :: after /\
    forall x, In x before -> Clinical.key x <> Clinical.key Demo.second_photo.
Proof.
  apply (proj1 (X23_catalog_keeps_the_path_reached_first ["data"]) Demo.second_photo).
  in_computed_list.
Defined.

End FurtherOnTheSmallMachine.
